(** * Retrieval and scoring core of the humanoid-robotics RAG backend

    Shallow embedding of
      - [VectorStorage.search] and [VectorStorage.validate_metadata]
        (src/Rag_Chatbot_Deployment/src/storage/vector_storage.py), and
      - [RetrievalService.retrieve_context]
        (src/backend/src/services/retrieval_service.py),
    followed by the properties stated about them.

    Modelling conventions.
      - Python values are the inductive [pyval]; dictionaries are association
        lists with string keys (first binding wins), objects are a class name
        with an attribute dictionary.
      - Python floats are modelled by exact rationals [Q]: rounding, infinities
        and NaN are outside the model.
      - Python [str] is modelled by [string]; case folding and white space are
        the ASCII ones.
      - A computation that may raise returns [outcome A]. *)

From Stdlib Require Import String Ascii List Bool Arith ZArith QArith Qminmax Lia Lqa.
From Stdlib Require Import Sorted Permutation DecimalString.
Import ListNotations.

Set Implicit Arguments.

Close Scope Q_scope.
Local Open Scope string_scope.
Local Open Scope list_scope.
Local Open Scope nat_scope.

(* ===================================================================== *)
(** * Python values and exceptions *)
(* ===================================================================== *)

#[warnings="-register-all"]
Inductive pyval : Type :=
| PNone
| PBool (b : bool)
| PInt (z : Z)
| PFloat (q : Q)
| PStr (s : string)
| PList (l : list pyval)
| PTuple (l : list pyval)
| PSet (l : list pyval)
| PDict (d : list (string * pyval))
| PObj (cls : string) (attrs : list (string * pyval)).

Inductive exn : Type :=
| AttributeError (msg : string)
| TypeError (msg : string)
| ValueError (msg : string)
| PydanticValidationError                 (* raised by a pydantic model constructor *)
| CollaboratorError (cls msg : string)    (* any other exception of Cohere or Qdrant *)
| ValidationError (msg : string)          (* src.models.error_models.ValidationError *)
| RetrievalError (cause : exn).
  (* [RetrievalError cause] stands for
     RetrievalError(f"Failed to retrieve context: {str(cause)}"). *)

Inductive outcome (A : Type) : Type :=
| Ok (a : A)
| Raise (e : exn).

Arguments Ok {A} a.
Arguments Raise {A} e.

Definition bind {A B : Type} (m : outcome A) (k : A -> outcome B) : outcome B :=
  match m with
  | Ok a => k a
  | Raise e => Raise e
  end.

Notation "x <- m ;; k" := (bind m (fun x => k))
  (at level 61, m at next level, right associativity).

(** [try: m except _: d] for a handler that catches what [m] can raise. *)
Definition try_default {A : Type} (m : outcome A) (d : A) : A :=
  match m with
  | Ok a => a
  | Raise _ => d
  end.

(* ===================================================================== *)
(** * Strings *)
(* ===================================================================== *)

Definition lower_char (c : ascii) : ascii :=
  let n := nat_of_ascii c in
  if andb (65 <=? n) (n <=? 90) then ascii_of_nat (n + 32) else c.

(** [str.lower()] *)
Fixpoint lower (s : string) : string :=
  match s with
  | EmptyString => EmptyString
  | String c t => String (lower_char c) (lower t)
  end.

(** White space of [str.split()] and [str.strip()] without argument. *)
Definition is_space (c : ascii) : bool :=
  let n := nat_of_ascii c in
  orb (andb (9 <=? n) (n <=? 13)) (orb (andb (28 <=? n) (n <=? 31)) (n =? 32)).

Definition flush (cur : list ascii) (acc : list string) : list string :=
  match cur with
  | [] => acc
  | _ => string_of_list_ascii (rev cur) :: acc
  end.

(** One pass over the characters: [cur] is the word being read (reversed),
    [acc] the words already closed (reversed). *)
Fixpoint split_aux (s : string) (cur : list ascii) (acc : list string) : list string :=
  match s with
  | EmptyString => rev (flush cur acc)
  | String c t =>
      if is_space c then split_aux t [] (flush cur acc)
      else split_aux t (c :: cur) acc
  end.

(** [str.split()] *)
Definition split (s : string) : list string := split_aux s [] [].

Fixpoint mem_char (c : ascii) (chars : string) : bool :=
  match chars with
  | EmptyString => false
  | String d t => orb (Ascii.eqb c d) (mem_char c t)
  end.

Fixpoint lstrip_by (p : ascii -> bool) (s : string) : string :=
  match s with
  | EmptyString => EmptyString
  | String c t => if p c then lstrip_by p t else s
  end.

Definition rev_string (s : string) : string :=
  string_of_list_ascii (rev (list_ascii_of_string s)).

Definition strip_by (p : ascii -> bool) (s : string) : string :=
  rev_string (lstrip_by p (rev_string (lstrip_by p s))).

(** [s.strip(chars)] *)
Definition strip_chars (chars : string) (s : string) : string :=
  strip_by (fun c => mem_char c chars) s.

(** [s.strip()] *)
Definition strip (s : string) : string := strip_by is_space s.

(** [needle in hay] on strings *)
Fixpoint contains (needle hay : string) : bool :=
  orb (String.prefix needle hay)
      (match hay with
       | EmptyString => false
       | String _ t => contains needle t
       end).

(** [s[:n]] *)
Definition take (n : nat) (s : string) : string := String.substring 0 n s.

Definition is_empty (s : string) : bool :=
  match s with
  | EmptyString => true
  | _ => false
  end.

(* ===================================================================== *)
(** * Python built-ins used by the source *)
(* ===================================================================== *)

Definition type_name (v : pyval) : string :=
  match v with
  | PNone => "NoneType"
  | PBool _ => "bool"
  | PInt _ => "int"
  | PFloat _ => "float"
  | PStr _ => "str"
  | PList _ => "list"
  | PTuple _ => "tuple"
  | PSet _ => "set"
  | PDict _ => "dict"
  | PObj cls _ => cls
  end.

Fixpoint lookup (k : string) (d : list (string * pyval)) : option pyval :=
  match d with
  | [] => None
  | (k', v) :: t => if String.eqb k k' then Some v else lookup k t
  end.

(** [d.get(k, default)] *)
Definition dict_get (d : list (string * pyval)) (k : string) (default : pyval) : pyval :=
  match lookup k d with
  | Some v => v
  | None => default
  end.

(** [k in d] *)
Definition dict_has (d : list (string * pyval)) (k : string) : bool :=
  match lookup k d with
  | Some _ => true
  | None => false
  end.

(** Instance attributes; the built-in types have none of the attributes the
    source asks for ([score], [score_], [similarity], [payload], [results],
    [points]). *)
Definition py_attr (v : pyval) (name : string) : option pyval :=
  match v with
  | PObj _ attrs => lookup name attrs
  | _ => None
  end.

(** [getattr(v, name, default)] *)
Definition getattr (v : pyval) (name : string) (default : pyval) : pyval :=
  match py_attr v name with
  | Some a => a
  | None => default
  end.

(** [hasattr(v, name)] *)
Definition hasattr (v : pyval) (name : string) : bool :=
  match py_attr v name with
  | Some _ => true
  | None => false
  end.

Definition isinstance_dict (v : pyval) : bool :=
  match v with PDict _ => true | _ => false end.

Definition isinstance_str (v : pyval) : bool :=
  match v with PStr _ => true | _ => false end.

Definition isinstance_list (v : pyval) : bool :=
  match v with PList _ => true | _ => false end.

(** [isinstance(v, int)]: [bool] is a subclass of [int]. *)
Definition isinstance_int (v : pyval) : bool :=
  match v with PInt _ | PBool _ => true | _ => false end.

(** [isinstance(v, (int, float))] *)
Definition isinstance_int_float (v : pyval) : bool :=
  match v with PInt _ | PBool _ | PFloat _ => true | _ => false end.

Definition Qeq_zero (q : Q) : bool := Qeq_bool q 0%Q.

(** Truth value of a Python object. *)
Definition truthy (v : pyval) : bool :=
  match v with
  | PNone => false
  | PBool b => b
  | PInt z => negb (Z.eqb z 0)
  | PFloat q => negb (Qeq_zero q)
  | PStr s => negb (is_empty s)
  | PList l | PTuple l | PSet l => match l with [] => false | _ => true end
  | PDict d => match d with [] => false | _ => true end
  | PObj _ _ => true
  end.

(** [len(v)] *)
Definition py_len (v : pyval) : outcome nat :=
  match v with
  | PStr s => Ok (String.length s)
  | PList l | PTuple l | PSet l => Ok (List.length l)
  | PDict d => Ok (List.length d)
  | _ => Raise (TypeError ("object of type '" ++ type_name v ++ "' has no len()"))
  end.

(** Receiver of a [str] method call [v.name(...)]: the string itself, or the
    exception raised by the attribute access or by the call. *)
Definition str_method (v : pyval) (name : string) : outcome string :=
  match v with
  | PStr s => Ok s
  | PObj _ attrs =>
      match lookup name attrs with
      | Some a => Raise (TypeError ("'" ++ type_name a ++ "' object is not callable"))
      | None => Raise (AttributeError
                         ("'" ++ type_name v ++ "' object has no attribute '" ++ name ++ "'"))
      end
  | _ => Raise (AttributeError
                  ("'" ++ type_name v ++ "' object has no attribute '" ++ name ++ "'"))
  end.

(** Python's [min(a, b)]: the first argument unless the second is smaller. *)
Definition py_min (a b : Q) : Q := if Qle_bool a b then a else b.

(* ===================================================================== *)
(** * VectorStorage *)
(* ===================================================================== *)

Module VectorStorage.

(** ** Relevance scoring (search, lines 306-308 and 418-432) *)

(** The characters stripped from both ends of a term: single quote, double
    quote, full stop, comma, exclamation and question marks, and the three
    kinds of brackets. *)
Definition punctuation : string :=
  string_of_list_ascii
    ["'"; "034"; "."; ","; "!"; "?"; "("; ")"; "["; "]"; "{"; "}"]%char.

(** [[term.strip(...) for term in query.lower().split() if len(term) > 2]] *)
Definition query_terms (query : string) : list string :=
  map (strip_chars punctuation)
      (filter (fun term => 2 <? String.length term) (split (lower query))).

Definition term_matches (content_lower title_lower term : string) : bool :=
  orb (contains term content_lower) (contains term title_lower).

(** The counting loop over [query_terms]. *)
Definition count_matched (terms : list string) (content_lower title_lower : string) : nat :=
  fold_left
    (fun matched term =>
       if term_matches content_lower title_lower term then S matched else matched)
    terms 0%nat.

Definition boost_factor (matched_terms : nat) : Q :=
  (1 + inject_Z (Z.of_nat matched_terms) * 0.2)%Q.

Definition apply_boost (score : Q) (matched_terms : nat) : Q :=
  if (0 <? matched_terms)%nat
  then py_min (score * boost_factor matched_terms)%Q 1%Q
  else score.

(** The scorer as a function of what it reads: the coerced score, the
    payload's content and title, and the query. *)
Definition boost_score (score : Q) (content title query : string) : Q :=
  apply_boost score (count_matched (query_terms query) (lower content) (lower title)).

(** ** Result normalisation (search, lines 310-416) *)

(** The payload coercion repeated in every branch:
    a dict is kept, a str degrades to [{}], anything else gives its
    [__dict__] when it has one and [{}] otherwise. *)
Definition coerce_payload (raw_payload : pyval) : pyval :=
  match raw_payload with
  | PDict d => PDict d
  | PStr _ => PDict []
  | PObj _ attrs => PDict attrs
  | _ => PDict []
  end.

(** Score of a hit without a [score] attribute. *)
Definition probe_score (hit : pyval) : pyval :=
  getattr hit "score" (getattr hit "score_" (getattr hit "similarity" (PFloat 0%Q))).

(** Payload and raw score of one raw hit, by shape. Objects are records of
    attributes: they have no [__getitem__], and reading an attribute that
    [hasattr] has found does not fail, so the handler of AttributeError around
    [result.score] is never entered. *)
Definition extract_hit (hit : pyval) : outcome (pyval * pyval) :=
  match hit with
  | PTuple items =>
      let '(raw_payload, score) :=
        match items with
        | [a; b] => (a, b)
        | _ => (nth 0 items (PDict []), nth 1 items (PFloat 0%Q))
        end in
      Ok (coerce_payload raw_payload, score)
  | PDict d =>
      let raw_payload := dict_get d "payload" (PDict d) in
      Ok (coerce_payload raw_payload,
          dict_get d "score" (dict_get d "score" (PFloat 0%Q)))
  | PList _ =>
      (* has __getitem__ and is not a str, but has no method get *)
      Raise (AttributeError "'list' object has no attribute 'get'")
  | _ =>
      match py_attr hit "score" with
      | Some score =>
          Ok (coerce_payload (getattr hit "payload" (PDict [])), score)
      | None =>
          Ok (coerce_payload (getattr hit "payload" (PDict [])), probe_score hit)
      end
  end.

(** The "additional safety check" on sequence and collection scores. *)
Definition collapse_score (score : pyval) : pyval :=
  match score with
  | PTuple (x :: _) => if isinstance_int_float x then x else PFloat 0%Q
  | PList (x :: _) => if isinstance_int_float x then x else PFloat 0%Q
  | PList [] => PFloat 0%Q
  | PSet _ => PFloat 0%Q
  | PDict _ => PFloat 0%Q
  | _ => score
  end.

Section Scoring.

(** Python's [float] on a [str]: the value when the text is a float literal,
    [None] when it raises [ValueError]. *)
Variable float_of_str : string -> option Q.

(** [float(v)] *)
Definition py_float (v : pyval) : outcome Q :=
  match v with
  | PBool b => Ok (if b then 1%Q else 0%Q)
  | PInt z => Ok (inject_Z z)
  | PFloat q => Ok q
  | PStr s =>
      match float_of_str s with
      | Some q => Ok q
      | None => Raise (ValueError "could not convert string to float")
      end
  | _ => Raise (TypeError "float() argument must be a string or a real number")
  end.

(** Score coercion: the safety check, then [float] guarded by
    [except (TypeError, ValueError)]. *)
Definition coerce_score (score : pyval) : Q :=
  try_default (py_float (collapse_score score)) 0%Q.


End Scoring.

(** ** Metadata validation (validate_metadata, lines 469-539) *)

Record ValidationReport : Type := mkReport {
  valid : bool;
  errors : list string;
  warnings : list string
}.

(** [valid = False; errors.append(msg)] *)
Definition add_error (r : ValidationReport) (msg : string) : ValidationReport :=
  {| valid := false; errors := errors r ++ [msg]; warnings := warnings r |}.

(** [warnings.append(msg)] *)
Definition add_warning (r : ValidationReport) (msg : string) : ValidationReport :=
  {| valid := valid r; errors := errors r; warnings := warnings r ++ [msg] |}.

Definition required_result_fields : list string :=
  ["score"; "payload"; "url"; "title"; "content"].

Definition required_payload_fields : list string :=
  ["url"; "title"; "content"; "headings"; "chunk_index"; "source_document"; "metadata"].

Definition check_result_fields (result : list (string * pyval)) (r : ValidationReport)
  : ValidationReport :=
  fold_left
    (fun r field =>
       if dict_has result field then r
       else add_error r ("Missing required field: " ++ field))
    required_result_fields r.

(** The if/elif chain on the field name. *)
Definition check_field_type (field : string) (value : pyval) (r : ValidationReport)
  : ValidationReport :=
  if String.eqb field "url" || String.eqb field "title"
     || String.eqb field "content" || String.eqb field "source_document" then
    if isinstance_str value then r
    else add_error r ("Payload field '" ++ field ++ "' must be a string")
  else if String.eqb field "headings" then
    if isinstance_list value then r
    else add_error r ("Payload field '" ++ field ++ "' must be a list")
  else if String.eqb field "chunk_index" then
    if isinstance_int value then r
    else add_error r ("Payload field '" ++ field ++ "' must be an integer")
  else if String.eqb field "metadata" then
    if isinstance_dict value then r
    else add_error r ("Payload field '" ++ field ++ "' must be a dictionary")
  else r.

Definition check_payload_field (payload : list (string * pyval)) (r : ValidationReport)
  (field : string) : ValidationReport :=
  match lookup field payload with
  | None => add_error r ("Missing required payload field: " ++ field)
  | Some value => check_field_type field value r
  end.

Definition check_payload (result : list (string * pyval)) (r : ValidationReport)
  : ValidationReport :=
  match dict_get result "payload" (PDict []) with
  | PDict payload => fold_left (check_payload_field payload) required_payload_fields r
  | _ => add_error r "Payload must be a dictionary"
  end.

Definition url_prefixes : list string :=
  ["http://"; "https://"; "/"; "#"; "mailto:"; "tel:"].

(** [url.startswith((...))] on a str *)
Definition startswith_any (s : string) (prefixes : list string) : bool :=
  existsb (fun p => String.prefix p s) prefixes.

Definition check_url (result : list (string * pyval)) (r : ValidationReport)
  : outcome ValidationReport :=
  match lookup "url" result with
  | Some url =>
      if truthy url then
        s <- str_method url "startswith" ;;
        Ok (if startswith_any s url_prefixes then r
            else add_warning r
                   ("URL may not be properly formatted: " ++ take 50 s ++ "..."))
      else Ok r
  | None => Ok r
  end.

Definition check_title (result : list (string * pyval)) (r : ValidationReport)
  : outcome ValidationReport :=
  match lookup "title" result with
  | Some title =>
      n <- py_len title ;;
      Ok (if 500 <? n then add_warning r "Title appears to be excessively long" else r)
  | None => Ok r
  end.

Definition check_content (result : list (string * pyval)) (r : ValidationReport)
  : outcome ValidationReport :=
  match lookup "content" result with
  | Some content =>
      n <- py_len content ;;
      if n <? 10 then
        s <- str_method content "strip" ;;
        Ok (if negb (is_empty (strip s))
            then add_warning r "Content appears to be very short" else r)
      else Ok r
  | None => Ok r
  end.

Definition empty_report : ValidationReport :=
  {| valid := true; errors := []; warnings := [] |}.

(** The structural half: required fields and payload types. It cannot raise. *)
Definition structural_checks (result : list (string * pyval)) : ValidationReport :=
  check_payload result (check_result_fields result empty_report).

Definition validate_metadata (result : list (string * pyval)) : outcome ValidationReport :=
  r <- check_url result (structural_checks result) ;;
  r <- check_title result r ;;
  check_content result r.

(** ** Semantic search (search, lines 201-467) *)

(** One entry of the list returned by [search]: the keys of [result_dict]. *)
Record SearchResult : Type := mkSearchResult {
  sr_score : Q;
  sr_payload : pyval;
  sr_url : pyval;
  sr_title : pyval;
  sr_content : string;
  sr_query_time : Q;
  sr_metadata_validation : ValidationReport
}.

(** What [search] talks to: the environment, the Cohere client, the three
    search methods a Qdrant client may expose, and the clock. *)
Record Collaborators : Type := mkCollaborators {
  cohere_api_key : option string;
  embed : string -> outcome (list Q);
  client_search : list Q -> Z -> outcome pyval;
  client_search_points : list Q -> Z -> outcome pyval;
  client_query_points : list Q -> Z -> outcome pyval;
  elapsed : Q
}.

(** The two locals of the method chain, with the calls made so far. *)
Record Attempts : Type := mkAttempts {
  search_results : pyval;
  last_exception : option exn;
  calls : list string
}.

(** One [try] block, guarded by [if search_results is None]. *)
Definition try_method (name : string) (call : outcome pyval) (st : Attempts) : Attempts :=
  match search_results st with
  | PNone =>
      match call with
      | Ok v =>
          {| search_results := v; last_exception := last_exception st;
             calls := calls st ++ [name] |}
      | Raise e =>
          {| search_results := PNone; last_exception := Some e;
             calls := calls st ++ [name] |}
      end
  | _ => st
  end.

Definition try_methods (c : Collaborators) (query_embedding : list Q) (limit : Z) : Attempts :=
  let st := {| search_results := PNone; last_exception := None; calls := [] |} in
  let st := try_method "search" (client_search c query_embedding (limit * 2)%Z) st in
  let st := try_method "search_points" (client_search_points c query_embedding (limit * 2)%Z) st in
  try_method "query_points" (client_query_points c query_embedding (limit * 2)%Z) st.

(** Iteration target: [.results], then [.points], then the response itself. *)
Definition search_result_items (response : pyval) : pyval :=
  if hasattr response "results" then getattr response "results" PNone
  else if hasattr response "points" then getattr response "points" PNone
  else response.

Fixpoint chars (s : string) : list pyval :=
  match s with
  | EmptyString => []
  | String c t => PStr (String c EmptyString) :: chars t
  end.

(** The elements a [for] loop visits. *)
Definition py_iter (v : pyval) : outcome (list pyval) :=
  match v with
  | PList l | PTuple l | PSet l => Ok l
  | PDict d => Ok (map (fun kv => PStr (fst kv)) d)
  | PStr s => Ok (chars s)
  | _ => Raise (TypeError ("'" ++ type_name v ++ "' object is not iterable"))
  end.

(** [payload.get(key, default)] *)
Definition payload_get (payload : pyval) (key : string) (default : pyval) : outcome pyval :=
  match payload with
  | PDict d => Ok (dict_get d key default)
  | _ => Raise (AttributeError
                  ("'" ++ type_name payload ++ "' object has no attribute 'get'"))
  end.

(** The top-level [content]: at most 200 characters, then an ellipsis. *)
Definition preview (content : string) : string :=
  if 200 <? String.length content then take 200 content ++ "..." else content.

Definition result_dict (score : Q) (payload url title : pyval) (content : string)
  (query_time : Q) : list (string * pyval) :=
  [("score", PFloat score); ("payload", payload); ("url", url); ("title", title);
   ("content", PStr (preview content)); ("query_time", PFloat query_time)].

Fixpoint map_outcome {A B : Type} (f : A -> outcome B) (l : list A) : outcome (list B) :=
  match l with
  | [] => Ok []
  | x :: t => y <- f x ;; ys <- map_outcome f t ;; Ok (y :: ys)
  end.

Definition Qlt_bool (a b : Q) : bool := negb (Qle_bool b a).

(** [list.sort(key=score, reverse=True)]: stable, highest score first. *)
Fixpoint insert_desc (x : SearchResult) (l : list SearchResult) : list SearchResult :=
  match l with
  | [] => [x]
  | y :: t =>
      if Qlt_bool (sr_score x) (sr_score y) then y :: insert_desc x t
      else x :: y :: t
  end.

Definition sort_desc (l : list SearchResult) : list SearchResult :=
  fold_right insert_desc [] l.

Section Search.

Variable float_of_str : string -> option Q.

(** Body of the loop over the raw hits. *)
Definition normalize_hit (query : string) (query_time : Q) (hit : pyval)
  : outcome SearchResult :=
  extracted <- extract_hit hit ;;
  let '(payload, raw_score) := extracted in
  let score := coerce_score float_of_str raw_score in
  content_v <- payload_get payload "content" (PStr "") ;;
  content <- str_method content_v "lower" ;;
  title_v <- payload_get payload "title" (PStr "") ;;
  title <- str_method title_v "lower" ;;
  let score := boost_score score content title query in
  url_v <- payload_get payload "url" (PStr "") ;;
  validation <- validate_metadata
                  (result_dict score payload url_v title_v content query_time) ;;
  Ok {| sr_score := score; sr_payload := payload; sr_url := url_v; sr_title := title_v;
        sr_content := preview content; sr_query_time := query_time;
        sr_metadata_validation := validation |}.

Definition search (c : Collaborators) (query : string) (limit : Z)
  : outcome (list SearchResult) :=
  match cohere_api_key c with
  | None | Some EmptyString =>
      Raise (ValueError "COHERE_API_KEY environment variable is required for search")
  | Some _ =>
      query_embedding <- embed c query ;;
      let st := try_methods c query_embedding limit in
      match search_results st with
      | PNone =>
          Raise (match last_exception st with
                 | Some e => e
                 | None => AttributeError
                             "Qdrant client does not have a recognized search method."
                 end)
      | response =>
          hits <- py_iter (search_result_items response) ;;
          results <- map_outcome (normalize_hit query (elapsed c)) hits ;;
          Ok (sort_desc results)
      end
  end.

End Search.

End VectorStorage.

(* ===================================================================== *)
(** * RetrievalService *)
(* ===================================================================== *)

Module RetrievalService.

Import VectorStorage.

(** src/backend/src/models/agent_models.py *)
Record RetrievedContext : Type := mkRetrievedContext {
  score : Q;
  content : string;
  url : string;
  title : string;
  headings : list string;
  chunk_index : Z;
  source_document : string;
  metadata : list (string * pyval)
}.

Fixpoint all_str (l : list pyval) : option (list string) :=
  match l with
  | [] => Some []
  | PStr s :: t => option_map (cons s) (all_str t)
  | _ :: _ => None
  end.

(** The pydantic constructor: [score] is constrained by [ge=0.0, le=1.0] and
    every field by its annotation. A value of another Python type is
    rejected here; pydantic's conversions between types are not modelled. *)
Definition new_RetrievedContext (score : Q)
  (content url title headings chunk_index source_document metadata : pyval)
  : outcome RetrievedContext :=
  if Qle_bool 0%Q score && Qle_bool score 1%Q then
    match content, url, title, headings, chunk_index, source_document, metadata with
    | PStr c, PStr u, PStr t, PList hs, PInt i, PStr d, PDict m =>
        match all_str hs with
        | Some hs' =>
            Ok {| score := score; content := c; url := u; title := t; headings := hs';
                  chunk_index := i; source_document := d; metadata := m |}
        | None => Raise PydanticValidationError
        end
    | _, _, _, _, _, _, _ => Raise PydanticValidationError
    end
  else Raise PydanticValidationError.

Section Retrieve.

Variable float_of_str : string -> option Q.

(** Body of the loop that converts a search result. *)
Definition to_context (result : SearchResult) : outcome RetrievedContext :=
  let payload := sr_payload result in
  content <- payload_get payload "content" (PStr "") ;;
  url <- payload_get payload "url" (PStr "") ;;
  title <- payload_get payload "title" (PStr "") ;;
  headings <- payload_get payload "headings" (PList []) ;;
  chunk_index <- payload_get payload "chunk_index" (PInt 0) ;;
  source_document <- payload_get payload "source_document" (PStr "") ;;
  metadata <- payload_get payload "metadata" (PDict []) ;;
  new_RetrievedContext (sr_score result)
    content url title headings chunk_index source_document metadata.

(** The [try] block of [retrieve_context]. *)
Definition retrieve_body (c : Collaborators) (query : string) (top_k : Z) (min_score : Q)
  : outcome (list RetrievedContext) :=
  search_results <- search float_of_str c query top_k ;;
  let filtered_results :=
    filter (fun result => Qle_bool min_score (sr_score result)) search_results in
  map_outcome to_context filtered_results.

Definition retrieve_context (c : Collaborators) (query : string) (top_k : Z) (min_score : Q)
  : outcome (list RetrievedContext) :=
  if is_empty query || is_empty (strip query) then
    Raise (ValidationError "Query cannot be empty")
  else if (top_k <? 1)%Z || (20 <? top_k)%Z then
    Raise (ValidationError "top_k must be between 1 and 20")
  else if Qlt_bool min_score 0%Q || Qlt_bool 1%Q min_score then
    Raise (ValidationError "min_score must be between 0.0 and 1.0")
  else
    match retrieve_body c query top_k min_score with
    | Ok retrieved_contexts => Ok retrieved_contexts
    | Raise e => Raise (RetrievalError e)
    end.

End Retrieve.

End RetrievalService.

Import VectorStorage RetrievalService.

(* ===================================================================== *)
(** * The scorer as the specification words it *)
(* ===================================================================== *)

Module Spec.

(** "count how many distinct query terms appear in content or title" *)
Definition distinct_matched (query content title : string) : nat :=
  List.length
    (nodup string_dec
       (filter (term_matches (lower content) (lower title)) (query_terms query))).

(** "if matched_terms > 0 ... multiply the raw score by 1.0 + matched_terms * 0.2
    and clamp to 1.0; if zero terms match, the score passes through" *)
Definition boosted (score : Q) (content title query : string) : Q :=
  let matched_terms := distinct_matched query content title in
  if 0 <? matched_terms
  then Qmin (score * (1 + inject_Z (Z.of_nat matched_terms) * 0.2))%Q 1%Q
  else score.

(** "url/title/content/source_document -> string; headings -> ordered sequence
    of strings; chunk_index -> non-negative integer; metadata -> mapping" *)
Definition type_contract (field : string) (value : pyval) : bool :=
  if String.eqb field "url" || String.eqb field "title"
     || String.eqb field "content" || String.eqb field "source_document" then
    isinstance_str value
  else if String.eqb field "headings" then
    match value with
    | PList l | PTuple l => forallb isinstance_str l
    | _ => false
    end
  else if String.eqb field "chunk_index" then
    match value with
    | PInt z => (0 <=? z)%Z
    | PBool _ => true
    | _ => false
    end
  else if String.eqb field "metadata" then isinstance_dict value
  else true.

(** "valid=false iff at least one required-field/type check fails" *)
Definition checks_pass (result : list (string * pyval)) : bool :=
  forallb (dict_has result) required_result_fields
  && match dict_get result "payload" (PDict []) with
     | PDict payload =>
         forallb
           (fun field =>
              match lookup field payload with
              | Some value => type_contract field value
              | None => false
              end)
           required_payload_fields
     | _ => false
     end.

End Spec.

(* ===================================================================== *)
(** * The checks of validate_metadata as a table *)
(* ===================================================================== *)

Module Contract.

(** The Python type each payload field is tested against. *)
Definition type_contract (field : string) (value : pyval) : bool :=
  if String.eqb field "url" || String.eqb field "title"
     || String.eqb field "content" || String.eqb field "source_document" then
    isinstance_str value
  else if String.eqb field "headings" then isinstance_list value
  else if String.eqb field "chunk_index" then isinstance_int value
  else if String.eqb field "metadata" then isinstance_dict value
  else true.

Definition payload_field_ok (payload : list (string * pyval)) (field : string) : bool :=
  match lookup field payload with
  | Some value => type_contract field value
  | None => false
  end.

(** The message of a missing top-level field. *)
Definition missing_field (field : string) : string :=
  "Missing required field: " ++ field.

(** The message appended when a payload field fails its check. *)
Definition payload_field_message (payload : list (string * pyval)) (field : string) : string :=
  match lookup field payload with
  | None => "Missing required payload field: " ++ field
  | Some _ =>
      if String.eqb field "url" || String.eqb field "title"
         || String.eqb field "content" || String.eqb field "source_document"
      then "Payload field '" ++ field ++ "' must be a string"
      else if String.eqb field "headings"
      then "Payload field '" ++ field ++ "' must be a list"
      else if String.eqb field "chunk_index"
      then "Payload field '" ++ field ++ "' must be an integer"
      else "Payload field '" ++ field ++ "' must be a dictionary"
  end.


(** The three top-level fields that the warnings read are absent or strings. *)
Definition text_fields (result : list (string * pyval)) : Prop :=
  forall (key : string) (value : pyval),
    In key ["url"; "title"; "content"] ->
    lookup key result = Some value -> isinstance_str value = true.

(** Scores in non-increasing order. *)
Definition non_increasing (scores : list Q) : Prop :=
  StronglySorted (fun a b => (b <= a)%Q) scores.

(** The parameters [retrieve_context] accepts. *)
Definition valid_query (query : string) (top_k : Z) (min_score : Q) : Prop :=
  strip query <> "" /\ (1 <= top_k <= 20)%Z /\ (0 <= min_score <= 1)%Q.

(** The order [search] leaves its results in. *)
Definition by_score_desc (a b : SearchResult) : Prop := (sr_score b <= sr_score a)%Q.

End Contract.

(* ===================================================================== *)
(** * Concrete inputs *)
(* ===================================================================== *)

Module Fixtures.

(** A Python runtime in which no text is a float literal; the examples below
    never pass a str as a score. *)
Definition no_float_text : string -> option Q := fun _ => None.

(** A payload with the seven fields of the collection schema. *)
Definition chunk_payload (url title content : string) (chunk_index : Z)
  : list (string * pyval) :=
  [("url", PStr url); ("title", PStr title); ("content", PStr content);
   ("headings", PList [PStr "Overview"]); ("chunk_index", PInt chunk_index);
   ("source_document", PStr "book.md"); ("metadata", PDict [])].

(** A hit as the modern client returns it: an object with [score] and [payload]. *)
Definition scored_point (id : Z) (score : Q) (content : string) : pyval :=
  PObj "ScoredPoint"
    [("id", PInt id); ("score", PFloat score);
     ("payload", PDict (chunk_payload "https://example.com/book" "Locomotion" content id))].

Definition six_hits : pyval :=
  PList [scored_point 0 0.9%Q "Bipedal walking needs balance control.";
         scored_point 1 0.8%Q "Zero moment point criteria for gait.";
         scored_point 2 0.7%Q "Actuators in the knee joint.";
         scored_point 3 0.6%Q "Inertial measurement units.";
         scored_point 4 0.5%Q "Battery packs and power budget.";
         scored_point 5 0.4%Q "Compliant foot design."].

Definition unavailable (name : string) : outcome pyval :=
  Raise (AttributeError ("'QdrantClient' object has no attribute '" ++ name ++ "'")).

(** A Qdrant client with the modern [search] method only, answering six hits
    to a request for 2 * 3 candidates. *)
Definition qdrant_six : Collaborators :=
  {| cohere_api_key := Some "key";
     embed := fun _ => Ok [0.1%Q; 0.2%Q];
     client_search := fun _ _ => Ok six_hits;
     client_search_points := fun _ _ => unavailable "search_points";
     client_query_points := fun _ _ => unavailable "query_points";
     elapsed := 0.01%Q |}.

(** A Qdrant client whose three methods all fail. *)
Definition qdrant_down : Collaborators :=
  {| cohere_api_key := Some "key";
     embed := fun _ => Ok [0.1%Q; 0.2%Q];
     client_search := fun _ _ => Raise (CollaboratorError "ConnectionError" "refused");
     client_search_points := fun _ _ => unavailable "search_points";
     client_query_points :=
       fun _ _ => Raise (CollaboratorError "UnexpectedResponse" "502 Bad Gateway");
     elapsed := 0.01%Q |}.

(** An embedding provider that fails. *)
Definition cohere_down : Collaborators :=
  {| cohere_api_key := Some "key";
     embed := fun _ => Raise (CollaboratorError "CohereAPIError" "too many requests");
     client_search := fun _ _ => Ok six_hits;
     client_search_points := fun _ _ => unavailable "search_points";
     client_query_points := fun _ _ => unavailable "query_points";
     elapsed := 0.01%Q |}.

(** Class name of an exception, as Python prints it. *)
Definition class_name (e : exn) : string :=
  match e with
  | AttributeError _ => "AttributeError"
  | TypeError _ => "TypeError"
  | ValueError _ => "ValueError"
  | PydanticValidationError => "ValidationError"
  | CollaboratorError cls _ => cls
  | ValidationError _ => "ValidationError"
  | RetrievalError _ => "RetrievalError"
  end.

(** Scenario A in two shapes: a (payload, score) pair and a scored point that
    differ in everything but score, content and title. *)
Definition ros_pair : pyval :=
  PTuple [PDict (chunk_payload "https://example.com/ros" "ROS" "ROS 2 architecture uses DDS" 0);
          PFloat 0.4%Q].

Definition ros_point : pyval :=
  PObj "ScoredPoint"
    [("score", PFloat 0.4%Q);
     ("payload", PDict [("content", PStr "ROS 2 architecture uses DDS");
                        ("title", PStr "ROS"); ("url", PStr "/docs/ros")])].

(** The envelope of the unit test in tests/unit/test_vector_storage.py. *)
Definition envelope (payload url : pyval) : list (string * pyval) :=
  [("score", PFloat 0.8%Q); ("payload", payload); ("url", url);
   ("title", PStr "Test Title"); ("content", PStr "Test content")].

Definition test_payload : list (string * pyval) :=
  chunk_payload "https://example.com" "Test Title" "Test content" 0.

Fixpoint replicate (n : nat) (s : string) : string :=
  match n with
  | O => EmptyString
  | S m => s ++ replicate m s
  end.

(** 270 characters of content. *)
Definition long_content : string := replicate 30 "humanoid ".

Definition long_hits : pyval := PList [scored_point 0 0.9%Q long_content].

Definition qdrant_long : Collaborators :=
  {| cohere_api_key := Some "key";
     embed := fun _ => Ok [0.1%Q; 0.2%Q];
     client_search := fun _ _ => Ok long_hits;
     client_search_points := fun _ _ => unavailable "search_points";
     client_query_points := fun _ _ => unavailable "query_points";
     elapsed := 0.01%Q |}.

(** A payload whose headings are numbers and whose chunk index is negative. *)
Definition loose_payload : list (string * pyval) :=
  [("url", PStr "https://example.com"); ("title", PStr "Test Title");
   ("content", PStr "Test content"); ("headings", PList [PInt 1; PInt 2]);
   ("chunk_index", PInt (-1)); ("source_document", PStr "doc1"); ("metadata", PDict [])].

(** A payload whose url is the number 5. *)
Definition numeric_url_payload : list (string * pyval) :=
  [("url", PInt 5); ("title", PStr "Test Title"); ("content", PStr "Test content");
   ("headings", PList [PStr "Heading 1"]); ("chunk_index", PInt 0);
   ("source_document", PStr "doc1"); ("metadata", PDict [])].


End Fixtures.

Import Contract Fixtures.


(* ===================================================================== *)
(** * VectorStorage: ingestion and health check *)
(* ===================================================================== *)

Module Storage.

(** src/embeddings/embedding_generator.py *)
Record EmbeddedChunk : Type := mkEmbeddedChunk {
  ec_url : string;
  ec_title : string;
  ec_content : string;
  ec_headings : list string;
  ec_chunk_index : Z;
  ec_source_document : string;
  ec_embedding : list Q;
  ec_metadata : list (string * pyval)
}.

(** qdrant_client's PointStruct *)
Record PointStruct : Type := mkPointStruct {
  ps_id : Z;
  ps_vector : list Q;
  ps_payload : list (string * pyval)
}.

(** The collection-level methods of the Qdrant client, and the sample
    searches [verify_storage] issues (vector [0.1] * 1024, limit 1). *)
Record QdrantAdmin : Type := mkQdrantAdmin {
  get_collection : outcome pyval;
  create_collection : outcome unit;
  upsert : list PointStruct -> outcome unit;
  sample_search : outcome pyval;
  sample_search_points : outcome pyval;
  sample_query_points : outcome pyval
}.

(** Calls that changed the collection, in the order they completed. *)
Inductive call : Type :=
| CreateCollection
| Upsert (batch : list PointStruct).

(** [v.name] *)
Definition attribute (v : pyval) (name : string) : outcome pyval :=
  match py_attr v name with
  | Some a => Ok a
  | None => Raise (AttributeError
                     ("'" ++ type_name v ++ "' object has no attribute '" ++ name ++ "'"))
  end.

(** initialize_collection, lines 34-53: the bare [except] also covers the
    read of [points_count] for the log line. *)
Definition initialize_collection (q : QdrantAdmin) : list call * outcome unit :=
  match (collection_info <- get_collection q ;; attribute collection_info "points_count") with
  | Ok _ => ([], Ok tt)
  | Raise _ =>
      match create_collection q with
      | Ok _ => ([CreateCollection], Ok tt)
      | Raise e => ([], Raise e)
      end
  end.

Definition chunk_payload_fields (chunk : EmbeddedChunk) : list (string * pyval) :=
  [("url", PStr (ec_url chunk)); ("title", PStr (ec_title chunk));
   ("content", PStr (ec_content chunk));
   ("headings", PList (map PStr (ec_headings chunk)));
   ("chunk_index", PInt (ec_chunk_index chunk));
   ("source_document", PStr (ec_source_document chunk));
   ("metadata", PDict (ec_metadata chunk))].

Definition batch_size : nat := 100.

(** [range(0, stop, step)] *)
Definition range_step (stop step : nat) : list nat :=
  map (fun k => k * step) (seq 0 ((stop + step - 1) / step)).

(** [l[i:j]] for [i <= j] *)
Definition slice {A : Type} (l : list A) (i j : nat) : list A :=
  firstn (j - i) (skipn i l).

(** The upload loop over the batch starts. *)
Fixpoint upload (q : QdrantAdmin) (points : list PointStruct) (starts : list nat)
  : list call * outcome unit :=
  match starts with
  | [] => ([], Ok tt)
  | i :: rest =>
      let batch := slice points i (i + batch_size) in
      match upsert q batch with
      | Ok _ =>
          let '(log, r) := upload q points rest in
          (Upsert batch :: log, r)
      | Raise e => ([], Raise e)
      end
  end.

Section StoreChunks.

(** [uuid.uuid4().int] for the chunk at a given position. *)
Variable fresh_id : nat -> Z.

Fixpoint make_points (position : nat) (embedded_chunks : list EmbeddedChunk)
  : list PointStruct :=
  match embedded_chunks with
  | [] => []
  | chunk :: rest =>
      {| ps_id := fresh_id position; ps_vector := ec_embedding chunk;
         ps_payload := chunk_payload_fields chunk |}
      :: make_points (S position) rest
  end.

(** store_chunks, lines 55-95 *)
Definition store_chunks (q : QdrantAdmin) (embedded_chunks : list EmbeddedChunk)
  : list call * outcome unit :=
  let '(log0, r0) := initialize_collection q in
  match r0 with
  | Raise e => (log0, Raise e)
  | Ok _ =>
      let points := make_points 0 embedded_chunks in
      let '(log, r) := upload q points (range_step (List.length points) batch_size) in
      (log0 ++ log, r)
  end.

End StoreChunks.

(** The batches a log says were uploaded. *)
Fixpoint uploaded (log : list call) : list (list PointStruct) :=
  match log with
  | [] => []
  | CreateCollection :: rest => uploaded rest
  | Upsert batch :: rest => batch :: uploaded rest
  end.

(** [get_collection] answers with an object that has [points_count]. *)
Definition collection_found (q : QdrantAdmin) : Prop :=
  exists collection_info count,
    get_collection q = Ok collection_info
    /\ py_attr collection_info "points_count" = Some count.

(** ** verify_storage, lines 97-199 *)

(** The dict [verify_storage] returns; [error] is [str(e)] of the exception
    caught, absent on success. *)
Record StorageReport : Type := mkStorageReport {
  vector_count : pyval;
  sample_search_works : bool;
  collection_exists : bool;
  error : option exn
}.

Definition try_sample_methods (q : QdrantAdmin) : Attempts :=
  let st := {| search_results := PNone; last_exception := None; calls := [] |} in
  let st := try_method "search" (sample_search q) st in
  let st := try_method "search_points" (sample_search_points q) st in
  try_method "query_points" (sample_query_points q) st.

(** [hasattr(v, '__len__')] *)
Definition has_len (v : pyval) : bool :=
  match v with
  | PStr _ | PList _ | PTuple _ | PSet _ | PDict _ => true
  | _ => false
  end.

(** [hasattr(v, '__getitem__')] *)
Definition has_getitem (v : pyval) : bool :=
  match v with
  | PStr _ | PList _ | PTuple _ | PDict _ => true
  | _ => false
  end.

(** [len(v) if v else 0] for a value with [__len__] *)
Definition len_or_zero (v : pyval) : nat :=
  if truthy v then try_default (py_len v) 0 else 0.

Definition result_count (response : pyval) : nat :=
  if has_len response then len_or_zero response
  else if hasattr response "results" && has_len (getattr response "results" PNone)
  then len_or_zero (getattr response "results" PNone)
  else if hasattr response "points" && has_len (getattr response "points" PNone)
  then len_or_zero (getattr response "points" PNone)
  else 0.  (* len raises TypeError, caught *)

(** [v[0]]; dictionaries have string keys, so the key 0 is missing. *)
Definition first_item (v : pyval) : outcome pyval :=
  match v with
  | PList (x :: _) | PTuple (x :: _) => Ok x
  | PList [] => Raise (CollaboratorError "IndexError" "list index out of range")
  | PTuple [] => Raise (CollaboratorError "IndexError" "tuple index out of range")
  | PStr (String ch _) => Ok (PStr (String ch EmptyString))
  | PStr EmptyString => Raise (CollaboratorError "IndexError" "string index out of range")
  | PDict _ => Raise (CollaboratorError "KeyError" "0")
  | _ => Raise (TypeError ("'" ++ type_name v ++ "' object is not subscriptable"))
  end.

(** [v[0] if v else None] *)
Definition first_or_none (v : pyval) : outcome pyval :=
  if truthy v then first_item v else Ok PNone.

Definition first_result (response : pyval) : outcome pyval :=
  if hasattr response "results" then first_or_none (getattr response "results" PNone)
  else if hasattr response "points" then first_or_none (getattr response "points" PNone)
  else first_or_none response.

Definition acceptable_hit (first : pyval) : bool :=
  hasattr first "score"
  || match first with PTuple _ => true | _ => false end
  || has_getitem first.

Definition sample_works (response : pyval) : outcome bool :=
  if 0 <? result_count response then
    first <- first_result response ;;
    Ok (match first with
        | PNone => false
        | _ => acceptable_hit first
        end)
  else Ok false.

(** The [try] block. *)
Definition verify_body (q : QdrantAdmin) : outcome (pyval * bool) :=
  collection_info <- get_collection q ;;
  count <- attribute collection_info "points_count" ;;
  let st := try_sample_methods q in
  match search_results st with
  | PNone =>
      Raise (match last_exception st with
             | Some e => e
             | None => AttributeError
                 "Qdrant client does not have a recognized search method for verification."
             end)
  | response =>
      works <- sample_works response ;;
      Ok (count, works)
  end.

Definition verify_storage (q : QdrantAdmin) : StorageReport :=
  match verify_body q with
  | Ok (count, works) =>
      {| vector_count := count; sample_search_works := works;
         collection_exists := true; error := None |}
  | Raise e =>
      {| vector_count := PInt 0; sample_search_works := false;
         collection_exists := false; error := Some e |}
  end.

(** ** validate_relevance_scoring, lines 541-604 *)

(** The number behind an int, bool or float. *)
Definition number (v : pyval) : option Q :=
  match v with
  | PBool b => Some (if b then 1%Q else 0%Q)
  | PInt z => Some (inject_Z z)
  | PFloat q => Some q
  | _ => None
  end.

(** [sum(values)]: the additions from the left, starting at the int 0; adding
    a value that is not a number raises TypeError. [floating] tells whether
    the running sum has become a float. *)
Fixpoint py_sum_from (acc : Q) (floating : bool) (values : list pyval) : outcome Q :=
  match values with
  | [] => Ok acc
  | v :: rest =>
      match number v with
      | Some q =>
          py_sum_from (acc + q)%Q
            (floating || match v with PFloat _ => true | _ => false end) rest
      | None => Raise (TypeError
                         ("unsupported operand type(s) for +: '"
                          ++ (if floating then "float" else "int")
                          ++ "' and '" ++ type_name v ++ "'"))
      end
  end.

Definition total (xs : list Q) : Q := fold_left Qplus xs 0%Q.

(** [min(xs)] and [max(xs)] keep the first of equal candidates. *)
Definition min_from (best : Q) (xs : list Q) : Q :=
  fold_left (fun best x => if Qlt_bool x best then x else best) xs best.

Definition max_from (best : Q) (xs : list Q) : Q :=
  fold_left (fun best x => if Qlt_bool best x then x else best) xs best.

(** The elements of [set(xs)], one per value. *)
Fixpoint distinct (xs : list Q) : list Q :=
  match xs with
  | [] => []
  | x :: rest =>
      if existsb (Qeq_bool x) rest then distinct rest else x :: distinct rest
  end.

Definition n_of (len : nat) : Q := inject_Z (Z.of_nat len).

Record ScoreAnalysis : Type := mkScoreAnalysis {
  sa_count : nat;
  sa_avg : Q;
  sa_min : Q;
  sa_max : Q;
  sa_range : option Q;
  sa_std_dev : option Q
}.

Record RelevanceIndicators : Type := mkRelevanceIndicators {
  is_differentiated : bool;
  has_meaningful_diff : option bool;
  scores_valid : option bool;
  score_distribution : option string
}.

Record RelevanceReport : Type := mkRelevanceReport {
  rr_valid : bool;
  score_analysis : ScoreAnalysis;
  relevance_indicators : RelevanceIndicators
}.

Section RelevanceScoring.

(** [x ** 0.5] on a float that is not negative. *)
Variable sqrt : Q -> Q.

Definition validate_relevance_scoring (results : list (list (string * pyval))) (query : string)
  : outcome RelevanceReport :=
  match results with
  | [] =>
      Ok {| rr_valid := true;
            score_analysis :=
              {| sa_count := 0; sa_avg := 0%Q; sa_min := 0%Q; sa_max := 0%Q;
                 sa_range := None; sa_std_dev := None |};
            relevance_indicators :=
              {| is_differentiated := false; has_meaningful_diff := None;
                 scores_valid := None; score_distribution := None |} |}
  | _ =>
      let scores := map (fun result => dict_get result "score" (PInt 0)) results in
      sum_scores <- py_sum_from 0%Q false scores ;;
      (* every score is a number from here on *)
      let xs := map (fun v => match number v with Some q => q | None => 0%Q end) scores in
      let len := List.length scores in
      let avg_score := (sum_scores / n_of len)%Q in
      let min_score := min_from (hd 0%Q xs) (tl xs) in
      let max_score := max_from (hd 0%Q xs) (tl xs) in
      let score_range := (max_score - min_score)%Q in
      let differentiated := (1 <? List.length (distinct xs)) || (len =? 1) in
      let std_dev :=
        if 1 <? len
        then sqrt (total (map (fun x => (x - avg_score) * (x - avg_score))%Q xs) / n_of len)%Q
        else 0%Q in
      let meaningful_diff := Qlt_bool 0.05%Q score_range in
      let valid_scores := forallb isinstance_int_float scores in
      Ok {| rr_valid := valid_scores && (0 <? len);
            score_analysis :=
              {| sa_count := len; sa_avg := avg_score; sa_min := min_score;
                 sa_max := max_score; sa_range := Some score_range;
                 sa_std_dev := Some std_dev |};
            relevance_indicators :=
              {| is_differentiated := differentiated;
                 has_meaningful_diff := Some meaningful_diff;
                 scores_valid := Some valid_scores;
                 score_distribution :=
                   Some (if Qlt_bool 0.1%Q score_range then "good" else "limited") |} |}
  end.

End RelevanceScoring.


End Storage.

(* ===================================================================== *)
(** * RetrievalService: quality report and statistics *)
(* ===================================================================== *)

Module RetrievalQuality.

Import Storage.

Record QualityReport : Type := mkQualityReport {
  qr_query : string;
  context_count : nat;
  has_content : bool;
  avg_score : Q;
  min_score : Q;
  max_score : Q;
  score_variance : Q;
  total_content_length : nat;
  has_valid_sources : bool
}.

(** validate_retrieval_quality, lines 89-123 *)
Definition validate_retrieval_quality (query : string) (contexts : list RetrievedContext)
  : QualityReport :=
  let base :=
    {| qr_query := query;
       context_count := List.length contexts;
       has_content := 0 <? List.length contexts;
       avg_score := 0%Q; min_score := 0%Q; max_score := 0%Q; score_variance := 0%Q;
       total_content_length :=
         fold_left Nat.add (map (fun ctx => String.length (content ctx)) contexts) 0;
       has_valid_sources :=
         match contexts with
         | [] => false
         | _ => forallb (fun ctx => negb (is_empty (url ctx))) contexts
         end |} in
  match map score contexts with
  | [] => base
  | first :: others =>
      let scores := first :: others in
      let avg := (total scores / n_of (List.length scores))%Q in
      {| qr_query := qr_query base;
         context_count := context_count base;
         has_content := has_content base;
         avg_score := avg;
         min_score := min_from first others;
         max_score := max_from first others;
         score_variance :=
           (total (map (fun s => (s - avg) * (s - avg))%Q scores)
            / n_of (List.length scores))%Q;
         total_content_length := total_content_length base;
         has_valid_sources := has_valid_sources base |}
  end.

(** get_retrieval_stats, lines 125-147: [verify_storage] catches every
    exception itself, so the handler here is never entered. *)
Definition get_retrieval_stats (q : QdrantAdmin) : StorageReport :=
  let verification := verify_storage q in
  {| vector_count := vector_count verification;
     sample_search_works := sample_search_works verification;
     collection_exists := collection_exists verification;
     error := error verification |}.

End RetrievalQuality.

(* ===================================================================== *)
(** * AIAgentService: confidence *)
(* ===================================================================== *)

Module Agent.

Import Storage.

(** _calculate_confidence, lines 296-327 of ai_agent_service.py; [float] of a
    score that is a float already cannot fail. *)
Definition calculate_confidence (contexts : list RetrievedContext) (is_valid : bool) : Q :=
  match contexts with
  | [] => 0%Q
  | _ =>
      let numeric_scores := map score contexts in
      let avg_score := (total numeric_scores / n_of (List.length numeric_scores))%Q in
      let score_factor := py_min (avg_score * 2)%Q 1%Q in
      let count_factor := py_min (n_of (List.length contexts) / 5)%Q 1%Q in
      let base_confidence := (score_factor * 0.6 + count_factor * 0.4)%Q in
      py_min base_confidence 1%Q
  end.

(** src/models/agent_models.py *)
Record AgentResponse : Type := mkAgentResponse {
  ar_query : string;
  ar_answer : string;
  ar_retrieved_context : list RetrievedContext;
  ar_confidence : Q;
  ar_sources : list string;
  ar_processing_time : Q;
  ar_timestamp : Q
}.

(** What [process_query] talks to besides the retrieval service: the chat
    completion (the content of the first choice, for the given messages and
    temperature), the two clock readings, the order in which Python lists a
    set of strings, and [str] of a float. *)
Record AgentEnv : Type := mkAgentEnv {
  chat : list (string * string) -> Q -> outcome pyval;
  processing_time : Q;
  timestamp : Q;
  list_of_set : list string -> list string;
  str_float : Q -> string
}.

Definition nl : string := String "010"%char EmptyString.

(** [str(n)] *)
Definition str_nat (n : nat) : string := NilZero.string_of_uint (Nat.to_uint n).

(** [sep.join(parts)] *)
Fixpoint join (sep : string) (parts : list string) : string :=
  match parts with
  | [] => EmptyString
  | [p] => p
  | p :: rest => p ++ sep ++ join sep rest
  end.

Section Formatting.

Variable env : AgentEnv.

Fixpoint context_parts (i : nat) (contexts : list RetrievedContext) : list string :=
  match contexts with
  | [] => []
  | ctx :: rest =>
      ("Context " ++ str_nat i ++ ":" ++ nl
       ++ "Title: " ++ title ctx ++ nl
       ++ "URL: " ++ url ctx ++ nl
       ++ "Content: " ++ content ctx ++ nl
       ++ "Score: " ++ str_float env (score ctx) ++ nl
       ++ "---" ++ nl)%string
      :: context_parts (S i) rest
  end.

(** _format_context_for_model, lines 272-294 *)
Definition format_context_for_model (contexts : list RetrievedContext) : string :=
  join nl
    (("Here is the relevant context from the humanoid robotics textbook:" ++ nl)%string
     :: context_parts 1 contexts).

End Formatting.

(** _generate_fallback_response, lines 257-270 *)
Definition generate_fallback_response (query : string) : string :=
  "I'm sorry, but I couldn't find any relevant information in the humanoid robotics textbook to answer your query: '"
  ++ query
  ++ "'. The content you're looking for may not be covered in the available materials. Please try rephrasing your question or consult other resources.".

Definition system_prompt : string :=
  "You are an expert assistant for the Humanoid Robotics textbook. Use ONLY the provided context to answer the user's question. If the exact information is not available, use related information from the context to provide the best possible answer. Do not make up information that is not in the context.".

Definition system_prompt_low : string :=
  system_prompt
  ++ " Note that the retrieved information may not be directly related to the query.".

Definition user_prompt (formatted_context query_text : string) : string :=
  "Context from Humanoid Robotics textbook:" ++ nl ++ nl ++ formatted_context
  ++ nl ++ nl ++ "Question: " ++ query_text ++ nl ++ nl
  ++ "Please provide a comprehensive answer based on the provided context. If the exact information is not available, use related information to provide the best possible answer.".

Definition user_prompt_low (formatted_context query_text : string) : string :=
  user_prompt formatted_context query_text
  ++ " If the context is not relevant to the query, please explain that the specific topic may not be covered in the textbook.".

(** Python's [max(a, b)]: the first argument unless the second is larger. *)
Definition py_max (a b : Q) : Q := if Qlt_bool a b then b else a.

(** The pydantic constructor: [confidence] is constrained by [ge=0.0, le=1.0];
    the other arguments have their annotated types already. *)
Definition new_AgentResponse (env : AgentEnv) (query answer : string)
  (retrieved_context : list RetrievedContext) (confidence : Q) (sources : list string)
  : outcome AgentResponse :=
  if Qle_bool 0%Q confidence && Qle_bool confidence 1%Q then
    Ok {| ar_query := query; ar_answer := answer;
          ar_retrieved_context := retrieved_context; ar_confidence := confidence;
          ar_sources := sources; ar_processing_time := processing_time env;
          ar_timestamp := timestamp env |}
  else Raise PydanticValidationError.

(** [list(set([ctx.url for ctx in contexts if ctx.url]))] *)
Definition unique_sources (env : AgentEnv) (contexts : list RetrievedContext) : list string :=
  list_of_set env
    (map url (filter (fun ctx => negb (is_empty (url ctx))) contexts)).

(** [response_text and "I don't know" not in response_text.lower()], as the
    truth value [_calculate_confidence] receives. *)
Definition grounded (response_text : string) : bool :=
  negb (is_empty response_text) && negb (contains "I don't know" (lower response_text)).

(** What [process_query] gives its caller: a response, or
    AgentError(f"Failed to process query: {str(cause)}"). *)
Inductive agent_outcome : Type :=
| Answered (response : AgentResponse)
| AgentError (cause : exn).

Section ProcessQuery.

Variable float_of_str : string -> option Q.
Variable c : Collaborators.
Variable env : AgentEnv.

(** The chat call and the clean-up of its answer. *)
Definition ask (system user : string) (temperature : Q) : outcome string :=
  reply <- chat env [("system", system); ("user", user)] temperature ;;
  text <- str_method reply "strip" ;;
  Ok (strip text).

(** The [try] block of process_query, lines 123-251. *)
Definition process_body (query_text : string) (top_k : Z) (min_score temperature : Q)
  : outcome AgentResponse :=
  retrieved_contexts <- retrieve_context float_of_str c query_text top_k min_score ;;
  match retrieved_contexts with
  | [] =>
      lower_threshold_results <- retrieve_context float_of_str c query_text top_k 0%Q ;;
      match lower_threshold_results with
      | _ :: _ =>
          let formatted_context := format_context_for_model env lower_threshold_results in
          response_text <- ask system_prompt_low
                             (user_prompt_low formatted_context query_text) temperature ;;
          let confidence :=
            (calculate_confidence lower_threshold_results (grounded response_text) * 0.5)%Q in
          let sources := unique_sources env lower_threshold_results in
          new_AgentResponse env query_text response_text lower_threshold_results
            (py_max confidence 0.1%Q) sources
      | [] =>
          new_AgentResponse env query_text (generate_fallback_response query_text)
            [] 0.1%Q []
      end
  | _ :: _ =>
      let formatted_context := format_context_for_model env retrieved_contexts in
      response_text <- ask system_prompt (user_prompt formatted_context query_text)
                         temperature ;;
      let confidence := calculate_confidence retrieved_contexts (grounded response_text) in
      let sources := unique_sources env retrieved_contexts in
      new_AgentResponse env query_text response_text retrieved_contexts confidence sources
  end.

Definition process_query (query_text : string) (top_k : Z) (min_score temperature : Q)
  : agent_outcome :=
  match process_body query_text top_k min_score temperature with
  | Ok agent_response => Answered agent_response
  | Raise e => AgentError e
  end.

End ProcessQuery.

End Agent.

(* ===================================================================== *)
(** * The HTTP endpoints (src/api/agent_endpoint.py) *)
(* ===================================================================== *)

Module Endpoint.

Import Storage.

(** src/models/api_models.py *)
Record HealthCheckResponse : Type := mkHealthCheckResponse {
  status : string;
  hc_timestamp : string;
  services : list (string * string)
}.

(** health_check, lines 22-54; [now] is [str(time.time())]. Neither the
    statistics nor the response constructor can fail, so the 503 branch is
    never taken. *)
Definition health_check (q : QdrantAdmin) (now : string) : HealthCheckResponse :=
  let retrieval_stats := RetrievalQuality.get_retrieval_stats q in
  let openai_compatible_api_accessible := true in
  {| status :=
       if collection_exists retrieval_stats && sample_search_works retrieval_stats
          && openai_compatible_api_accessible
       then "healthy" else "degraded";
     hc_timestamp := now;
     services :=
       [("qdrant",
         if collection_exists retrieval_stats then "connected" else "disconnected");
        ("retrieval_pipeline",
         if sample_search_works retrieval_stats then "operational" else "error");
        ("openai_compatible_api",
         if openai_compatible_api_accessible then "available" else "unavailable")] |}.






Section QueryAgent.

Variable float_of_str : string -> option Q.
Variable c : Collaborators.
Variable env : Agent.AgentEnv.

(** The endpoint's own stopwatch. *)
Variable request_time : Q.


End QueryAgent.

End Endpoint.

(* ===================================================================== *)
(** * More concrete inputs *)
(* ===================================================================== *)

Module MoreFixtures.

Import Storage.



(** A client whose [search] answers None and whose [search_points] answers. *)
Definition qdrant_silent : Collaborators :=
  {| cohere_api_key := Some "key";
     embed := fun _ => Ok [0.1%Q; 0.2%Q];
     client_search := fun _ _ => Ok PNone;
     client_search_points := fun _ _ => Ok six_hits;
     client_query_points := fun _ _ => unavailable "query_points";
     elapsed := 0.01%Q |}.

(** An index with a dot-product metric: the best hit scores above 1. *)
Definition qdrant_dot : Collaborators :=
  {| cohere_api_key := Some "key";
     embed := fun _ => Ok [0.1%Q; 0.2%Q];
     client_search :=
       fun _ _ => Ok (PList [scored_point 0 1.3%Q "Bipedal walking needs balance control.";
                             scored_point 1 0.8%Q "Zero moment point criteria for gait."]);
     client_search_points := fun _ _ => unavailable "search_points";
     client_query_points := fun _ _ => unavailable "query_points";
     elapsed := 0.01%Q |}.

Definition sample_chunk : EmbeddedChunk :=
  {| ec_url := "https://example.com/book/gait";
     ec_title := "Gait";
     ec_content := "Zero moment point criteria for gait.";
     ec_headings := ["Locomotion"; "Gait"];
     ec_chunk_index := 4;
     ec_source_document := "gait.md";
     ec_embedding := [0.1%Q; 0.2%Q];
     ec_metadata := [("lang", PStr "en")] |}.

(** A collection that exists and accepts every batch. *)
Definition qdrant_ready : QdrantAdmin :=
  {| get_collection := Ok (PObj "CollectionInfo" [("points_count", PInt 250)]);
     create_collection := Ok tt;
     upsert := fun _ => Ok tt;
     sample_search := Ok six_hits;
     sample_search_points := unavailable "search_points";
     sample_query_points := unavailable "query_points" |}.

(** A collection that does not exist yet and refuses batches of fewer than
    100 points. *)
Definition qdrant_picky : QdrantAdmin :=
  {| get_collection := Raise (CollaboratorError "UnexpectedResponse" "404 Not Found");
     create_collection := Ok tt;
     upsert := fun batch =>
       if List.length batch <? 100
       then Raise (CollaboratorError "UnexpectedResponse" "400 Bad Request")
       else Ok tt;
     sample_search := Raise (CollaboratorError "ConnectionError" "refused");
     sample_search_points := unavailable "search_points";
     sample_query_points :=
       Raise (CollaboratorError "UnexpectedResponse" "502 Bad Gateway") |}.

(** A collection that is found but cannot be searched. *)
Definition qdrant_blind : QdrantAdmin :=
  {| get_collection := Ok (PObj "CollectionInfo" [("points_count", PInt 250)]);
     create_collection := Ok tt;
     upsert := fun _ => Ok tt;
     sample_search := Raise (CollaboratorError "ConnectionError" "refused");
     sample_search_points := unavailable "search_points";
     sample_query_points :=
       Raise (CollaboratorError "UnexpectedResponse" "502 Bad Gateway") |}.

(** An empty collection. *)
Definition qdrant_empty : QdrantAdmin :=
  {| get_collection := Ok (PObj "CollectionInfo" [("points_count", PInt 0)]);
     create_collection := Ok tt;
     upsert := fun _ => Ok tt;
     sample_search := Ok (PList []);
     sample_search_points := unavailable "search_points";
     sample_query_points := unavailable "query_points" |}.

Definition two_contexts : list RetrievedContext :=
  [ {| score := 0.9%Q; content := "Bipedal walking needs balance control.";
       url := "https://example.com/book"; title := "Locomotion";
       headings := ["Overview"]; chunk_index := 0%Z; source_document := "book.md";
       metadata := [] |};
    {| score := 0.5%Q; content := "Battery packs and power budget.";
       url := "https://example.com/book"; title := "Power";
       headings := ["Overview"]; chunk_index := 4%Z; source_document := "book.md";
       metadata := [] |} ].

(** The three results of test_validate_relevance_scoring. *)
Definition unit_test_results : list (list (string * pyval)) :=
  map (fun s => [("score", PFloat s); ("payload", PDict []); ("url", PStr "");
                 ("title", PStr ""); ("content", PStr "")])
      [0.8%Q; 0.6%Q; 0.4%Q].

(** An index that finds nothing. *)
Definition qdrant_no_hits : Collaborators :=
  {| cohere_api_key := Some "key";
     embed := fun _ => Ok [0.1%Q; 0.2%Q];
     client_search := fun _ _ => Ok (PList []);
     client_search_points := fun _ _ => unavailable "search_points";
     client_query_points := fun _ _ => unavailable "query_points";
     elapsed := 0.01%Q |}.

(** A model that always gives the same reply. *)
Definition demo_env : Agent.AgentEnv :=
  {| Agent.chat := fun _ _ => Ok (PStr "  Balance is kept with ZMP control.  ");
     Agent.processing_time := 1.25%Q;
     Agent.timestamp := 0%Q;
     Agent.list_of_set := nodup string_dec;
     Agent.str_float := fun _ => "0.5" |}.

(** A model whose reply has no text. *)
Definition mute_env : Agent.AgentEnv :=
  {| Agent.chat := fun _ _ => Ok PNone;
     Agent.processing_time := 1.25%Q;
     Agent.timestamp := 0%Q;
     Agent.list_of_set := nodup string_dec;
     Agent.str_float := fun _ => "0.5" |}.


Definition chunk_ids (position : nat) : Z := Z.of_nat (1000 + position).

(** 250 chunks. *)
Definition many_chunks : list EmbeddedChunk := repeat sample_chunk 250.

End MoreFixtures.

Import MoreFixtures.

(* ===================================================================== *)
(** * RelevanceScorer *)
(* ===================================================================== *)

Lemma count_matched_from (terms : list string) (c t : string) (n : nat) :
  fold_left (fun matched term => if term_matches c t term then S matched else matched)
    terms n
  = n + List.length (filter (term_matches c t) terms).
Proof.
  revert n; induction terms as [|x xs IH]; intro n; simpl.
  - lia.
  - rewrite IH. destruct (term_matches c t x); simpl; lia.
Qed.

Lemma count_matched_filter (terms : list string) (c t : string) :
  count_matched terms c t = List.length (filter (term_matches c t) terms).
Proof. unfold count_matched. now rewrite count_matched_from. Qed.

Lemma py_min_le_r (a b : Q) : (py_min a b <= b)%Q.
Proof.
  unfold py_min. destruct (Qle_bool a b) eqn:E.
  - now apply Qle_bool_iff.
  - apply Qle_refl.
Qed.

Lemma py_min_Qmin (a b : Q) : (py_min a b == Qmin a b)%Q.
Proof.
  unfold py_min. destruct (Qle_bool a b) eqn:E.
  - apply Qle_bool_iff in E. symmetry. now apply Q.min_l.
  - assert (H : ~ (a <= b)%Q) by (rewrite <- Qle_bool_iff; congruence).
    symmetry. apply Q.min_r. apply Qlt_le_weak. now apply Qnot_le_lt.
Qed.

Lemma apply_boost_bound (score : Q) (matched : nat) :
  (score <= 1)%Q \/ 0 < matched -> (apply_boost score matched <= 1)%Q.
Proof.
  intros H. unfold apply_boost.
  destruct (0 <? matched) eqn:E.
  - apply py_min_le_r.
  - destruct H as [H | H]; [exact H |].
    apply Nat.ltb_ge in E. lia.
Qed.

(** C4, as the code has it. The query is lower-cased and split at white space,
    the pieces longer than two characters are kept and then stripped of
    surrounding punctuation; every kept term that occurs in the lower-cased
    content or title counts once per occurrence in the query (repeated terms
    are not merged). With [matched] such terms, the score is unchanged when
    [matched = 0] and otherwise is [min (score * (1.0 + matched * 0.2)) 1.0];
    raw score 0.4 with the two terms of "ros architecture" gives 0.56. *)
Theorem C4_boost_counts_every_term :
  (forall (score : Q) (content title query : string),
      let terms :=
        map (strip_chars punctuation)
            (filter (fun term => 2 <? String.length term) (split (lower query))) in
      let matched :=
        List.length
          (filter (fun term => contains term (lower content) || contains term (lower title))
                  terms) in
      boost_score score content title query
      = if matched =? 0 then score
        else py_min (score * (1 + inject_Z (Z.of_nat matched) * 0.2))%Q 1%Q)
  /\ (forall a : Q, py_min a 1%Q == Qmin a 1%Q)%Q
  /\ query_terms "ros architecture" = ["ros"; "architecture"]
  /\ count_matched (query_terms "ros architecture")
       (lower "ROS 2 architecture uses DDS") (lower "ROS") = 2
  /\ (boost_score 0.4%Q "ROS 2 architecture uses DDS" "ROS" "ros architecture" == 0.56)%Q.
Proof.
  split; [| split; [| split; [| split]]].
  - intros score content title query terms matched.
    unfold boost_score, apply_boost, boost_factor.
    rewrite count_matched_filter.
    fold terms. change (query_terms query) with terms.
    change (List.length (filter (term_matches (lower content) (lower title)) terms))
      with matched.
    destruct matched as [|m]; reflexivity.
  - intro a. apply py_min_Qmin.
  - reflexivity.
  - reflexivity.
  - vm_compute. reflexivity.
Qed.

(** C4 as stated fails: with the query "ros ros" the only distinct term is
    "ros", so the stated rule gives 0.4 * 1.2 = 0.48, but the code counts the
    term twice and returns 0.4 * 1.4 = 0.56. *)
Lemma C4_counterexample :
  Spec.distinct_matched "ros ros" "ROS 2 architecture uses DDS" "ROS" = 1
  /\ (Spec.boosted 0.4%Q "ROS 2 architecture uses DDS" "ROS" "ros ros" == 0.48)%Q
  /\ (boost_score 0.4%Q "ROS 2 architecture uses DDS" "ROS" "ros ros" == 0.56)%Q
  /\ ~ (boost_score 0.4%Q "ROS 2 architecture uses DDS" "ROS" "ros ros"
        == Spec.boosted 0.4%Q "ROS 2 architecture uses DDS" "ROS" "ros ros")%Q.
Proof.
  split; [| split; [| split]].
  - vm_compute. reflexivity.
  - vm_compute. reflexivity.
  - vm_compute. reflexivity.
  - vm_compute. discriminate.
Qed.
(* ===================================================================== *)
(** * ResultNormalizer *)
(* ===================================================================== *)

Lemma coerce_payload_dict (raw_payload : pyval) :
  exists d, coerce_payload raw_payload = PDict d.
Proof. destruct raw_payload; simpl; eauto. Qed.

Lemma extract_hit_dict (hit payload raw : pyval) :
  extract_hit hit = Ok (payload, raw) -> exists d, payload = PDict d.
Proof.
  intros H.
  destruct hit as [| b | z | q | s | l | l | l | d | cls attrs];
    simpl in H; try discriminate.
  all: try (destruct l as [|x1 [|x2 [|x3 l]]]; simpl in H).
  all: try (destruct (lookup "score" attrs)).
  all: inversion H; subst; first [apply coerce_payload_dict | eauto].
Qed.

Lemma str_method_ok (v : pyval) (name s : string) :
  str_method v name = Ok s -> v = PStr s.
Proof.
  destruct v; simpl; try discriminate.
  - intros H; inversion H; reflexivity.
  - destruct (lookup name attrs); discriminate.
Qed.

Lemma bind_ok {A B : Type} (m : outcome A) (k : A -> outcome B) (b : B) :
  bind m k = Ok b -> exists a, m = Ok a /\ k a = Ok b.
Proof. destruct m; simpl; [eauto | discriminate]. Qed.

(** What a successful [normalize_hit] did. *)
Lemma normalize_hit_ok (fs : string -> option Q) (query : string) (qt : Q)
  (hit : pyval) (r : SearchResult) :
  normalize_hit fs query qt hit = Ok r ->
  exists d raw content title rep,
    extract_hit hit = Ok (PDict d, raw)
    /\ dict_get d "content" (PStr "") = PStr content
    /\ dict_get d "title" (PStr "") = PStr title
    /\ validate_metadata
         (result_dict (boost_score (coerce_score fs raw) content title query)
            (PDict d) (dict_get d "url" (PStr "")) (PStr title) content qt) = Ok rep
    /\ r = {| sr_score := boost_score (coerce_score fs raw) content title query;
              sr_payload := PDict d;
              sr_url := dict_get d "url" (PStr "");
              sr_title := PStr title;
              sr_content := preview content;
              sr_query_time := qt;
              sr_metadata_validation := rep |}.
Proof.
  unfold normalize_hit. intros H.
  apply bind_ok in H as [[payload raw] [He H]].
  destruct (extract_hit_dict _ He) as [d ->].
  simpl in H.
  apply bind_ok in H as [content [Hc H]]. apply str_method_ok in Hc.
  apply bind_ok in H as [title [Ht H]]. apply str_method_ok in Ht.
  apply bind_ok in H as [rep [Hv H]].
  inversion H; subst r; clear H.
  exists d, raw, content, title, rep.
  rewrite Ht in *. repeat split; auto.
Qed.

(** C9, as the code has it. The boosted score written by [search] is a function
    of the coerced raw score, the payload's content and title, and the query
    alone: two hits that agree on these get the same score, whatever else
    their payloads hold and whenever they are scored. The boosted score is at
    most 1.0 when at least one term matches or when the raw score is itself
    at most 1.0. *)
Theorem C9_scorer_deterministic_and_capped :
  (forall (fs : string -> option Q) (query : string) (qt1 qt2 : Q)
          (hit1 hit2 : pyval) (d1 d2 : list (string * pyval)) (raw1 raw2 : pyval)
          (r1 r2 : SearchResult),
      extract_hit hit1 = Ok (PDict d1, raw1) ->
      extract_hit hit2 = Ok (PDict d2, raw2) ->
      coerce_score fs raw1 = coerce_score fs raw2 ->
      dict_get d1 "content" (PStr "") = dict_get d2 "content" (PStr "") ->
      dict_get d1 "title" (PStr "") = dict_get d2 "title" (PStr "") ->
      normalize_hit fs query qt1 hit1 = Ok r1 ->
      normalize_hit fs query qt2 hit2 = Ok r2 ->
      sr_score r1 = sr_score r2)
  /\ (forall (score : Q) (content title query : string),
        (score <= 1)%Q
        \/ 0 < count_matched (query_terms query) (lower content) (lower title) ->
        (boost_score score content title query <= 1)%Q).
Proof.
  split.
  - intros fs query qt1 qt2 hit1 hit2 d1 d2 raw1 raw2 r1 r2 E1 E2 Hs Hc Ht N1 N2.
    apply normalize_hit_ok in N1 as (d1' & raw1' & c1 & t1 & rep1 & E1' & C1 & T1 & _ & ->).
    apply normalize_hit_ok in N2 as (d2' & raw2' & c2 & t2 & rep2 & E2' & C2 & T2 & _ & ->).
    rewrite E1 in E1'. inversion E1'; subst d1' raw1'.
    rewrite E2 in E2'. inversion E2'; subst d2' raw2'.
    simpl. rewrite Hs.
    rewrite C1, C2 in Hc. rewrite T1, T2 in Ht.
    inversion Hc; inversion Ht; reflexivity.
  - intros score content title query H. unfold boost_score.
    now apply apply_boost_bound.
Qed.

Lemma C9_witness :
  (exists r1 r2,
      normalize_hit no_float_text "ros architecture" 0.01%Q ros_pair = Ok r1
      /\ normalize_hit no_float_text "ros architecture" 0.02%Q ros_point = Ok r2
      /\ sr_score r1 = sr_score r2)
  /\ (boost_score 1.5%Q "ROS 2 architecture uses DDS" "ROS" "ros architecture" <= 1)%Q.
Proof.
  split.
  - eexists. eexists.
    split; [vm_compute; reflexivity |].
    split; [vm_compute; reflexivity |].
    eapply (proj1 C9_scorer_deterministic_and_capped no_float_text "ros architecture"
              0.01%Q 0.02%Q ros_pair ros_point).
    + reflexivity.
    + reflexivity.
    + reflexivity.
    + reflexivity.
    + reflexivity.
    + vm_compute; reflexivity.
    + vm_compute; reflexivity.
  - apply (proj2 C9_scorer_deterministic_and_capped). right. vm_compute. lia.
Defined.

(** C9 as stated fails: a raw score of 1.5 with no matching term is returned
    unchanged, above 1.0. *)
Lemma C9_counterexample :
  count_matched (query_terms "inverse kinematics") (lower "Gazebo simulation") (lower "Gazebo") = 0
  /\ boost_score 1.5%Q "Gazebo simulation" "Gazebo" "inverse kinematics" = 1.5%Q
  /\ ~ (boost_score 1.5%Q "Gazebo simulation" "Gazebo" "inverse kinematics" <= 1)%Q.
Proof.
  split; [| split].
  - reflexivity.
  - reflexivity.
  - vm_compute. intros H. apply H. reflexivity.
Qed.



(* ===================================================================== *)
(** * MetadataValidator *)
(* ===================================================================== *)

(** A report is consistent when [valid] says whether [errors] is empty. *)
Lemma add_error_consistent (r : ValidationReport) (msg : string) :
  valid (add_error r msg) = false /\ errors (add_error r msg) <> [].
Proof.
  split; [reflexivity |]. simpl. intros H.
  apply app_eq_nil in H as [_ H]. discriminate.
Qed.

Section Folds.

Variable A : Type.
Variable step : ValidationReport -> A -> ValidationReport.
Variable ok : A -> bool.
Variable msg : A -> string.

Hypothesis step_spec :
  forall r x, step r x = if ok x then r else add_error r (msg x).

Lemma fold_checks_valid (l : list A) (r : ValidationReport) :
  valid (fold_left step l r) = valid r && forallb ok l.
Proof.
  revert r; induction l as [|x xs IH]; intro r; simpl.
  - now rewrite andb_true_r.
  - rewrite IH, step_spec. destruct (ok x); simpl.
    + reflexivity.
    + now rewrite andb_false_r.
Qed.

Lemma fold_checks_consistent (l : list A) (r : ValidationReport) :
  (valid r = true <-> errors r = []) ->
  (valid (fold_left step l r) = true <-> errors (fold_left step l r) = []).
Proof.
  revert r; induction l as [|x xs IH]; intros r Hr; simpl.
  - exact Hr.
  - apply IH. rewrite step_spec. destruct (ok x); [exact Hr |].
    destruct (add_error_consistent r (msg x)) as [Hv He].
    rewrite Hv. split; [discriminate | intros H; now elim He].
Qed.

Lemma fold_checks_warnings (l : list A) (r : ValidationReport) :
  warnings (fold_left step l r) = warnings r.
Proof.
  revert r; induction l as [|x xs IH]; intro r; simpl.
  - reflexivity.
  - rewrite IH, step_spec. now destruct (ok x).
Qed.

End Folds.

Lemma check_payload_field_spec (payload : list (string * pyval))
  (r : ValidationReport) (field : string) :
  check_payload_field payload r field
  = if payload_field_ok payload field then r
    else add_error r (payload_field_message payload field).
Proof.
  unfold check_payload_field, payload_field_ok, payload_field_message,
    check_field_type, Contract.type_contract.
  destruct (lookup field payload) as [value|]; [| reflexivity].
  destruct (String.eqb field "url" || String.eqb field "title"
            || String.eqb field "content" || String.eqb field "source_document").
  { now destruct (isinstance_str value). }
  destruct (String.eqb field "headings").
  { now destruct (isinstance_list value). }
  destruct (String.eqb field "chunk_index").
  { now destruct (isinstance_int value). }
  destruct (String.eqb field "metadata").
  { now destruct (isinstance_dict value). }
  reflexivity.
Qed.

Lemma structural_checks_valid (result : list (string * pyval)) :
  valid (structural_checks result)
  = forallb (dict_has result) required_result_fields
    && match dict_get result "payload" (PDict []) with
       | PDict payload => forallb (payload_field_ok payload) required_payload_fields
       | _ => false
       end.
Proof.
  unfold structural_checks, check_payload, check_result_fields.
  set (r1 := fold_left _ required_result_fields empty_report).
  assert (H1 : valid r1 = forallb (dict_has result) required_result_fields).
  { unfold r1.
    rewrite (fold_checks_valid _ (dict_has result) missing_field); auto. }
  destruct (dict_get result "payload" (PDict [])) as [| b | z | q | s | l | l | l | d | c a];
    try (simpl; now rewrite andb_false_r).
  rewrite (fold_checks_valid _ (payload_field_ok d) (payload_field_message d)).
  - now rewrite H1.
  - apply check_payload_field_spec.
Qed.

Lemma structural_checks_consistent (result : list (string * pyval)) :
  valid (structural_checks result) = true <-> errors (structural_checks result) = [].
Proof.
  unfold structural_checks, check_payload, check_result_fields.
  set (r1 := fold_left _ required_result_fields empty_report).
  assert (H1 : valid r1 = true <-> errors r1 = []).
  { unfold r1.
    apply (fold_checks_consistent _ (dict_has result) missing_field); auto.
    simpl; tauto. }
  destruct (dict_get result "payload" (PDict [])) as [| b | z | q | s | l | l | l | d | c a].
  all: try (destruct (add_error_consistent r1 "Payload must be a dictionary") as [Hv He];
            rewrite Hv; split; [discriminate | intros H; now elim He]).
  apply (fold_checks_consistent _ (payload_field_ok d) (payload_field_message d)); auto.
  apply check_payload_field_spec.
Qed.

Lemma structural_checks_warnings (result : list (string * pyval)) :
  warnings (structural_checks result) = [].
Proof.
  unfold structural_checks, check_payload, check_result_fields.
  set (r1 := fold_left _ required_result_fields empty_report).
  assert (H1 : warnings r1 = []).
  { unfold r1.
    rewrite (fold_checks_warnings _ (dict_has result) missing_field); auto. }
  destruct (dict_get result "payload" (PDict [])) as [| b | z | q | s | l | l | l | d | c a];
    try exact H1.
  rewrite (fold_checks_warnings _ (payload_field_ok d) (payload_field_message d)); auto.
  apply check_payload_field_spec.
Qed.


Lemma check_url_keeps (result : list (string * pyval)) (r r' : ValidationReport) :
  check_url result r = Ok r' ->
  valid r' = valid r /\ errors r' = errors r
  /\ forall w, In w (warnings r') ->
               In w (warnings r) \/ String.prefix "URL may" w = true.
Proof.
  unfold check_url. intros H.
  destruct (lookup "url" result) as [url|]; [| inversion H; subst; auto].
  destruct (truthy url); [| inversion H; subst; auto].
  apply bind_ok in H as [s [_ H]].
  destruct (startswith_any s url_prefixes); inversion H; subst; clear H; [auto |].
  split; [reflexivity | split; [reflexivity |]]. intros w Hw.
  apply in_app_or in Hw as [Hw | [<- | []]]; [now left | now right].
Qed.

Lemma check_title_keeps (result : list (string * pyval)) (r r' : ValidationReport) :
  check_title result r = Ok r' ->
  valid r' = valid r /\ errors r' = errors r
  /\ forall w, In w (warnings r') ->
               In w (warnings r) \/ w = "Title appears to be excessively long".
Proof.
  unfold check_title. intros H.
  destruct (lookup "title" result) as [title|]; [| inversion H; subst; auto].
  apply bind_ok in H as [n [_ H]].
  destruct (500 <? n); inversion H; subst; clear H; [| auto].
  split; [reflexivity | split; [reflexivity |]]. intros w Hw.
  apply in_app_or in Hw as [Hw | [<- | []]]; [now left | now right].
Qed.

Lemma check_content_keeps (result : list (string * pyval)) (r r' : ValidationReport) :
  check_content result r = Ok r' ->
  valid r' = valid r /\ errors r' = errors r.
Proof.
  unfold check_content. intros H.
  destruct (lookup "content" result) as [content|]; [| inversion H; subst; auto].
  apply bind_ok in H as [n [_ H]].
  destruct (n <? 10); [| inversion H; subst; auto].
  apply bind_ok in H as [s [_ H]].
  destruct (negb (is_empty (strip s))); inversion H; subst; auto.
Qed.

(** The warnings never touch [valid] or [errors]. *)
Lemma validate_metadata_structural (result : list (string * pyval)) (rep : ValidationReport) :
  validate_metadata result = Ok rep ->
  valid rep = valid (structural_checks result)
  /\ errors rep = errors (structural_checks result).
Proof.
  unfold validate_metadata. intros H.
  apply bind_ok in H as [r1 [H1 H]].
  apply bind_ok in H as [r2 [H2 H3]].
  apply check_url_keeps in H1 as (V1 & E1 & _).
  apply check_title_keeps in H2 as (V2 & E2 & _).
  apply check_content_keeps in H3 as (V3 & E3).
  split; congruence.
Qed.

(** The validator returns whenever the three top-level text fields are
    absent or strings. *)
Lemma validate_metadata_returns (result : list (string * pyval)) :
  text_fields result -> exists rep, validate_metadata result = Ok rep.
Proof.
  intros T. unfold validate_metadata, check_url, check_title, check_content.
  assert (Hu : forall v, lookup "url" result = Some v -> exists s, v = PStr s).
  { intros v Hv.
    assert (isinstance_str v = true) by (apply (T "url"); simpl; auto).
    destruct v; try discriminate; eauto. }
  assert (Ht : forall v, lookup "title" result = Some v -> exists s, v = PStr s).
  { intros v Hv.
    assert (isinstance_str v = true) by (apply (T "title"); simpl; auto).
    destruct v; try discriminate; eauto. }
  assert (Hc : forall v, lookup "content" result = Some v -> exists s, v = PStr s).
  { intros v Hv.
    assert (isinstance_str v = true) by (apply (T "content"); simpl; auto).
    destruct v; try discriminate; eauto. }
  destruct (lookup "url" result) as [url|].
  - destruct (Hu url eq_refl) as [s ->].
    destruct (lookup "title" result) as [title|];
      destruct (lookup "content" result) as [content|];
      try (destruct (Ht title eq_refl) as [t ->]);
      try (destruct (Hc content eq_refl) as [c ->]);
      simpl; destruct (negb (is_empty s)); simpl;
      try destruct (String.length c <? 10); simpl; eauto.
  - destruct (lookup "title" result) as [title|];
      destruct (lookup "content" result) as [content|];
      try (destruct (Ht title eq_refl) as [t ->]);
      try (destruct (Hc content eq_refl) as [c ->]);
      simpl; try destruct (String.length c <? 10); simpl; eauto.
Qed.

Lemma forallb_false_exists {A : Type} (f : A -> bool) (l : list A) :
  forallb f l = false <-> exists x, In x l /\ f x = false.
Proof.
  induction l as [|a l IH]; simpl.
  - split; [discriminate | intros [x [[] _]]].
  - rewrite andb_false_iff, IH. split.
    + intros [H | [x [Hx Hf]]]; eauto.
    + intros [x [[-> | Hx] Hf]]; eauto.
Qed.

(** C3 fails on the code: the validator raises instead of returning a report
    when the top-level url is the number 5 (AttributeError from
    [url.startswith]) or when the top-level title is a number (TypeError from
    [len]); through [search], a hit whose payload url is 5 aborts the whole
    search with that AttributeError. *)
Theorem C3_validate_metadata_raises :
  validate_metadata (envelope (PDict numeric_url_payload) (PInt 5))
  = Raise (AttributeError "'int' object has no attribute 'startswith'")
  /\ validate_metadata
       [("score", PFloat 0.8%Q); ("payload", PDict test_payload);
        ("url", PStr "https://example.com"); ("title", PInt 7);
        ("content", PStr "Test content")]
     = Raise (TypeError "object of type 'int' has no len()")
  /\ (forall (fs : string -> option Q) (query : string) (qt : Q),
         normalize_hit fs query qt (PTuple [PDict numeric_url_payload; PFloat 0.8%Q])
         = Raise (AttributeError "'int' object has no attribute 'startswith'")).
Proof.
  split; [reflexivity | split; [reflexivity |]].
  intros fs query qt. reflexivity.
Qed.

(** C6, as the code has it. The validator returns a report when the top-level
    url, title and content are absent or strings. Whenever it returns, valid is
    false exactly when a required top-level field is missing, or the payload
    is not a dict, or a required payload field is missing or fails its type
    test: url, title, content and source_document are str, headings is a
    list (its elements are not looked at), chunk_index is an int (its sign is
    not looked at), metadata is a dict. The warnings never change valid, and
    valid is true exactly when errors is empty. *)
Theorem C6_valid_iff_checks (result : list (string * pyval)) :
  (text_fields result -> exists rep, validate_metadata result = Ok rep)
  /\ forall rep : ValidationReport,
  validate_metadata result = Ok rep ->
  (valid rep = false <->
     (exists field, In field required_result_fields /\ lookup field result = None)
     \/ isinstance_dict (dict_get result "payload" (PDict [])) = false
     \/ (exists payload field,
            dict_get result "payload" (PDict []) = PDict payload
            /\ In field required_payload_fields
            /\ (lookup field payload = None
                \/ exists value, lookup field payload = Some value
                                 /\ Contract.type_contract field value = false)))
  /\ valid rep = valid (structural_checks result)
  /\ (valid rep = true <-> errors rep = []).
Proof.
  split; [apply validate_metadata_returns |].
  intros rep H. apply validate_metadata_structural in H as [Hv He].
  split; [| split; [exact Hv |]].
  - rewrite Hv, structural_checks_valid, andb_false_iff, forallb_false_exists.
    split.
    + intros [[f [Hf Hd]] | Hp].
      * left. exists f. split; [exact Hf |].
        unfold dict_has in Hd. destruct (lookup f result); [discriminate | reflexivity].
      * right.
        destruct (dict_get result "payload" (PDict [])) as [| b | z | q | s | l | l | l | d | c a];
          try (left; reflexivity).
        right. apply forallb_false_exists in Hp as [f [Hf Hok]].
        exists d, f. split; [reflexivity | split; [exact Hf |]].
        unfold payload_field_ok in Hok.
        destruct (lookup f d) as [v|]; [right; eauto | left; reflexivity].
    + intros [[f [Hf Hd]] | [Hp | (d & f & Hd & Hf & Hl)]].
      * left. exists f. split; [exact Hf |]. unfold dict_has. now rewrite Hd.
      * right. destruct (dict_get result "payload" (PDict [])); try reflexivity.
        discriminate.
      * right. rewrite Hd. apply forallb_false_exists. exists f. split; [exact Hf |].
        unfold payload_field_ok. destruct Hl as [-> | [v [-> Hv']]]; auto.
  - rewrite Hv, He. apply structural_checks_consistent.
Qed.

Lemma C6_witness :
  exists rep,
    validate_metadata (envelope (PStr "not a dict") (PStr "https://example.com")) = Ok rep
    /\ valid rep = false
    /\ errors rep <> [].
Proof.
  eexists. split; [vm_compute; reflexivity |].
  destruct (proj2 (C6_valid_iff_checks
                     (envelope (PStr "not a dict") (PStr "https://example.com")))
              (mkReport false ["Payload must be a dictionary"] []) eq_refl)
    as (Hiff & _ & Hcons).
  split.
  - apply Hiff. right. left. reflexivity.
  - intros E. apply Hcons in E. discriminate E.
Defined.

(** C6 as stated fails: a payload whose headings are numbers and whose
    chunk index is -1 is reported valid, although headings is not a sequence
    of strings and chunk_index is negative. *)
Lemma C6_counterexample :
  Spec.type_contract "headings" (PList [PInt 1; PInt 2]) = false
  /\ Spec.type_contract "chunk_index" (PInt (-1)) = false
  /\ Spec.checks_pass (envelope (PDict loose_payload) (PStr "https://example.com")) = false
  /\ validate_metadata (envelope (PDict loose_payload) (PStr "https://example.com"))
     = Ok {| valid := true; errors := []; warnings := [] |}.
Proof. repeat split; reflexivity. Qed.



(* ===================================================================== *)
(** * Sorting and filtering *)
(* ===================================================================== *)

Lemma Qlt_bool_true (a b : Q) : Qlt_bool a b = true -> (a < b)%Q.
Proof.
  unfold Qlt_bool. intros H. apply negb_true_iff in H.
  apply Qnot_le_lt. intros L. apply Qle_bool_iff in L. congruence.
Qed.

Lemma Qlt_bool_false (a b : Q) : Qlt_bool a b = false -> (b <= a)%Q.
Proof.
  unfold Qlt_bool. intros H. apply negb_false_iff in H. now apply Qle_bool_iff.
Qed.

Lemma insert_desc_In (x z : SearchResult) (l : list SearchResult) :
  In z (insert_desc x l) <-> z = x \/ In z l.
Proof.
  induction l as [|y t IH]; simpl.
  - intuition.
  - destruct (Qlt_bool (sr_score x) (sr_score y)); simpl; [rewrite IH |]; intuition.
Qed.

Lemma sort_desc_In (z : SearchResult) (l : list SearchResult) :
  In z (sort_desc l) <-> In z l.
Proof.
  induction l as [|x t IH]; simpl; [tauto |].
  rewrite insert_desc_In, IH. intuition.
Qed.

Lemma insert_desc_length (x : SearchResult) (l : list SearchResult) :
  List.length (insert_desc x l) = S (List.length l).
Proof.
  induction l as [|y t IH]; simpl; [reflexivity |].
  destruct (Qlt_bool (sr_score x) (sr_score y)); simpl; now rewrite ?IH.
Qed.

Lemma sort_desc_length (l : list SearchResult) :
  List.length (sort_desc l) = List.length l.
Proof.
  induction l as [|x t IH]; simpl; [reflexivity |].
  now rewrite insert_desc_length, IH.
Qed.

Lemma insert_desc_sorted (x : SearchResult) (l : list SearchResult) :
  StronglySorted by_score_desc l -> StronglySorted by_score_desc (insert_desc x l).
Proof.
  induction 1 as [|y t Ht IH Hy]; simpl.
  - constructor; constructor.
  - destruct (Qlt_bool (sr_score x) (sr_score y)) eqn:E.
    + constructor; [exact IH |].
      apply Forall_forall. intros z Hz. apply insert_desc_In in Hz as [-> | Hz].
      * apply Qlt_le_weak. now apply Qlt_bool_true.
      * rewrite Forall_forall in Hy. now apply Hy.
    + apply Qlt_bool_false in E.
      constructor; [constructor; assumption |].
      constructor; [exact E |].
      apply Forall_forall. intros z Hz. rewrite Forall_forall in Hy.
      unfold by_score_desc. apply Qle_trans with (sr_score y); [now apply Hy | exact E].
Qed.

Lemma sort_desc_sorted (l : list SearchResult) :
  StronglySorted by_score_desc (sort_desc l).
Proof.
  induction l as [|x t IH]; simpl; [constructor | now apply insert_desc_sorted].
Qed.

Lemma filter_sorted {A : Type} (R : A -> A -> Prop) (f : A -> bool) (l : list A) :
  StronglySorted R l -> StronglySorted R (filter f l).
Proof.
  induction 1 as [|x t Ht IH Hx]; simpl; [constructor |].
  destruct (f x); [| exact IH].
  constructor; [exact IH |].
  apply Forall_forall. intros z Hz. apply filter_In in Hz as [Hz _].
  rewrite Forall_forall in Hx. now apply Hx.
Qed.

Lemma map_outcome_ok {A B : Type} (f : A -> outcome B) (l : list A) (l' : list B) :
  map_outcome f l = Ok l' -> Forall2 (fun x y => f x = Ok y) l l'.
Proof.
  revert l'; induction l as [|x t IH]; intros l' H; simpl in H.
  - inversion H. constructor.
  - apply bind_ok in H as [y [Hy H]].
    apply bind_ok in H as [ys [Hys H]].
    inversion H; subst. constructor; auto.
Qed.

Lemma map_outcome_raise {A B : Type} (f : A -> outcome B) (l : list A) (e : exn) :
  map_outcome f l = Raise e -> exists x, In x l /\ f x = Raise e.
Proof.
  induction l as [|x t IH]; simpl; [discriminate |].
  destruct (f x) as [y | e'] eqn:E; simpl.
  - destruct (map_outcome f t) as [ys | e'']; simpl; [discriminate |].
    intros H; inversion H; subst. destruct (IH eq_refl) as [z [Hz Hf]]. eauto.
  - intros H; inversion H; subst. eauto.
Qed.

(* ===================================================================== *)
(** * Retriever *)
(* ===================================================================== *)

Lemma new_RetrievedContext_score (s : Q) (c u t h i d m : pyval) (ctx : RetrievedContext) :
  new_RetrievedContext s c u t h i d m = Ok ctx -> score ctx = s.
Proof.
  unfold new_RetrievedContext.
  destruct (Qle_bool 0 s && Qle_bool s 1); [| discriminate].
  destruct c; try discriminate. destruct u; try discriminate.
  destruct t; try discriminate. destruct h; try discriminate.
  destruct i; try discriminate. destruct d; try discriminate.
  destruct m; try discriminate.
  destruct (all_str _); [| discriminate].
  intros H; inversion H; reflexivity.
Qed.

Lemma to_context_score (r : SearchResult) (ctx : RetrievedContext) :
  to_context r = Ok ctx -> score ctx = sr_score r.
Proof.
  unfold to_context. intros H.
  repeat (apply bind_ok in H as [? [_ H]]).
  now apply new_RetrievedContext_score in H.
Qed.

Lemma contexts_scores (l : list SearchResult) (ctxs : list RetrievedContext) :
  Forall2 (fun r ctx => to_context r = Ok ctx) l ctxs ->
  map score ctxs = map sr_score l.
Proof.
  induction 1 as [|r ctx l ctxs H _ IH]; simpl; [reflexivity |].
  now rewrite IH, (to_context_score _ H).
Qed.

Lemma valid_query_passes (fs : string -> option Q) (c : Collaborators)
  (query : string) (top_k : Z) (min_score : Q) :
  valid_query query top_k min_score ->
  retrieve_context fs c query top_k min_score
  = match retrieve_body fs c query top_k min_score with
    | Ok retrieved_contexts => Ok retrieved_contexts
    | Raise e => Raise (RetrievalError e)
    end.
Proof.
  intros (Hq & [Hk1 Hk2] & [Hm1 Hm2]). unfold retrieve_context.
  assert (E1 : is_empty query || is_empty (strip query) = false).
  { apply orb_false_iff. split.
    - destruct query; [now elim Hq | reflexivity].
    - destruct (strip query); [now elim Hq | reflexivity]. }
  rewrite E1.
  assert (E2 : ((top_k <? 1)%Z || (20 <? top_k)%Z) = false).
  { apply orb_false_iff. split; apply Z.ltb_ge; lia. }
  rewrite E2.
  assert (E3 : Qlt_bool min_score 0 || Qlt_bool 1 min_score = false).
  { apply orb_false_iff. unfold Qlt_bool.
    split; apply negb_false_iff; now apply Qle_bool_iff. }
  now rewrite E3.
Qed.

(** What a successful [retrieve_context] did. *)
Lemma retrieve_context_ok (fs : string -> option Q) (c : Collaborators)
  (query : string) (top_k : Z) (min_score : Q) (ctxs : list RetrievedContext) :
  retrieve_context fs c query top_k min_score = Ok ctxs ->
  exists rs,
    search fs c query top_k = Ok rs
    /\ Forall2 (fun r ctx => to_context r = Ok ctx)
         (filter (fun r => Qle_bool min_score (sr_score r)) rs) ctxs.
Proof.
  unfold retrieve_context. intros H.
  destruct (is_empty query || is_empty (strip query)); [discriminate |].
  destruct ((top_k <? 1)%Z || (20 <? top_k)%Z); [discriminate |].
  destruct (Qlt_bool min_score 0 || Qlt_bool 1 min_score); [discriminate |].
  destruct (retrieve_body fs c query top_k min_score) as [l | e] eqn:E; [| discriminate].
  inversion H; subst l; clear H.
  unfold retrieve_body in E. apply bind_ok in E as [rs [Hs E]].
  exists rs. split; [exact Hs |]. now apply map_outcome_ok.
Qed.

(** What a successful [search] returns: the normalised hits, highest score
    first. *)
Lemma search_ok (fs : string -> option Q) (c : Collaborators)
  (query : string) (limit : Z) (rs : list SearchResult) :
  search fs c query limit = Ok rs ->
  exists hits results,
    Forall2 (fun hit r => normalize_hit fs query (elapsed c) hit = Ok r) hits results
    /\ rs = sort_desc results.
Proof.
  unfold search. intros H.
  destruct (cohere_api_key c) as [[|ch key]|]; try discriminate.
  apply bind_ok in H as [vec [_ H]].
  destruct (search_results (try_methods c vec limit)) eqn:E; try discriminate.
  all: apply bind_ok in H as [hits [_ H]];
    apply bind_ok in H as [results [Hn H]];
    inversion H; subst rs;
    exists hits, results; split; [now apply map_outcome_ok | reflexivity].
Qed.

Lemma search_sorted (fs : string -> option Q) (c : Collaborators)
  (query : string) (limit : Z) (rs : list SearchResult) :
  search fs c query limit = Ok rs -> StronglySorted by_score_desc rs.
Proof.
  intros H. apply search_ok in H as (hits & results & _ & ->).
  apply sort_desc_sorted.
Qed.

Lemma sorted_scores (l : list SearchResult) :
  StronglySorted by_score_desc l -> non_increasing (map sr_score l).
Proof.
  induction 1 as [|x t Ht IH Hx]; simpl; constructor; [exact IH |].
  apply Forall_forall. intros q Hq. apply in_map_iff in Hq as [r [<- Hr]].
  rewrite Forall_forall in Hx. now apply Hx.
Qed.

(** C8. Whenever [retrieve_context] returns, the scores of the returned list
    are in non-increasing order and none is below min_score; for a valid
    query whose search succeeds with every hit scoring below min_score, it
    returns the empty list. *)
Theorem C8_sorted_and_thresholded (fs : string -> option Q) (c : Collaborators)
  (query : string) (top_k : Z) (min_score : Q) :
  (forall ctxs : list RetrievedContext,
      retrieve_context fs c query top_k min_score = Ok ctxs ->
      non_increasing (map score ctxs)
      /\ Forall (fun ctx => (min_score <= score ctx)%Q) ctxs)
  /\ (forall rs : list SearchResult,
         valid_query query top_k min_score ->
         search fs c query top_k = Ok rs ->
         (forall r, In r rs -> (sr_score r < min_score)%Q) ->
         retrieve_context fs c query top_k min_score = Ok []).
Proof.
  split.
  - intros ctxs H. apply retrieve_context_ok in H as (rs & Hs & Hc).
    pose proof (contexts_scores Hc) as Hm.
    split.
    + rewrite Hm. apply sorted_scores, filter_sorted.
      now apply search_sorted in Hs.
    + apply Forall_forall. intros ctx Hctx.
      assert (Hin : In (score ctx) (map sr_score
                (filter (fun r => Qle_bool min_score (sr_score r)) rs))).
      { rewrite <- Hm. now apply in_map. }
      apply in_map_iff in Hin as [r [Hr Hf]]. apply filter_In in Hf as [_ Hf].
      rewrite <- Hr. now apply Qle_bool_iff.
  - intros rs Hv Hs Hlow. rewrite valid_query_passes by exact Hv.
    unfold retrieve_body. rewrite Hs. simpl.
    assert (E : filter (fun r => Qle_bool min_score (sr_score r)) rs = []).
    { clear Hs. induction rs as [|r t IH]; simpl; [reflexivity |].
      destruct (Qle_bool min_score (sr_score r)) eqn:E.
      - apply Qle_bool_iff in E. specialize (Hlow r (or_introl eq_refl)).
        exfalso. apply (Qlt_not_le _ _ Hlow E).
      - apply IH. intros x Hx. apply Hlow. now right. }
    now rewrite E.
Qed.

Lemma C8_witness :
  (exists ctxs,
      retrieve_context no_float_text qdrant_six "humanoid robot sensors" 3 0.3%Q = Ok ctxs
      /\ non_increasing (map score ctxs)
      /\ Forall (fun ctx => (0.3 <= score ctx)%Q) ctxs)
  /\ retrieve_context no_float_text qdrant_six "humanoid robot sensors" 3 0.95%Q = Ok [].
Proof.
  split.
  - eexists. split; [vm_compute; reflexivity |].
    apply (proj1 (C8_sorted_and_thresholded no_float_text qdrant_six
                    "humanoid robot sensors" 3 0.3%Q)).
    vm_compute. reflexivity.
  - eapply (proj2 (C8_sorted_and_thresholded no_float_text qdrant_six
                     "humanoid robot sensors" 3 0.95%Q)).
    + split; [vm_compute; discriminate |].
      split; [lia |]. split; vm_compute; discriminate.
    + vm_compute. reflexivity.
    + intros r Hr. simpl in Hr.
      repeat (destruct Hr as [<- | Hr]; [vm_compute; reflexivity |]).
      destruct Hr.
Defined.

(** Nothing is cut to top_k: the list returned by [retrieve_context] has one
    entry for every search result that passes the threshold. *)
Lemma retrieve_context_keeps_every_survivor (fs : string -> option Q) (c : Collaborators)
  (query : string) (top_k : Z) (min_score : Q)
  (rs : list SearchResult) (ctxs : list RetrievedContext) :
  search fs c query top_k = Ok rs ->
  retrieve_context fs c query top_k min_score = Ok ctxs ->
  map score ctxs
  = map sr_score (filter (fun r => Qle_bool min_score (sr_score r)) rs).
Proof.
  intros Hs H. apply retrieve_context_ok in H as (rs' & Hs' & Hc).
  rewrite Hs in Hs'. inversion Hs'; subst rs'. now apply contexts_scores.
Qed.

(** C1 fails on the code: with top_k = 3 the index is asked for 6 candidates,
    and when it answers 6 hits that all pass min_score = 0.3,
    [retrieve_context] returns all 6 of them, not the 3 best. *)
Theorem C1_retrieve_returns_more_than_top_k :
  exists ctxs,
    retrieve_context no_float_text qdrant_six "humanoid robot sensors" 3 0.3%Q = Ok ctxs
    /\ map score ctxs = [0.9; 0.8; 0.7; 0.6; 0.5; 0.4]%Q
    /\ List.length ctxs = 6
    /\ List.length ctxs <> 3.
Proof.
  eexists. split; [vm_compute; reflexivity |].
  split; [reflexivity | split; [reflexivity | discriminate]].
Qed.

Lemma try_methods_all_fail (c : Collaborators) (vec : list Q) (limit : Z) (e1 e2 e3 : exn) :
  client_search c vec (limit * 2)%Z = Raise e1 ->
  client_search_points c vec (limit * 2)%Z = Raise e2 ->
  client_query_points c vec (limit * 2)%Z = Raise e3 ->
  try_methods c vec limit
  = {| search_results := PNone; last_exception := Some e3;
       calls := ["search"; "search_points"; "query_points"] |}.
Proof.
  intros H1 H2 H3. unfold try_methods, try_method. simpl.
  rewrite H1. simpl. rewrite H2. simpl. rewrite H3. reflexivity.
Qed.

Lemma try_methods_first_wins (c : Collaborators) (vec : list Q) (limit : Z) (response : pyval) :
  client_search c vec (limit * 2)%Z = Ok response ->
  response <> PNone ->
  try_methods c vec limit
  = {| search_results := response; last_exception := None; calls := ["search"] |}.
Proof.
  intros H1 Hn. unfold try_methods, try_method. simpl.
  rewrite H1. simpl. destruct response; try reflexivity. now elim Hn.
Qed.

(** C2, as the code has it. The three methods are tried in the order search,
    search_points, query_points, and a method that answers ends the chain.
    When all three fail, [search] re-raises the exception of the last one,
    query_points, as it is. [retrieve_context] converts every exception that
    reaches it from [search] into a RetrievalError built from its text, so
    that a caller only ever sees ValidationError (bad parameters) or
    RetrievalError. *)
Theorem C2_failures_become_RetrievalError (fs : string -> option Q) (c : Collaborators)
  (query : string) (top_k : Z) (min_score : Q) :
  (forall (ch : ascii) (key : string) (vec : list Q) (e1 e2 e3 : exn),
      cohere_api_key c = Some (String ch key) ->
      embed c query = Ok vec ->
      client_search c vec (top_k * 2)%Z = Raise e1 ->
      client_search_points c vec (top_k * 2)%Z = Raise e2 ->
      client_query_points c vec (top_k * 2)%Z = Raise e3 ->
      calls (try_methods c vec top_k) = ["search"; "search_points"; "query_points"]
      /\ search fs c query top_k = Raise e3)
  /\ (forall (vec : list Q) (response : pyval),
         client_search c vec (top_k * 2)%Z = Ok response ->
         response <> PNone ->
         calls (try_methods c vec top_k) = ["search"])
  /\ (forall e : exn,
         valid_query query top_k min_score ->
         search fs c query top_k = Raise e ->
         retrieve_context fs c query top_k min_score = Raise (RetrievalError e))
  /\ (forall e : exn,
         retrieve_context fs c query top_k min_score = Raise e ->
         (exists msg, e = ValidationError msg) \/ (exists cause, e = RetrievalError cause)).
Proof.
  split; [| split; [| split]].
  - intros ch key vec e1 e2 e3 Hk He H1 H2 H3.
    pose proof (try_methods_all_fail c vec top_k H1 H2 H3) as T.
    split; [now rewrite T |].
    unfold search. rewrite Hk, He. simpl. now rewrite T.
  - intros vec response H1 Hn. now rewrite (try_methods_first_wins c vec top_k H1 Hn).
  - intros e Hv Hs. rewrite valid_query_passes by exact Hv.
    unfold retrieve_body. now rewrite Hs.
  - intros e H. unfold retrieve_context in H.
    destruct (is_empty query || is_empty (strip query));
      [inversion H; eauto |].
    destruct ((top_k <? 1)%Z || (20 <? top_k)%Z); [inversion H; eauto |].
    destruct (Qlt_bool min_score 0 || Qlt_bool 1 min_score); [inversion H; eauto |].
    destruct (retrieve_body fs c query top_k min_score); [discriminate |].
    inversion H; eauto.
Qed.

Lemma C2_witness :
  (calls (try_methods qdrant_down [0.1%Q; 0.2%Q] 3)
   = ["search"; "search_points"; "query_points"]
   /\ search no_float_text qdrant_down "humanoid robot sensors" 3
      = Raise (CollaboratorError "UnexpectedResponse" "502 Bad Gateway"))
  /\ calls (try_methods qdrant_six [0.1%Q; 0.2%Q] 3) = ["search"]
  /\ retrieve_context no_float_text cohere_down "humanoid robot sensors" 3 0.3%Q
     = Raise (RetrievalError (CollaboratorError "CohereAPIError" "too many requests")).
Proof.
  split; [| split].
  - apply (proj1 (C2_failures_become_RetrievalError no_float_text qdrant_down
                    "humanoid robot sensors" 3 0.3%Q)
             "k"%char "ey" [0.1%Q; 0.2%Q]
             (CollaboratorError "ConnectionError" "refused")
             (AttributeError "'QdrantClient' object has no attribute 'search_points'"));
      reflexivity.
  - apply (proj1 (proj2 (C2_failures_become_RetrievalError no_float_text qdrant_six
                           "humanoid robot sensors" 3 0.3%Q))
             [0.1%Q; 0.2%Q] six_hits); [reflexivity | discriminate].
  - apply (proj1 (proj2 (proj2 (C2_failures_become_RetrievalError no_float_text
                                  cohere_down "humanoid robot sensors" 3 0.3%Q)))).
    + split; [vm_compute; discriminate |].
      split; [lia |]. split; vm_compute; discriminate.
    + reflexivity.
Defined.

(** C2 as stated fails. With all three methods failing, [search] raises the
    UnexpectedResponse of query_points and [retrieve_context] a
    RetrievalError: neither is an IndexResponseShapeError. A failure of the
    embedding provider does not reach the caller unchanged either: it
    arrives wrapped in a RetrievalError. *)
Lemma C2_counterexample :
  (exists e,
      retrieve_context no_float_text qdrant_down "humanoid robot sensors" 3 0.3%Q = Raise e
      /\ class_name e = "RetrievalError"
      /\ class_name e <> "IndexResponseShapeError")
  /\ (exists e,
         search no_float_text qdrant_down "humanoid robot sensors" 3 = Raise e
         /\ class_name e = "UnexpectedResponse"
         /\ class_name e <> "IndexResponseShapeError")
  /\ embed cohere_down "humanoid robot sensors"
     = Raise (CollaboratorError "CohereAPIError" "too many requests")
  /\ retrieve_context no_float_text cohere_down "humanoid robot sensors" 3 0.3%Q
     <> Raise (CollaboratorError "CohereAPIError" "too many requests").
Proof.
  split; [| split; [| split]].
  - eexists. split; [vm_compute; reflexivity |]. split; [reflexivity | discriminate].
  - eexists. split; [vm_compute; reflexivity |]. split; [reflexivity | discriminate].
  - reflexivity.
  - vm_compute. discriminate.
Qed.

(* ===================================================================== *)
(** * The content preview *)
(* ===================================================================== *)

Lemma length_append (a b : string) :
  String.length (a ++ b) = String.length a + String.length b.
Proof. induction a as [|ch a IH]; simpl; [reflexivity | now rewrite IH]. Qed.

Lemma length_take (n : nat) (s : string) :
  n <= String.length s -> String.length (take n s) = n.
Proof.
  unfold take. revert s; induction n as [|n IH]; intros s H.
  - destruct s; reflexivity.
  - destruct s as [|ch s]; simpl in *; [lia |]. rewrite IH; lia.
Qed.

Lemma preview_long (full : string) :
  200 < String.length full ->
  preview full = (take 200 full ++ "...")%string /\ String.length (preview full) = 203.
Proof.
  intros H. unfold preview.
  destruct (200 <? String.length full) eqn:E.
  - split; [reflexivity |]. rewrite length_append, length_take by lia. reflexivity.
  - apply Nat.ltb_ge in E. lia.
Qed.

Lemma preview_short (full : string) :
  String.length full <= 200 -> preview full = full.
Proof.
  intros H. unfold preview.
  destruct (200 <? String.length full) eqn:E; [| reflexivity].
  apply Nat.ltb_lt in E. lia.
Qed.

Lemma Forall2_In_r {A B : Type} (P : A -> B -> Prop) (l : list A) (l' : list B) (y : B) :
  Forall2 P l l' -> In y l' -> exists x, In x l /\ P x y.
Proof.
  induction 1 as [|x y' l l' Hxy _ IH]; simpl; [tauto |].
  intros [<- | Hy].
  - exists x. auto.
  - destruct (IH Hy) as [x' [Hx' Hp]]. exists x'. auto.
Qed.

(** The short-content warning looks at the top-level content only. *)
Lemma short_content_warning (result : list (string * pyval)) (s : string)
  (rep : ValidationReport) :
  lookup "content" result = Some (PStr s) ->
  validate_metadata result = Ok rep ->
  (In "Content appears to be very short" (warnings rep)
   <-> String.length s < 10 /\ strip s <> "").
Proof.
  intros Hl H. unfold validate_metadata in H.
  apply bind_ok in H as [r1 [H1 H]].
  apply bind_ok in H as [r2 [H2 H3]].
  apply check_url_keeps in H1 as (_ & _ & W1).
  apply check_title_keeps in H2 as (_ & _ & W2).
  rewrite structural_checks_warnings in W1.
  assert (N : ~ In "Content appears to be very short" (warnings r2)).
  { intros Hin. apply W2 in Hin as [Hin | Hin]; [| discriminate].
    apply W1 in Hin as [[] | Hin]. discriminate. }
  unfold check_content in H3. rewrite Hl in H3. simpl in H3.
  destruct (String.length s <? 10) eqn:E; simpl in H3.
  - destruct (is_empty (strip s)) eqn:S; simpl in H3; inversion H3; subst rep; clear H3.
    + split; [intros Hin; now elim N |].
      intros [_ Hs]. destruct (strip s); [now elim Hs | discriminate].
    + split.
      * intros _. split; [now apply Nat.ltb_lt |].
        intros Hs. rewrite Hs in S. discriminate.
      * intros _. simpl. apply in_or_app. right. now left.
  - inversion H3; subst rep. split; [intros Hin; now elim N |].
    intros [Hlt _]. apply Nat.ltb_ge in E. lia.
Qed.

(** C10. In every result returned by [search], the payload still holds the
    full content, while the top-level content is that text when it has at most
    200 characters and otherwise its first 200 characters followed by "...";
    the short-content warning of the attached validation is decided on the
    top-level content. *)
Theorem C10_preview_content (fs : string -> option Q) (c : Collaborators)
  (query : string) (limit : Z) (rs : list SearchResult) (r : SearchResult) :
  search fs c query limit = Ok rs ->
  In r rs ->
  exists payload full,
    sr_payload r = PDict payload
    /\ dict_get payload "content" (PStr "") = PStr full
    /\ sr_content r
       = (if 200 <? String.length full then (take 200 full ++ "...")%string else full)
    /\ (200 < String.length full -> String.length (sr_content r) = 203)
    /\ (String.length full <= 200 -> sr_content r = full)
    /\ (In "Content appears to be very short" (warnings (sr_metadata_validation r))
        <-> String.length (sr_content r) < 10 /\ strip (sr_content r) <> "").
Proof.
  intros Hs Hin.
  apply search_ok in Hs as (hits & results & Hn & ->).
  apply (proj1 (sort_desc_In _ _)) in Hin.
  destruct (@Forall2_In_r _ _ _ _ _ _ Hn Hin) as [hit [_ Hhit]].
  apply normalize_hit_ok in Hhit as (d & raw & content & title & rep & _ & Hc & _ & Hv & ->).
  exists d, content. simpl.
  split; [reflexivity |]. split; [exact Hc |]. split; [reflexivity |].
  split; [intros H; now apply preview_long |].
  split; [apply preview_short |].
  apply (short_content_warning (result_dict _ _ _ _ _ _) eq_refl Hv).
Qed.

Lemma C10_witness :
  exists rs r payload full,
    search no_float_text qdrant_long "humanoid" 3 = Ok rs
    /\ In r rs
    /\ sr_payload r = PDict payload
    /\ dict_get payload "content" (PStr "") = PStr full
    /\ String.length full = 270
    /\ String.length (sr_content r) = 203
    /\ ~ In "Content appears to be very short" (warnings (sr_metadata_validation r)).
Proof.
  destruct (search no_float_text qdrant_long "humanoid" 3) as [rs | e] eqn:E;
    [| vm_compute in E; discriminate E].
  destruct rs as [| r rs]; [vm_compute in E; discriminate E |].
  destruct (@C10_preview_content no_float_text qdrant_long "humanoid" 3%Z
              (r :: rs) r E (or_introl eq_refl))
    as (payload & full & Hp & Hf & Hc & Hlong & _ & Hw).
  assert (Hr : r = match search no_float_text qdrant_long "humanoid" 3 with
                   | Ok (x :: _) => x
                   | _ => r
                   end) by (rewrite E; reflexivity).
  assert (Hfull : full = long_content).
  { rewrite Hr in Hp. vm_compute in Hp. inversion Hp; subst payload.
    vm_compute in Hf. inversion Hf. reflexivity. }
  assert (L : String.length full = 270) by (rewrite Hfull; reflexivity).
  exists (r :: rs), r, payload, full.
  split; [reflexivity |]. split; [now left |]. split; [exact Hp |].
  split; [exact Hf |]. split; [exact L |].
  assert (L' : String.length (sr_content r) = 203) by (apply Hlong; lia).
  split; [exact L' |].
  intros Hin. apply Hw in Hin as [Hlt _]. lia.
Defined.

(* ===================================================================== *)
(** * More about search *)
(* ===================================================================== *)

Lemma insert_desc_perm (x : SearchResult) (l : list SearchResult) :
  Permutation (x :: l) (insert_desc x l).
Proof.
  induction l as [|y t IH]; simpl; [apply Permutation_refl |].
  destruct (Qlt_bool (sr_score x) (sr_score y)).
  - apply perm_trans with (y :: x :: t); [apply perm_swap | now apply perm_skip].
  - apply Permutation_refl.
Qed.

Lemma sort_desc_perm (l : list SearchResult) : Permutation l (sort_desc l).
Proof.
  induction l as [|x t IH]; simpl; [constructor |].
  apply perm_trans with (x :: sort_desc t); [now apply perm_skip |].
  apply insert_desc_perm.
Qed.


Lemma Forall2_length_eq {A B : Type} (P : A -> B -> Prop) (l : list A) (l' : list B) :
  Forall2 P l l' -> List.length l = List.length l'.
Proof. induction 1; simpl; congruence. Qed.

(** What a successful [search] went through, step by step. *)
Lemma search_ok_steps (fs : string -> option Q) (c : Collaborators)
  (query : string) (limit : Z) (rs : list SearchResult) :
  search fs c query limit = Ok rs ->
  exists vec hits results,
    embed c query = Ok vec
    /\ search_results (try_methods c vec limit) <> PNone
    /\ py_iter (search_result_items (search_results (try_methods c vec limit))) = Ok hits
    /\ Forall2 (fun hit r => normalize_hit fs query (elapsed c) hit = Ok r) hits results
    /\ rs = sort_desc results.
Proof.
  unfold search. intros H.
  destruct (cohere_api_key c) as [[|ch key]|]; try discriminate.
  apply bind_ok in H as [vec [He H]].
  exists vec.
  destruct (search_results (try_methods c vec limit)) eqn:E; try discriminate.
  all: apply bind_ok in H as [hits [Hi H]];
    apply bind_ok in H as [results [Hn H]];
    inversion H; subst rs;
    exists hits, results;
    repeat split; [exact He | discriminate | exact Hi | now apply map_outcome_ok].
Qed.

(** X1. A successful search returns exactly one result for every element of
    the response it iterates (its [results], else its [points], else the
    response itself): no hit is dropped or repeated, the results are the
    normalised hits in another order. *)
Theorem search_one_result_per_hit (fs : string -> option Q) (c : Collaborators)
  (query : string) (limit : Z) (rs : list SearchResult) :
  search fs c query limit = Ok rs ->
  exists vec hits results,
    embed c query = Ok vec
    /\ py_iter (search_result_items (search_results (try_methods c vec limit))) = Ok hits
    /\ Forall2 (fun hit r => normalize_hit fs query (elapsed c) hit = Ok r) hits results
    /\ Permutation results rs
    /\ List.length rs = List.length hits.
Proof.
  intros H. apply search_ok_steps in H as (vec & hits & results & He & _ & Hi & Hn & ->).
  exists vec, hits, results.
  repeat split; try assumption.
  - apply sort_desc_perm.
  - rewrite sort_desc_length. symmetry. exact (Forall2_length_eq Hn).
Qed.

Lemma search_one_result_per_hit_witness :
  exists rs, search no_float_text qdrant_six "humanoid robot sensors" 3 = Ok rs
             /\ List.length rs = 6.
Proof.
  destruct (search no_float_text qdrant_six "humanoid robot sensors" 3) as [rs | e] eqn:E;
    [| vm_compute in E; discriminate E].
  exists rs. split; [reflexivity |].
  destruct (search_one_result_per_hit _ _ _ _ E)
    as (vec & hits & results & He & Hi & _ & _ & Hl).
  rewrite Hl. vm_compute in He. inversion He; subst vec.
  vm_compute in Hi. inversion Hi. reflexivity.
Defined.





Lemma bind_raise {A B : Type} (m : outcome A) (k : A -> outcome B) (e : exn) :
  bind m k = Raise e -> m = Raise e \/ exists a, m = Ok a /\ k a = Raise e.
Proof. destruct m; simpl; [eauto | intros H; inversion H; auto]. Qed.

Lemma str_method_raise (v : pyval) (name : string) (e : exn) :
  str_method v name = Raise e -> exists msg, e = AttributeError msg \/ e = TypeError msg.
Proof.
  destruct v; simpl; try discriminate;
    try (intros H; inversion H; eauto; fail).
  destruct (lookup name attrs); intros H; inversion H; eauto.
Qed.






(** X4. A method that answers None counts as a failed method: the next one is
    tried. When no method answers, the exception raised is the one of the
    last method that raised, even if a later method returned None, and the
    AttributeError about the missing search method appears only when none of
    them raised. *)
Theorem none_answer_is_a_failure (fs : string -> option Q) (c : Collaborators)
  (query : string) (limit : Z) (ch : ascii) (key : string) (vec : list Q) :
  cohere_api_key c = Some (String ch key) ->
  embed c query = Ok vec ->
  (forall response : pyval,
      client_search c vec (limit * 2)%Z = Ok PNone ->
      client_search_points c vec (limit * 2)%Z = Ok response ->
      response <> PNone ->
      search_results (try_methods c vec limit) = response
      /\ calls (try_methods c vec limit) = ["search"; "search_points"])
  /\ (forall e1 : exn,
         client_search c vec (limit * 2)%Z = Raise e1 ->
         client_search_points c vec (limit * 2)%Z = Ok PNone ->
         client_query_points c vec (limit * 2)%Z = Ok PNone ->
         search fs c query limit = Raise e1)
  /\ (client_search c vec (limit * 2)%Z = Ok PNone ->
      client_search_points c vec (limit * 2)%Z = Ok PNone ->
      client_query_points c vec (limit * 2)%Z = Ok PNone ->
      search fs c query limit
      = Raise (AttributeError "Qdrant client does not have a recognized search method.")).
Proof.
  intros Hk He. split; [| split].
  - intros response H1 H2 Hn. unfold try_methods, try_method. simpl.
    rewrite H1. simpl. rewrite H2. simpl.
    destruct response; try (split; reflexivity). now elim Hn.
  - intros e1 H1 H2 H3. unfold search. rewrite Hk, He. simpl.
    unfold try_methods, try_method. simpl.
    rewrite H1. simpl. rewrite H2. simpl. rewrite H3. reflexivity.
  - intros H1 H2 H3. unfold search. rewrite Hk, He. simpl.
    unfold try_methods, try_method. simpl.
    rewrite H1. simpl. rewrite H2. simpl. rewrite H3. reflexivity.
Qed.

Lemma none_answer_is_a_failure_witness :
  search_results (try_methods qdrant_silent [0.1%Q; 0.2%Q] 3) = six_hits
  /\ calls (try_methods qdrant_silent [0.1%Q; 0.2%Q] 3) = ["search"; "search_points"].
Proof.
  apply (proj1 (@none_answer_is_a_failure no_float_text qdrant_silent
                  "humanoid robot sensors" 3 "k"%char "ey" [0.1%Q; 0.2%Q]
                  eq_refl eq_refl) six_hits);
    [reflexivity | reflexivity | discriminate].
Defined.

(* ===================================================================== *)
(** * More about the scorer *)
(* ===================================================================== *)

Lemma boost_factor_ge (matched : nat) : 0 < matched -> (1.2 <= boost_factor matched)%Q.
Proof.
  intros H. unfold boost_factor.
  assert (K : (1 <= inject_Z (Z.of_nat matched))%Q).
  { change 1%Q with (inject_Z 1). rewrite <- Zle_Qle. lia. }
  lra.
Qed.

Lemma py_min_cases (a b : Q) :
  ((a <= b)%Q /\ py_min a b = a) \/ ((b < a)%Q /\ py_min a b = b).
Proof.
  unfold py_min. destruct (Qle_bool a b) eqn:E.
  - left. split; [now apply Qle_bool_iff | reflexivity].
  - right. split; [| reflexivity].
    apply Qnot_le_lt. intros L. apply Qle_bool_iff in L. congruence.
Qed.

(** X5. On a raw score between 0 and 1 boosting never lowers the score and
    never leaves the interval. Outside the interval a matching term lowers
    the score: a raw score above 1 is cut to 1, a negative raw score is
    multiplied further down. *)
Theorem boost_on_unit_interval (score : Q) (content title query : string) :
  ((0 <= score <= 1)%Q ->
   (score <= boost_score score content title query <= 1)%Q)
  /\ (0 < count_matched (query_terms query) (lower content) (lower title) ->
      ((1 < score)%Q -> boost_score score content title query = 1%Q)
      /\ ((score < 0)%Q -> (boost_score score content title query < score)%Q)).
Proof.
  unfold boost_score, apply_boost.
  set (m := count_matched _ _ _).
  split.
  - intros [H0 H1]. destruct (0 <? m) eqn:E; [| lra].
    apply Nat.ltb_lt in E. pose proof (boost_factor_ge E) as F.
    destruct (py_min_cases (score * boost_factor m) 1) as [[L ->] | [L ->]]; nra.
  - intros Hm. assert (E : (0 <? m) = true) by now apply Nat.ltb_lt.
    rewrite E. pose proof (boost_factor_ge Hm) as F.
    destruct (py_min_cases (score * boost_factor m) 1) as [[L R] | [L R]]; rewrite R.
    + split; intros H; [exfalso; nra | nra].
    + split; intros H; [reflexivity | nra].
Qed.

Lemma boost_on_unit_interval_witness :
  (0.4 <= boost_score 0.4%Q "ROS 2 architecture uses DDS" "ROS" "ros architecture" <= 1)%Q
  /\ boost_score 1.5%Q "ROS 2 architecture uses DDS" "ROS" "ros architecture" = 1%Q
  /\ (boost_score (-0.5)%Q "ROS 2 architecture uses DDS" "ROS" "ros architecture"
      < -0.5)%Q.
Proof.
  split; [| split].
  - apply (proj1 (boost_on_unit_interval 0.4%Q "ROS 2 architecture uses DDS" "ROS"
                    "ros architecture")).
    split; vm_compute; discriminate.
  - apply (proj2 (boost_on_unit_interval 1.5%Q "ROS 2 architecture uses DDS" "ROS"
                    "ros architecture")); [vm_compute; lia | reflexivity].
  - apply (proj2 (boost_on_unit_interval (-0.5)%Q "ROS 2 architecture uses DDS" "ROS"
                    "ros architecture")); [vm_compute; lia | reflexivity].
Defined.

Lemma contains_empty (hay : string) : contains "" hay = true.
Proof. destruct hay; reflexivity. Qed.

Lemma count_matched_pos (terms : list string) (c t term : string) :
  In term terms -> term_matches c t term = true -> 0 < count_matched terms c t.
Proof.
  intros Hin Hm. rewrite count_matched_filter.
  assert (K : In term (filter (term_matches c t) terms)) by (apply filter_In; auto).
  destruct (filter (term_matches c t) terms); [destruct K | simpl; lia].
Qed.

(** X6. The length test reads the word before its punctuation is stripped. A
    query whose words all have at most two characters never boosts anything.
    A word that strips to the empty term (three or more punctuation
    characters) matches every content, so every hit is boosted whatever it
    says. *)
Theorem term_filter_edge_cases (score : Q) (content title query : string) :
  (Forall (fun word => String.length word <= 2) (split (lower query)) ->
   boost_score score content title query = score)
  /\ (In "" (query_terms query) ->
      0 < count_matched (query_terms query) (lower content) (lower title)
      /\ boost_score score content title query
         = py_min (score * boost_factor
                             (count_matched (query_terms query) (lower content)
                                (lower title)))%Q 1%Q).
Proof.
  split.
  - intros H. unfold boost_score, query_terms.
    assert (E : filter (fun term => 2 <? String.length term) (split (lower query)) = []).
    { induction H as [|w ws Hw _ IH]; simpl; [reflexivity |].
      destruct (2 <? String.length w) eqn:L; [| exact IH].
      apply Nat.ltb_lt in L. lia. }
    rewrite E. reflexivity.
  - intros H.
    assert (P : 0 < count_matched (query_terms query) (lower content) (lower title)).
    { apply (count_matched_pos _ _ _ _ H). unfold term_matches.
      now rewrite contains_empty. }
    split; [exact P |].
    unfold boost_score, apply_boost.
    assert (E : (0 <? count_matched (query_terms query) (lower content) (lower title))
                = true) by now apply Nat.ltb_lt.
    now rewrite E.
Qed.

Lemma term_filter_edge_cases_witness :
  boost_score 0.4%Q "Reinforcement learning (RL) for gait" "RL" "RL or ML" = 0.4%Q
  /\ 0 < count_matched (query_terms "gait ???") (lower "Battery packs") (lower "Power").
Proof.
  split.
  - apply (proj1 (term_filter_edge_cases 0.4%Q "Reinforcement learning (RL) for gait"
                    "RL" "RL or ML")).
    vm_compute. repeat constructor.
  - apply (proj2 (term_filter_edge_cases 0.4%Q "Battery packs" "Power" "gait ???")).
    vm_compute. auto.
Defined.

(* ===================================================================== *)
(** * More about retrieve_context *)
(* ===================================================================== *)

Lemma blank_query (query : string) :
  is_empty query || is_empty (strip query) = true <-> strip query = "".
Proof.
  split.
  - intros H. apply orb_true_iff in H as [H | H].
    + destruct query; [reflexivity | discriminate].
    + destruct (strip query); [reflexivity | discriminate].
  - intros H. rewrite H. apply orb_true_r.
Qed.

(** X7. The parameters are checked before anything else, in the order query,
    top_k, min_score, and the collaborators play no part in it:
    [retrieve_context] raises ValidationError exactly when the query is blank
    (message "Query cannot be empty"), or else top_k is outside 1..20, or
    else min_score is outside 0.0..1.0; no failure of the search ever
    surfaces as a ValidationError. *)
Theorem retrieve_context_validation (fs : string -> option Q) (c : Collaborators)
  (query : string) (top_k : Z) (min_score : Q) (msg : string) :
  retrieve_context fs c query top_k min_score = Raise (ValidationError msg)
  <-> (strip query = "" /\ msg = "Query cannot be empty")
      \/ (strip query <> "" /\ (top_k < 1 \/ 20 < top_k)%Z
          /\ msg = "top_k must be between 1 and 20")
      \/ (strip query <> "" /\ (1 <= top_k <= 20)%Z
          /\ ((min_score < 0)%Q \/ (1 < min_score)%Q)
          /\ msg = "min_score must be between 0.0 and 1.0").
Proof.
  unfold retrieve_context.
  destruct (is_empty query || is_empty (strip query)) eqn:E1.
  { apply blank_query in E1. split.
    - intros H; inversion H. left. auto.
    - intros [[_ ->] | [[H _] | [H _]]]; [reflexivity | now elim H | now elim H]. }
  assert (Q1 : strip query <> "").
  { intros H. apply blank_query in H. congruence. }
  destruct ((top_k <? 1)%Z || (20 <? top_k)%Z) eqn:E2.
  { assert (K : (top_k < 1 \/ 20 < top_k)%Z).
    { apply orb_true_iff in E2 as [E2 | E2]; apply Z.ltb_lt in E2; auto. }
    split.
    - intros H; inversion H. right; left. auto.
    - intros [[H _] | [(_ & _ & ->) | (_ & H & _)]];
        [now elim Q1 | reflexivity | lia]. }
  assert (Q2 : (1 <= top_k <= 20)%Z).
  { apply orb_false_iff in E2 as [A B]. apply Z.ltb_ge in A, B. lia. }
  destruct (Qlt_bool min_score 0 || Qlt_bool 1 min_score) eqn:E3.
  { assert (K : (min_score < 0)%Q \/ (1 < min_score)%Q).
    { apply orb_true_iff in E3 as [E3 | E3]; apply Qlt_bool_true in E3; auto. }
    split.
    - intros H; inversion H. right; right. auto.
    - intros [[H _] | [(_ & H & _) | (_ & _ & _ & ->)]];
        [now elim Q1 | lia | reflexivity]. }
  assert (Q3 : (0 <= min_score <= 1)%Q).
  { apply orb_false_iff in E3 as [A B]. split; now apply Qlt_bool_false. }
  split.
  - destruct (retrieve_body fs c query top_k min_score); discriminate.
  - intros [[H _] | [(_ & H & _) | (_ & _ & [H | H] & _)]];
      [now elim Q1 | lia | exfalso; lra | exfalso; lra].
Qed.

Lemma retrieve_context_validation_witness :
  retrieve_context no_float_text qdrant_six "   " 3 0.3%Q
  = Raise (ValidationError "Query cannot be empty")
  /\ retrieve_context no_float_text qdrant_down "gait" 21 2%Q
     = Raise (ValidationError "top_k must be between 1 and 20").
Proof.
  split.
  - apply (proj2 (retrieve_context_validation no_float_text qdrant_six "   " 3 0.3%Q
                    "Query cannot be empty")).
    left. split; reflexivity.
  - apply (proj2 (retrieve_context_validation no_float_text qdrant_down "gait" 21 2%Q
                    "top_k must be between 1 and 20")).
    right; left. split; [vm_compute; discriminate |]. split; [lia | reflexivity].
Defined.

Lemma to_context_raise (r : SearchResult) (d : list (string * pyval)) (e : exn) :
  sr_payload r = PDict d -> to_context r = Raise e -> e = PydanticValidationError.
Proof.
  unfold to_context. intros -> H. simpl in H.
  unfold new_RetrievedContext in H.
  destruct (Qle_bool 0 (sr_score r) && Qle_bool (sr_score r) 1);
    [| now inversion H].
  destruct (dict_get d "content" (PStr "")); try (now inversion H).
  destruct (dict_get d "url" (PStr "")); try (now inversion H).
  destruct (dict_get d "title" (PStr "")); try (now inversion H).
  destruct (dict_get d "headings" (PList [])); try (now inversion H).
  destruct (dict_get d "chunk_index" (PInt 0)); try (now inversion H).
  destruct (dict_get d "source_document" (PStr "")); try (now inversion H).
  destruct (dict_get d "metadata" (PDict [])); try (now inversion H).
  destruct (all_str _); [discriminate | now inversion H].
Qed.

Lemma to_context_score_bound (r : SearchResult) (ctx : RetrievedContext) :
  to_context r = Ok ctx -> (0 <= sr_score r <= 1)%Q.
Proof.
  unfold to_context. intros H.
  repeat (apply bind_ok in H as [? [_ H]]).
  unfold new_RetrievedContext in H.
  destruct (Qle_bool 0 (sr_score r) && Qle_bool (sr_score r) 1) eqn:E; [| discriminate].
  apply andb_true_iff in E as [A B]. split; now apply Qle_bool_iff.
Qed.

Lemma search_payload_dict (fs : string -> option Q) (c : Collaborators)
  (query : string) (limit : Z) (rs : list SearchResult) (r : SearchResult) :
  search fs c query limit = Ok rs -> In r rs -> exists d, sr_payload r = PDict d.
Proof.
  intros Hs Hin. apply search_ok in Hs as (hits & results & Hn & ->).
  apply (proj1 (sort_desc_In _ _)) in Hin.
  destruct (@Forall2_In_r _ _ _ _ _ _ Hn Hin) as [hit [_ Hhit]].
  apply normalize_hit_ok in Hhit as (d & raw & ct & t & rep & _ & _ & _ & _ & ->).
  exists d. reflexivity.
Qed.

(** X8. The score bound of RetrievedContext ([ge=0.0, le=1.0]) is enforced on
    every hit that passes the threshold: all scores that [retrieve_context]
    returns lie between 0 and 1, and a single surviving hit whose score is
    above 1 (a raw score above 1 that no term matched) makes the whole
    retrieval fail with a RetrievalError instead of being dropped or capped. *)
Theorem retrieve_context_score_bound (fs : string -> option Q) (c : Collaborators)
  (query : string) (top_k : Z) (min_score : Q) :
  (forall ctxs, retrieve_context fs c query top_k min_score = Ok ctxs ->
                Forall (fun ctx => (0 <= score ctx <= 1)%Q) ctxs)
  /\ (forall rs r,
         valid_query query top_k min_score ->
         search fs c query top_k = Ok rs ->
         In r rs -> (1 < sr_score r)%Q ->
         retrieve_context fs c query top_k min_score
         = Raise (RetrievalError PydanticValidationError)).
Proof.
  split.
  - intros ctxs H. apply retrieve_context_ok in H as (rs & _ & Hc).
    induction Hc as [|r ctx l ctxs' Hr _ IH]; constructor; [| exact IH].
    rewrite (to_context_score _ Hr). now apply to_context_score_bound in Hr.
  - intros rs r Hv Hs Hin Hbig. rewrite valid_query_passes by exact Hv.
    unfold retrieve_body. rewrite Hs. simpl.
    destruct (map_outcome to_context
                (filter (fun result => Qle_bool min_score (sr_score result)) rs))
      as [ctxs | e] eqn:E.
    + exfalso. apply map_outcome_ok in E.
      assert (Hf : In r (filter (fun result => Qle_bool min_score (sr_score result)) rs)).
      { apply filter_In. split; [exact Hin |]. apply Qle_bool_iff.
        destruct Hv as (_ & _ & [_ Hm]). lra. }
      assert (K : forall l l', Forall2 (fun r ctx => to_context r = Ok ctx) l l' ->
                               In r l -> exists ctx, to_context r = Ok ctx).
      { induction 1 as [|a b l l' Hab _ IH]; simpl; [tauto |].
        intros [-> | Hr]; eauto. }
      destruct (K _ _ E Hf) as [ctx Hctx].
      apply to_context_score_bound in Hctx. lra.
    + apply map_outcome_raise in E as [x [Hx He]].
      apply filter_In in Hx as [Hx _].
      destruct (@search_payload_dict fs c query top_k rs x Hs Hx) as [d Hd].
      now rewrite (@to_context_raise x d e Hd He).
Qed.

Lemma retrieve_context_score_bound_witness :
  (exists ctxs,
      retrieve_context no_float_text qdrant_six "humanoid robot sensors" 3 0.3%Q = Ok ctxs
      /\ Forall (fun ctx => (0 <= score ctx <= 1)%Q) ctxs)
  /\ retrieve_context no_float_text qdrant_dot "humanoid robot sensors" 3 0.3%Q
     = Raise (RetrievalError PydanticValidationError).
Proof.
  split.
  - eexists. split; [vm_compute; reflexivity |].
    apply (proj1 (retrieve_context_score_bound no_float_text qdrant_six
                    "humanoid robot sensors" 3 0.3%Q)).
    vm_compute. reflexivity.
  - destruct (search no_float_text qdrant_dot "humanoid robot sensors" 3)
      as [rs | e] eqn:E; [| vm_compute in E; discriminate E].
    destruct rs as [| r rs]; [vm_compute in E; discriminate E |].
    apply (proj2 (retrieve_context_score_bound no_float_text qdrant_dot
                    "humanoid robot sensors" 3 0.3%Q) (r :: rs) r).
    + split; [vm_compute; discriminate |].
      split; [lia |]. split; vm_compute; discriminate.
    + exact E.
    + now left.
    + vm_compute in E. inversion E. reflexivity.
Defined.

(* ===================================================================== *)
(** * From a stored chunk back to a retrieved context *)
(* ===================================================================== *)

Lemma all_str_map (hs : list string) : all_str (map PStr hs) = Some hs.
Proof. induction hs as [|h t IH]; simpl; [reflexivity | now rewrite IH]. Qed.

(** X9. Round trip of a chunk. The payload [store_chunks] writes for a chunk,
    when the index hands it back as a scored point, passes every check of the
    validator (valid, no error), is kept whole in the search result, and, if
    the boosted score lies between 0 and 1, becomes a RetrievedContext that
    carries the chunk's content, url, title, headings, chunk index, source
    document and metadata unchanged. *)
Theorem stored_chunk_round_trip (fs : string -> option Q) (query : string) (qt : Q)
  (chunk : Storage.EmbeddedChunk) (id : Z) (raw : Q) :
  exists r,
    normalize_hit fs query qt
      (PObj "ScoredPoint"
         [("id", PInt id); ("score", PFloat raw);
          ("payload", PDict (Storage.chunk_payload_fields chunk))]) = Ok r
    /\ sr_payload r = PDict (Storage.chunk_payload_fields chunk)
    /\ sr_score r
       = boost_score raw (Storage.ec_content chunk) (Storage.ec_title chunk) query
    /\ valid (sr_metadata_validation r) = true
    /\ errors (sr_metadata_validation r) = []
    /\ ((0 <= sr_score r <= 1)%Q ->
        to_context r
        = Ok {| score := sr_score r;
                content := Storage.ec_content chunk;
                url := Storage.ec_url chunk;
                title := Storage.ec_title chunk;
                headings := Storage.ec_headings chunk;
                chunk_index := Storage.ec_chunk_index chunk;
                source_document := Storage.ec_source_document chunk;
                metadata := Storage.ec_metadata chunk |}).
Proof.
  set (boosted := boost_score raw (Storage.ec_content chunk) (Storage.ec_title chunk) query).
  set (rd := result_dict boosted (PDict (Storage.chunk_payload_fields chunk))
               (PStr (Storage.ec_url chunk)) (PStr (Storage.ec_title chunk))
               (Storage.ec_content chunk) qt).
  destruct (@validate_metadata_returns rd) as [rep Hrep].
  { intros key value Hk Hl. simpl in Hk.
    destruct Hk as [<- | [<- | [<- | []]]]; inversion Hl; reflexivity. }
  destruct (validate_metadata_structural _ Hrep) as [Hv He].
  exists {| sr_score := boosted;
            sr_payload := PDict (Storage.chunk_payload_fields chunk);
            sr_url := PStr (Storage.ec_url chunk);
            sr_title := PStr (Storage.ec_title chunk);
            sr_content := preview (Storage.ec_content chunk);
            sr_query_time := qt;
            sr_metadata_validation := rep |}.
  split.
  { unfold normalize_hit.
    cbn -[validate_metadata boost_score preview result_dict].
    fold boosted. fold rd. rewrite Hrep. reflexivity. }
  split; [reflexivity |]. split; [reflexivity |].
  split; [simpl; rewrite Hv; reflexivity |].
  split; [simpl; rewrite He; reflexivity |].
  intros [H0 H1]. unfold to_context. simpl.
  unfold new_RetrievedContext.
  apply Qle_bool_iff in H0, H1. simpl in H0, H1. rewrite H0, H1. simpl.
  now rewrite all_str_map.
Qed.

Lemma stored_chunk_round_trip_witness :
  exists r ctx,
    normalize_hit no_float_text "gait criteria" 0.01%Q
      (PObj "ScoredPoint"
         [("id", PInt 7); ("score", PFloat 0.5%Q);
          ("payload", PDict (Storage.chunk_payload_fields sample_chunk))]) = Ok r
    /\ to_context r = Ok ctx
    /\ content ctx = "Zero moment point criteria for gait."
    /\ headings ctx = ["Locomotion"; "Gait"].
Proof.
  destruct (stored_chunk_round_trip no_float_text "gait criteria" 0.01%Q sample_chunk 7
              0.5%Q) as (r & Hn & _ & Hs & _ & _ & Hc).
  exists r. eexists. split; [exact Hn |].
  split; [apply Hc; rewrite Hs; vm_compute; split; discriminate |].
  split; reflexivity.
Defined.

(* ===================================================================== *)
(** * store_chunks *)
(* ===================================================================== *)

Lemma firstn_plus {A : Type} (x y : nat) (l : list A) :
  firstn (x + y) l = firstn x l ++ firstn y (skipn x l).
Proof.
  revert l; induction x as [|x IH]; intro l; simpl; [reflexivity |].
  destruct l as [|a l]; simpl.
  - now rewrite firstn_nil.
  - now rewrite IH.
Qed.

Lemma skipn_plus {A : Type} (x y : nat) (l : list A) :
  skipn (x + y) l = skipn y (skipn x l).
Proof.
  revert l; induction x as [|x IH]; intro l; simpl; [reflexivity |].
  destruct l as [|a l]; simpl; [now rewrite skipn_nil | apply IH].
Qed.

Lemma slice_step {A : Type} (l : list A) (i s : nat) :
  Storage.slice l i (i + s) = firstn s (skipn i l).
Proof. unfold Storage.slice. f_equal. lia. Qed.

(** Consecutive slices of width [s] make up a prefix. *)
Lemma slices_prefix {A : Type} (s : nat) (l : list A) (m a : nat) :
  concat (map (fun k => Storage.slice l (k * s) (k * s + s)) (seq a m))
  = firstn (m * s) (skipn (a * s) l).
Proof.
  revert a; induction m as [|m IH]; intro a; simpl; [reflexivity |].
  rewrite IH, slice_step, firstn_plus. f_equal. f_equal.
  replace (S a * s) with (a * s + s) by lia. now rewrite skipn_plus.
Qed.

Lemma ceil_covers (n s : nat) : 0 < s -> n <= (n + s - 1) / s * s.
Proof.
  intros Hs. pose proof (Nat.div_mod_eq (n + s - 1) s) as E.
  pose proof (Nat.mod_upper_bound (n + s - 1) s ltac:(lia)) as U. nia.
Qed.

Lemma below_ceil (n s k : nat) : 0 < s -> k < (n + s - 1) / s -> k * s < n.
Proof.
  intros Hs Hk. pose proof (Nat.div_mod_eq (n + s - 1) s) as E.
  pose proof (Nat.mod_upper_bound (n + s - 1) s ltac:(lia)) as U. nia.
Qed.

Lemma range_step_map (n s : nat) {B : Type} (f : nat -> B) :
  map f (Storage.range_step n s) = map (fun k => f (k * s)) (seq 0 ((n + s - 1) / s)).
Proof. unfold Storage.range_step. now rewrite map_map. Qed.

(** What the upload loop has done when it stops. *)
Lemma upload_seq (q : Storage.QdrantAdmin) (points : list Storage.PointStruct) (s m a : nat)
  (log : list Storage.call) (r : outcome unit) :
  s = Storage.batch_size ->
  Storage.upload q points (map (fun k => k * s) (seq a m)) = (log, r) ->
  exists j,
    j <= m
    /\ log = map (fun k => Storage.Upsert (Storage.slice points (k * s) (k * s + s)))
               (seq a j)
    /\ (r = Ok tt -> j = m)
    /\ (forall e, r = Raise e ->
                  j < m
                  /\ Storage.upsert q (Storage.slice points ((a + j) * s) ((a + j) * s + s))
                     = Raise e).
Proof.
  intros ->. revert a log r; induction m as [|m IH]; intros a log r H; simpl in H.
  - inversion H; subst. exists 0. repeat split; auto; discriminate.
  - destruct (Storage.upsert q _) as [[] | e] eqn:U.
    + destruct (Storage.upload q points _) as [log' r'] eqn:E.
      inversion H; subst log r; clear H.
      destruct (IH _ _ _ E) as (j & Hj & Hl & Hok & Herr).
      exists (S j). split; [lia |]. split; [simpl; now rewrite Hl |].
      split; [intros Hr; now rewrite (Hok Hr) |].
      intros e Hr. destruct (Herr e Hr) as [Hlt Hu]. split; [lia |].
      replace (a + S j) with (S a + j) by lia. exact Hu.
    + inversion H; subst log r; clear H.
      exists 0. split; [lia |]. split; [reflexivity |].
      split; [discriminate |].
      intros e' Hr; inversion Hr; subst e'. split; [lia |].
      now rewrite Nat.add_0_r.
Qed.

Lemma uploaded_upserts {A : Type} (f : A -> list Storage.PointStruct) (l : list A) :
  Storage.uploaded (map (fun x => Storage.Upsert (f x)) l) = map f l.
Proof. induction l as [|x t IH]; simpl; [reflexivity | now rewrite IH]. Qed.

Lemma make_points_length (fresh : nat -> Z) (chunks : list Storage.EmbeddedChunk) (p : nat) :
  List.length (Storage.make_points fresh p chunks) = List.length chunks.
Proof. revert p; induction chunks as [|c t IH]; intro p; simpl; [reflexivity | now rewrite IH]. Qed.

Lemma make_points_payload (fresh : nat -> Z) (chunks : list Storage.EmbeddedChunk) (p : nat) :
  map Storage.ps_payload (Storage.make_points fresh p chunks)
  = map Storage.chunk_payload_fields chunks.
Proof. revert p; induction chunks as [|c t IH]; intro p; simpl; [reflexivity | now rewrite IH]. Qed.

Lemma initialize_collection_log (q : Storage.QdrantAdmin) (log : list Storage.call)
  (r : outcome unit) :
  Storage.initialize_collection q = (log, r) -> Storage.uploaded log = [].
Proof.
  unfold Storage.initialize_collection. intros H.
  destruct (bind _ _); [inversion H; reflexivity |].
  destruct (Storage.create_collection q); inversion H; reflexivity.
Qed.

Lemma uploaded_app (l1 l2 : list Storage.call) :
  Storage.uploaded (l1 ++ l2) = Storage.uploaded l1 ++ Storage.uploaded l2.
Proof.
  induction l1 as [|[|b] t IH]; simpl; [reflexivity | exact IH | now rewrite IH].
Qed.

(** What [store_chunks] has uploaded when it stops, in full batches of 100
    counted from the start. *)
Lemma store_chunks_uploaded (fresh : nat -> Z) (q : Storage.QdrantAdmin)
  (chunks : list Storage.EmbeddedChunk) (log : list Storage.call) (r : outcome unit) :
  Storage.store_chunks fresh q chunks = (log, r) ->
  (exists e, r = Raise e /\ Storage.uploaded log = [])
  \/ exists j,
       j <= (List.length chunks + 99) / 100
       /\ Storage.uploaded log
          = map (fun k => Storage.slice (Storage.make_points fresh 0 chunks)
                            (k * 100) (k * 100 + 100)) (seq 0 j)
       /\ (r = Ok tt -> j = (List.length chunks + 99) / 100)
       /\ (forall e, r = Raise e -> j < (List.length chunks + 99) / 100).
Proof.
  unfold Storage.store_chunks. intros H.
  destruct (Storage.initialize_collection q) as [log0 r0] eqn:I.
  pose proof (initialize_collection_log _ I) as L0.
  destruct r0 as [[] | e0].
  - right.
    destruct (Storage.upload q _ _) as [log' r'] eqn:U.
    inversion H; subst log r; clear H.
    unfold Storage.range_step in U. rewrite make_points_length in U.
    change (List.length chunks + Storage.batch_size - 1) with (List.length chunks + 100 - 1) in U.
    replace (List.length chunks + 100 - 1) with (List.length chunks + 99) in U by lia.
    destruct (@upload_seq q (Storage.make_points fresh 0 chunks) 100
                ((List.length chunks + 99) / 100) 0 log' r' eq_refl U)
      as (j & Hj & Hl & Hok & Herr).
    exists j. split; [exact Hj |].
    split; [rewrite uploaded_app, L0, Hl; simpl; apply uploaded_upserts |].
    split; [exact Hok |]. intros e Hr. now destruct (Herr e Hr).
  - left. inversion H; subst log r; clear H. exists e0. split; [reflexivity | exact L0].
Qed.

Lemma slice_length {A : Type} (l : list A) (k : nat) :
  List.length (Storage.slice l (k * 100) (k * 100 + 100))
  = Nat.min 100 (List.length l - k * 100).
Proof. rewrite slice_step, length_firstn, length_skipn. reflexivity. Qed.

(** X10. A store that succeeds uploads every chunk exactly once and in order:
    the batches, put end to end, are the points built from the chunks, each
    with the seven payload fields of its chunk; every batch holds between 1
    and 100 points, and there are ceil(n / 100) of them. *)
Theorem store_chunks_uploads_everything (fresh : nat -> Z) (q : Storage.QdrantAdmin)
  (chunks : list Storage.EmbeddedChunk) (log : list Storage.call) :
  Storage.store_chunks fresh q chunks = (log, Ok tt) ->
  concat (Storage.uploaded log) = Storage.make_points fresh 0 chunks
  /\ map Storage.ps_payload (concat (Storage.uploaded log))
     = map Storage.chunk_payload_fields chunks
  /\ Forall (fun batch => 1 <= List.length batch <= 100) (Storage.uploaded log)
  /\ List.length (Storage.uploaded log) = (List.length chunks + 99) / 100.
Proof.
  intros H. apply store_chunks_uploaded in H as [[e [H _]] | (j & _ & Hl & Hok & _)];
    [discriminate H |].
  specialize (Hok eq_refl). subst j.
  set (points := Storage.make_points fresh 0 chunks) in *.
  assert (Hn : List.length points = List.length chunks) by apply make_points_length.
  assert (Hc : concat (Storage.uploaded log) = points).
  { rewrite Hl.
    rewrite (slices_prefix 100 points ((List.length chunks + 99) / 100) 0).
    simpl skipn. apply firstn_all2. rewrite Hn.
    pose proof (@ceil_covers (List.length chunks) 100 ltac:(lia)) as C.
    replace (List.length chunks + 100 - 1) with (List.length chunks + 99) in C by lia.
    exact C. }
  split; [exact Hc |].
  split; [rewrite Hc; apply make_points_payload |].
  split.
  - rewrite Hl. apply Forall_forall. intros batch Hb.
    apply in_map_iff in Hb as [k [<- Hk]]. apply in_seq in Hk.
    rewrite slice_length, Hn.
    assert (K : k * 100 < List.length chunks).
    { apply (@below_ceil (List.length chunks) 100 k); [lia |].
      replace (List.length chunks + 100 - 1) with (List.length chunks + 99) by lia. lia. }
    lia.
  - rewrite Hl. now rewrite length_map, length_seq.
Qed.

Lemma store_chunks_uploads_everything_witness :
  exists log,
    Storage.store_chunks chunk_ids qdrant_ready many_chunks = (log, Ok tt)
    /\ map (@List.length Storage.PointStruct) (Storage.uploaded log) = [100; 100; 50]
    /\ List.length (concat (Storage.uploaded log)) = 250.
Proof.
  destruct (Storage.store_chunks chunk_ids qdrant_ready many_chunks) as [log r] eqn:E.
  assert (Hr : r = Ok tt).
  { change r with (snd (log, r)). rewrite <- E. vm_compute. reflexivity. }
  subst r. exists log. split; [reflexivity |].
  destruct (store_chunks_uploads_everything _ _ _ E) as (Hc & _ & _ & _).
  split.
  - change log with (fst (log, Ok tt : outcome unit)). rewrite <- E. vm_compute. reflexivity.
  - rewrite Hc. rewrite make_points_length. reflexivity.
Defined.

(** X11. A store that fails keeps what it had already uploaded: nothing is
    rolled back. The batches uploaded before the failure are full batches of
    100 and make up the first points, in order; the rest was never sent. *)
Theorem store_chunks_partial_upload (fresh : nat -> Z) (q : Storage.QdrantAdmin)
  (chunks : list Storage.EmbeddedChunk) (log : list Storage.call) (e : exn) :
  Storage.store_chunks fresh q chunks = (log, Raise e) ->
  concat (Storage.uploaded log)
  = firstn (100 * List.length (Storage.uploaded log)) (Storage.make_points fresh 0 chunks)
  /\ Forall (fun batch => List.length batch = 100) (Storage.uploaded log)
  /\ 100 * List.length (Storage.uploaded log) <= List.length chunks.
Proof.
  intros H. apply store_chunks_uploaded in H as [[e' [_ H]] | (j & Hj & Hl & _ & Herr)].
  { rewrite H. simpl. repeat split; [constructor | lia]. }
  specialize (Herr e eq_refl).
  set (points := Storage.make_points fresh 0 chunks) in *.
  assert (Hn : List.length points = List.length chunks) by apply make_points_length.
  assert (Hlen : List.length (Storage.uploaded log) = j).
  { rewrite Hl. now rewrite length_map, length_seq. }
  assert (K : j * 100 < List.length chunks).
  { apply (@below_ceil (List.length chunks) 100 j); [lia |].
    replace (List.length chunks + 100 - 1) with (List.length chunks + 99) by lia. exact Herr. }
  rewrite Hlen. split; [| split; [| lia]].
  - rewrite Hl. rewrite (slices_prefix 100 points j 0). simpl skipn.
    f_equal. lia.
  - rewrite Hl. apply Forall_forall. intros batch Hb.
    apply in_map_iff in Hb as [k [<- Hk]]. apply in_seq in Hk.
    rewrite slice_length, Hn. lia.
Qed.

Lemma store_chunks_partial_upload_witness :
  exists log e,
    Storage.store_chunks chunk_ids qdrant_picky many_chunks = (log, Raise e)
    /\ List.length (concat (Storage.uploaded log)) = 200.
Proof.
  destruct (Storage.store_chunks chunk_ids qdrant_picky many_chunks) as [log r] eqn:E.
  assert (Hr : r = Raise (CollaboratorError "UnexpectedResponse" "400 Bad Request")).
  { change r with (snd (log, r)). rewrite <- E. vm_compute. reflexivity. }
  subst r. exists log. eexists. split; [reflexivity |].
  destruct (store_chunks_partial_upload _ _ _ E) as (Hc & _ & _).
  rewrite Hc.
  assert (Hl : List.length (Storage.uploaded log) = 2).
  { change log with (fst (log, Raise (CollaboratorError "UnexpectedResponse"
                                       "400 Bad Request") : outcome unit)).
    rewrite <- E. vm_compute. reflexivity. }
  rewrite Hl, length_firstn, make_points_length. reflexivity.
Defined.

Lemma upload_no_create (q : Storage.QdrantAdmin) (points : list Storage.PointStruct)
  (starts : list nat) (log : list Storage.call) (r : outcome unit) :
  Storage.upload q points starts = (log, r) -> ~ In Storage.CreateCollection log.
Proof.
  revert log r; induction starts as [|i rest IH]; intros log r H; simpl in H.
  - inversion H. auto.
  - destruct (Storage.upsert q _).
    + destruct (Storage.upload q points rest) as [log' r'] eqn:E.
      inversion H; subst. intros [K | K]; [discriminate K | exact (IH _ _ eq_refl K)].
    + inversion H. auto.
Qed.

Lemma initialize_collection_cases (q : Storage.QdrantAdmin) :
  (Storage.collection_found q /\ Storage.initialize_collection q = ([], Ok tt))
  \/ (~ Storage.collection_found q
      /\ Storage.initialize_collection q
         = match Storage.create_collection q with
           | Ok _ => ([Storage.CreateCollection], Ok tt)
           | Raise e => ([], Raise e)
           end).
Proof.
  unfold Storage.initialize_collection, Storage.collection_found, Storage.attribute.
  destruct (Storage.get_collection q) as [info | e]; simpl.
  - destruct (py_attr info "points_count") as [count |] eqn:A.
    + left. split; [eauto | reflexivity].
    + right. split; [| destruct (Storage.create_collection q) as [[] |]; reflexivity].
      intros (info' & count & H & K). inversion H; subst. congruence.
  - right. split; [| destruct (Storage.create_collection q) as [[] |]; reflexivity].
    intros (info' & count & H & _). discriminate H.
Qed.

(** X12. [store_chunks] creates the collection at most once, before the first
    batch, and only when [get_collection] does not answer with a collection
    that has a points count: a collection that is found is never created
    again, one that is not found is created first, and if that creation
    fails nothing is uploaded. *)
Theorem store_chunks_creates_once (fresh : nat -> Z) (q : Storage.QdrantAdmin)
  (chunks : list Storage.EmbeddedChunk) (log : list Storage.call) (r : outcome unit) :
  Storage.store_chunks fresh q chunks = (log, r) ->
  (Storage.collection_found q -> ~ In Storage.CreateCollection log)
  /\ (~ Storage.collection_found q ->
      (exists rest, Storage.create_collection q = Ok tt
                    /\ log = Storage.CreateCollection :: rest
                    /\ ~ In Storage.CreateCollection rest)
      \/ (exists e, Storage.create_collection q = Raise e
                    /\ log = [] /\ r = Raise e)).
Proof.
  unfold Storage.store_chunks. intros H.
  destruct (initialize_collection_cases q) as [[F I] | [F I]]; rewrite I in H.
  - destruct (Storage.upload q _ _) as [log' r'] eqn:U.
    inversion H; subst log r; clear H. split; [| intros N; now elim N].
    intros _. simpl. exact (upload_no_create _ _ _ U).
  - split; [intros N; now elim F |]. intros _.
    destruct (Storage.create_collection q) as [[] | e].
    + left. destruct (Storage.upload q _ _) as [log' r'] eqn:U.
      inversion H; subst log r; clear H.
      exists log'. repeat split. exact (upload_no_create _ _ _ U).
    + right. inversion H; subst log r. exists e. auto.
Qed.

Lemma store_chunks_creates_once_witness :
  exists log,
    Storage.store_chunks chunk_ids qdrant_ready [sample_chunk] = (log, Ok tt)
    /\ ~ In Storage.CreateCollection log.
Proof.
  destruct (Storage.store_chunks chunk_ids qdrant_ready [sample_chunk]) as [log r] eqn:E.
  assert (Hr : r = Ok tt).
  { change r with (snd (log, r)). rewrite <- E. vm_compute. reflexivity. }
  subst r. exists log. split; [reflexivity |].
  apply (proj1 (store_chunks_creates_once _ _ _ E)).
  exists (PObj "CollectionInfo" [("points_count", PInt 250)]), (PInt 250).
  split; reflexivity.
Defined.

(* ===================================================================== *)
(** * verify_storage and get_retrieval_stats *)
(* ===================================================================== *)

Lemma verify_storage_cases (q : Storage.QdrantAdmin) :
  (exists count works,
      Storage.verify_body q = Ok (count, works)
      /\ Storage.verify_storage q
         = {| Storage.vector_count := count; Storage.sample_search_works := works;
              Storage.collection_exists := true; Storage.error := None |})
  \/ (exists e,
         Storage.verify_body q = Raise e
         /\ Storage.verify_storage q
            = {| Storage.vector_count := PInt 0; Storage.sample_search_works := false;
                 Storage.collection_exists := false; Storage.error := Some e |}).
Proof.
  unfold Storage.verify_storage.
  destruct (Storage.verify_body q) as [[count works] | e]; [left | right]; eauto.
Qed.

(** X13. The health report is coherent. It carries an error exactly when it
    says the collection does not exist, and then the vector count is 0 and
    the sample search is reported as failing; the sample search is reported
    as working only if the collection was found, one of the three methods
    answered, and the first element of its answer has a shape that [search]
    recognises (a score attribute, a tuple, or something subscriptable). *)
Theorem retrieval_stats_coherent (q : Storage.QdrantAdmin) :
  let stats := RetrievalQuality.get_retrieval_stats q in
  (Storage.collection_exists stats = true <-> Storage.error stats = None)
  /\ (Storage.collection_exists stats = false ->
      Storage.vector_count stats = PInt 0 /\ Storage.sample_search_works stats = false)
  /\ (Storage.sample_search_works stats = true ->
      Storage.collection_found q
      /\ exists first,
           search_results (Storage.try_sample_methods q) <> PNone
           /\ Storage.first_result (search_results (Storage.try_sample_methods q))
              = Ok first
           /\ first <> PNone
           /\ Storage.acceptable_hit first = true).
Proof.
  unfold RetrievalQuality.get_retrieval_stats.
  destruct (verify_storage_cases q) as [(count & works & B & ->) | (e & B & ->)]; simpl.
  - split; [tauto |]. split; [discriminate |].
    intros ->. unfold Storage.verify_body in B.
    apply bind_ok in B as [info [G B]].
    apply bind_ok in B as [count' [A B]].
    split.
    { exists info, count'. split; [exact G |].
      unfold Storage.attribute in A. destruct (py_attr info "points_count"); congruence. }
    destruct (search_results (Storage.try_sample_methods q)) eqn:R;
      try discriminate.
    all: apply bind_ok in B as [w [W B]]; inversion B; subst w;
      unfold Storage.sample_works in W;
      destruct (0 <? Storage.result_count _); [| discriminate];
      apply bind_ok in W as [first [F W]];
      exists first; split; [discriminate |]; split; [exact F |];
      destruct first; inversion W; split; try discriminate; congruence.
  - split; [split; discriminate |]. split; [auto | discriminate].
Qed.

Lemma retrieval_stats_coherent_witness :
  Storage.sample_search_works (RetrievalQuality.get_retrieval_stats qdrant_ready) = true
  /\ Storage.collection_found qdrant_ready
  /\ Storage.error (RetrievalQuality.get_retrieval_stats qdrant_ready) = None.
Proof.
  destruct (retrieval_stats_coherent qdrant_ready) as (Herr & _ & Hworks).
  split; [reflexivity |]. split.
  - apply Hworks. reflexivity.
  - apply Herr. reflexivity.
Defined.

(** X14. What the health report says when something fails. If
    [get_collection] raises, the report carries that exception. If the
    collection is found but the three sample searches all raise, the report
    carries the exception of query_points and says collection_exists = False,
    although the collection was found. If the collection is found and the
    sample search answers an empty list, the report has no error, keeps the
    vector count, and says the sample search does not work. *)
Theorem health_check_failures (q : Storage.QdrantAdmin) :
  (forall e, Storage.get_collection q = Raise e ->
             Storage.verify_storage q
             = {| Storage.vector_count := PInt 0; Storage.sample_search_works := false;
                  Storage.collection_exists := false; Storage.error := Some e |})
  /\ (forall info count e1 e2 e3,
         Storage.get_collection q = Ok info ->
         py_attr info "points_count" = Some count ->
         Storage.sample_search q = Raise e1 ->
         Storage.sample_search_points q = Raise e2 ->
         Storage.sample_query_points q = Raise e3 ->
         Storage.verify_storage q
         = {| Storage.vector_count := PInt 0; Storage.sample_search_works := false;
              Storage.collection_exists := false; Storage.error := Some e3 |})
  /\ (forall info count,
         Storage.get_collection q = Ok info ->
         py_attr info "points_count" = Some count ->
         Storage.sample_search q = Ok (PList []) ->
         Storage.verify_storage q
         = {| Storage.vector_count := count; Storage.sample_search_works := false;
              Storage.collection_exists := true; Storage.error := None |}).
Proof.
  split; [| split].
  - intros e G. unfold Storage.verify_storage, Storage.verify_body. now rewrite G.
  - intros info count e1 e2 e3 G A S1 S2 S3.
    unfold Storage.verify_storage, Storage.verify_body, Storage.attribute.
    rewrite G. simpl. rewrite A. simpl.
    unfold Storage.try_sample_methods, try_method. simpl.
    rewrite S1. simpl. rewrite S2. simpl. rewrite S3. reflexivity.
  - intros info count G A S1.
    unfold Storage.verify_storage, Storage.verify_body, Storage.attribute.
    rewrite G. simpl. rewrite A. simpl.
    unfold Storage.try_sample_methods, try_method. simpl.
    rewrite S1. reflexivity.
Qed.

Lemma health_check_failures_witness :
  Storage.verify_storage qdrant_picky
  = {| Storage.vector_count := PInt 0; Storage.sample_search_works := false;
       Storage.collection_exists := false;
       Storage.error := Some (CollaboratorError "UnexpectedResponse" "404 Not Found") |}
  /\ Storage.verify_storage qdrant_blind
     = {| Storage.vector_count := PInt 0; Storage.sample_search_works := false;
          Storage.collection_exists := false;
          Storage.error := Some (CollaboratorError "UnexpectedResponse" "502 Bad Gateway") |}
  /\ Storage.verify_storage qdrant_empty
     = {| Storage.vector_count := PInt 0; Storage.sample_search_works := false;
          Storage.collection_exists := true; Storage.error := None |}.
Proof.
  split; [| split].
  - apply (proj1 (health_check_failures qdrant_picky)). reflexivity.
  - apply (proj1 (proj2 (health_check_failures qdrant_blind))
             (PObj "CollectionInfo" [("points_count", PInt 250)]) (PInt 250)
             (CollaboratorError "ConnectionError" "refused")
             (AttributeError "'QdrantClient' object has no attribute 'search_points'"));
      reflexivity.
  - apply (proj2 (proj2 (health_check_failures qdrant_empty))
             (PObj "CollectionInfo" [("points_count", PInt 0)]) (PInt 0));
      reflexivity.
Defined.

(* ===================================================================== *)
(** * validate_retrieval_quality *)
(* ===================================================================== *)

Lemma min_from_spec (xs : list Q) (best : Q) :
  In (Storage.min_from best xs) (best :: xs)
  /\ Forall (fun x => (Storage.min_from best xs <= x)%Q) (best :: xs).
Proof.
  unfold Storage.min_from. revert best; induction xs as [|x t IH]; intro best; simpl.
  - split; [now left |]. constructor; [apply Qle_refl | constructor].
  - destruct (Qlt_bool x best) eqn:E.
    + destruct (IH x) as [Hin Hall]. split.
      * destruct Hin as [<- | Hin]; [right; now left | right; now right].
      * inversion Hall as [|? ? Hx Ht]; subst.
        constructor; [| constructor; assumption].
        apply Qlt_bool_true in E. apply Qlt_le_weak in E.
        eapply Qle_trans; eassumption.
    + destruct (IH best) as [Hin Hall]. split.
      * destruct Hin as [<- | Hin]; [now left | right; now right].
      * inversion Hall as [|? ? Hb Ht]; subst.
        constructor; [exact Hb |]. constructor; [| exact Ht].
        apply Qlt_bool_false in E. eapply Qle_trans; eassumption.
Qed.

Lemma max_from_spec (xs : list Q) (best : Q) :
  In (Storage.max_from best xs) (best :: xs)
  /\ Forall (fun x => (x <= Storage.max_from best xs)%Q) (best :: xs).
Proof.
  unfold Storage.max_from. revert best; induction xs as [|x t IH]; intro best; simpl.
  - split; [now left |]. constructor; [apply Qle_refl | constructor].
  - destruct (Qlt_bool best x) eqn:E.
    + destruct (IH x) as [Hin Hall]. split.
      * destruct Hin as [<- | Hin]; [right; now left | right; now right].
      * inversion Hall as [|? ? Hx Ht]; subst.
        constructor; [| constructor; assumption].
        apply Qlt_bool_true in E. apply Qlt_le_weak in E.
        eapply Qle_trans; eassumption.
    + destruct (IH best) as [Hin Hall]. split.
      * destruct Hin as [<- | Hin]; [now left | right; now right].
      * inversion Hall as [|? ? Hb Ht]; subst.
        constructor; [exact Hb |]. constructor; [| exact Ht].
        apply Qlt_bool_false in E. eapply Qle_trans; eassumption.
Qed.

Lemma total_from_nonneg (xs : list Q) (acc : Q) :
  (0 <= acc)%Q -> Forall (fun x => (0 <= x)%Q) xs -> (0 <= fold_left Qplus xs acc)%Q.
Proof.
  revert acc; induction xs as [|x t IH]; intros acc Ha H; simpl; [exact Ha |].
  inversion H; subst. apply IH; [lra | assumption].
Qed.

Lemma square_nonneg (d : Q) : (0 <= d * d)%Q.
Proof. destruct d as [a b]. unfold Qle, Qmult. simpl. nia. Qed.

Lemma squares_nonneg (avg : Q) (xs : list Q) :
  (0 <= Storage.total (map (fun s => (s - avg) * (s - avg))%Q xs))%Q.
Proof.
  apply total_from_nonneg; [lra |].
  apply Forall_forall. intros y Hy. apply in_map_iff in Hy as [s [<- _]].
  apply square_nonneg.
Qed.

Lemma n_of_pos (len : nat) : 0 < len -> (0 < Storage.n_of len)%Q.
Proof.
  intros H. unfold Storage.n_of. change 0%Q with (inject_Z 0). rewrite <- Zlt_Qlt. lia.
Qed.

Lemma variance_nonneg (avg : Q) (xs : list Q) (len : nat) :
  0 < len ->
  (0 <= Storage.total (map (fun s => (s - avg) * (s - avg))%Q xs) / Storage.n_of len)%Q.
Proof.
  intros H. pose proof (squares_nonneg avg xs) as S. pose proof (n_of_pos H) as N.
  apply Qle_shift_div_l; [exact N | lra].
Qed.

(** X15. The quality report of a list of contexts. For the empty list the
    four score figures are 0 and nothing is claimed about sources. For a
    non-empty list the reported minimum and maximum are scores of the list
    that bound every score in it, and the variance is not negative. Sources
    are reported valid exactly when the list is non-empty and every url is
    non-empty. *)
Theorem quality_report_facts (query : string) (contexts : list RetrievedContext) :
  let report := RetrievalQuality.validate_retrieval_quality query contexts in
  RetrievalQuality.context_count report = List.length contexts
  /\ (RetrievalQuality.has_content report = true <-> contexts <> [])
  /\ (RetrievalQuality.has_valid_sources report = true
      <-> contexts <> [] /\ Forall (fun ctx => url ctx <> "") contexts)
  /\ (contexts = [] ->
      RetrievalQuality.avg_score report = 0%Q
      /\ RetrievalQuality.min_score report = 0%Q
      /\ RetrievalQuality.max_score report = 0%Q
      /\ RetrievalQuality.score_variance report = 0%Q)
  /\ (contexts <> [] ->
      In (RetrievalQuality.min_score report) (map score contexts)
      /\ In (RetrievalQuality.max_score report) (map score contexts)
      /\ Forall (fun ctx => (RetrievalQuality.min_score report <= score ctx
                             <= RetrievalQuality.max_score report)%Q) contexts
      /\ (0 <= RetrievalQuality.score_variance report)%Q).
Proof.
  assert (U : forall l : list RetrievedContext,
             forallb (fun ctx => negb (is_empty (url ctx))) l = true
             <-> Forall (fun ctx => url ctx <> "") l).
  { intro l. rewrite forallb_forall, Forall_forall.
    split; intros H ctx Hin; specialize (H ctx Hin).
    - intros E. rewrite E in H. discriminate.
    - destruct (url ctx); [now elim H | reflexivity]. }
  destruct contexts as [|ctx0 rest].
  - simpl. split; [reflexivity |]. split; [split; [discriminate | intros H; now elim H] |].
    split; [split; [discriminate | intros [H _]; now elim H] |].
    split; [auto | intros H; now elim H].
  - unfold RetrievalQuality.validate_retrieval_quality.
    cbn [map RetrievalQuality.context_count RetrievalQuality.has_content
         RetrievalQuality.has_valid_sources RetrievalQuality.avg_score
         RetrievalQuality.min_score RetrievalQuality.max_score
         RetrievalQuality.score_variance].
    split; [reflexivity |].
    split; [split; [discriminate | reflexivity] |].
    split.
    { rewrite U. split; [intros H; split; [discriminate | exact H] | intros [_ H]; exact H]. }
    split; [discriminate |]. intros _.
    destruct (min_from_spec (map score rest) (score ctx0)) as [Imin Amin].
    destruct (max_from_spec (map score rest) (score ctx0)) as [Imax Amax].
    split; [exact Imin |]. split; [exact Imax |].
    split.
    + change (score ctx0 :: map score rest) with (map score (ctx0 :: rest)) in Amin, Amax.
      rewrite Forall_forall in Amin, Amax. apply Forall_forall. intros ctx Hin.
      split; [apply Amin | apply Amax]; now apply in_map.
    + apply (@variance_nonneg
               (Storage.total (score ctx0 :: map score rest)
                / Storage.n_of (List.length (score ctx0 :: map score rest)))%Q
               (score ctx0 :: map score rest)).
      simpl. lia.
Qed.

Lemma quality_report_facts_witness :
  In (RetrievalQuality.min_score
        (RetrievalQuality.validate_retrieval_quality "gait" two_contexts))
     (map score two_contexts)
  /\ (0 <= RetrievalQuality.score_variance
             (RetrievalQuality.validate_retrieval_quality "gait" two_contexts))%Q.
Proof.
  destruct (quality_report_facts "gait" two_contexts) as (_ & _ & _ & _ & H).
  destruct H as (Hmin & _ & _ & Hvar); [discriminate |].
  split; assumption.
Defined.

Lemma max_from_id (xs : list Q) (best : Q) :
  Forall (fun x => (x <= best)%Q) xs -> Storage.max_from best xs = best.
Proof.
  unfold Storage.max_from. induction 1 as [|x t Hx _ IH]; simpl; [reflexivity |].
  unfold Qlt_bool. apply Qle_bool_iff in Hx. rewrite Hx. simpl. exact IH.
Qed.

Lemma last_cons {A : Type} (t : list A) (x d : A) : last (x :: t) d = last t x.
Proof.
  revert x d; induction t as [|a t IH]; intros x d; [reflexivity |].
  change (last (x :: a :: t) d) with (last (a :: t) d).
  now rewrite (IH a d), (IH a x).
Qed.

Lemma last_in {A : Type} (t : list A) (x : A) : In (last t x) (x :: t).
Proof.
  revert x; induction t as [|a t IH]; intro x; [now left |].
  rewrite last_cons. right. apply IH.
Qed.

Lemma min_from_sorted (t : list Q) (best b : Q) :
  (best == b)%Q -> non_increasing (b :: t) ->
  (Storage.min_from best t == last t b)%Q.
Proof.
  unfold Storage.min_from. revert best b; induction t as [|x t IH]; intros best b E S.
  - simpl. exact E.
  - inversion S as [|? ? St Hb]; subst. inversion Hb as [|? ? Hx _]; subst.
    rewrite last_cons. simpl.
    destruct (Qlt_bool x best) eqn:C.
    + apply IH; [reflexivity | exact St].
    + apply Qlt_bool_false in C. apply IH; [| exact St]. lra.
Qed.

(** X16. The quality report of what [retrieve_context] returned. The list
    comes back best first, so the reported maximum is the score of the first
    context and the reported minimum equals the score of the last one; the
    minimum is not below the threshold that was asked for and the maximum is
    not above 1. *)
Theorem quality_of_retrieved (fs : string -> option Q) (c : Collaborators)
  (query : string) (top_k : Z) (min_score : Q)
  (first : RetrievedContext) (rest : list RetrievedContext) :
  retrieve_context fs c query top_k min_score = Ok (first :: rest) ->
  let report := RetrievalQuality.validate_retrieval_quality query (first :: rest) in
  RetrievalQuality.max_score report = score first
  /\ (RetrievalQuality.min_score report == score (last rest first))%Q
  /\ (min_score <= RetrievalQuality.min_score report)%Q
  /\ (RetrievalQuality.max_score report <= 1)%Q.
Proof.
  intros H.
  assert (S : non_increasing (map score (first :: rest))).
  { pose proof H as H'. apply retrieve_context_ok in H' as (rs & Hs & Hc).
    rewrite (contexts_scores Hc). apply sorted_scores, filter_sorted.
    now apply search_sorted in Hs. }
  assert (T : Forall (fun ctx => (min_score <= score ctx)%Q) (first :: rest)).
  { pose proof H as H'. apply retrieve_context_ok in H' as (rs & Hs & Hc).
    pose proof (contexts_scores Hc) as Hm.
    apply Forall_forall. intros ctx Hctx.
    assert (Hin : In (score ctx) (map sr_score
              (filter (fun r => Qle_bool min_score (sr_score r)) rs))).
    { rewrite <- Hm. now apply in_map. }
    apply in_map_iff in Hin as [r [Hr Hf]]. apply filter_In in Hf as [_ Hf].
    rewrite <- Hr. now apply Qle_bool_iff. }
  assert (B : Forall (fun ctx => (0 <= score ctx <= 1)%Q) (first :: rest)).
  { apply retrieve_context_ok in H as (rs & _ & Hc).
    clear S T. induction Hc as [|r ctx l ctxs' Hr _ IH]; constructor; [| exact IH].
    rewrite (to_context_score _ Hr). now apply to_context_score_bound in Hr. }
  unfold RetrievalQuality.validate_retrieval_quality.
  cbn [map RetrievalQuality.min_score RetrievalQuality.max_score].
  simpl in S. inversion S as [|? ? St Hf]; subst.
  assert (M : Storage.max_from (score first) (map score rest) = score first)
    by (apply max_from_id; exact Hf).
  split; [exact M |].
  assert (N : (Storage.min_from (score first) (map score rest)
               == score (last rest first))%Q).
  { rewrite (min_from_sorted (t := map score rest) (best := score first)
               (b := score first)); [| reflexivity | exact S].
    clear. revert first. induction rest as [|x t IH]; intro first; [reflexivity |].
    change (map score (x :: t)) with (score x :: map score t).
    rewrite !last_cons. apply IH. }
  split; [exact N |]. split.
  - rewrite N. rewrite Forall_forall in T. apply T. apply last_in.
  - rewrite M. inversion B as [|? ? Hb _]; subst. apply Hb.
Qed.

Lemma quality_of_retrieved_witness :
  exists first rest,
    retrieve_context no_float_text qdrant_six "humanoid robot sensors" 3 0.3%Q
    = Ok (first :: rest)
    /\ RetrievalQuality.max_score
         (RetrievalQuality.validate_retrieval_quality "humanoid robot sensors"
            (first :: rest)) = score first
    /\ score first = 0.9%Q.
Proof.
  destruct (retrieve_context no_float_text qdrant_six "humanoid robot sensors" 3 0.3%Q)
    as [[|first rest] | e] eqn:E; try (vm_compute in E; discriminate E).
  exists first, rest. split; [reflexivity |].
  split; [exact (proj1 (quality_of_retrieved _ _ _ _ _ E)) |].
  vm_compute in E. inversion E. reflexivity.
Defined.

(* ===================================================================== *)
(** * _calculate_confidence *)
(* ===================================================================== *)

Lemma py_min_ge (a b low : Q) : (low <= a)%Q -> (low <= b)%Q -> (low <= py_min a b)%Q.
Proof. intros Ha Hb. destruct (py_min_cases a b) as [[_ ->] | [_ ->]]; assumption. Qed.

Lemma total_nonneg (xs : list Q) :
  Forall (fun x => (0 <= x)%Q) xs -> (0 <= Storage.total xs)%Q.
Proof. intros H. apply total_from_nonneg; [lra | exact H]. Qed.

(** X17. The confidence of an answer. It is 0 without contexts; it never
    looks at the grounding flag it is given; with at least one context whose
    scores are not negative it lies between 0.08 and 1, and it never exceeds
    1 whatever the scores. *)
Theorem confidence_bounds (contexts : list RetrievedContext) :
  (contexts = [] -> forall is_valid, Agent.calculate_confidence contexts is_valid = 0%Q)
  /\ (forall is_valid is_valid',
         Agent.calculate_confidence contexts is_valid
         = Agent.calculate_confidence contexts is_valid')
  /\ (contexts <> [] -> forall is_valid,
         (Agent.calculate_confidence contexts is_valid <= 1)%Q)
  /\ (contexts <> [] -> Forall (fun ctx => (0 <= score ctx)%Q) contexts ->
      forall is_valid, (0.08 <= Agent.calculate_confidence contexts is_valid)%Q).
Proof.
  split; [intros -> b; reflexivity |].
  split; [intros b b'; reflexivity |].
  destruct contexts as [|ctx0 rest].
  { split; [intros H; now elim H | intros H; now elim H]. }
  split.
  - intros _ b. unfold Agent.calculate_confidence. apply py_min_le_r.
  - intros _ Hs b. unfold Agent.calculate_confidence.
    set (scores := map score (ctx0 :: rest)).
    set (len := List.length scores).
    assert (Hlen : 0 < len) by (unfold len, scores; simpl; lia).
    assert (Hn : (1 <= Storage.n_of len)%Q).
    { unfold Storage.n_of. change 1%Q with (inject_Z 1). rewrite <- Zle_Qle. lia. }
    assert (Ht : (0 <= Storage.total scores)%Q).
    { apply total_nonneg. apply Forall_forall. intros x Hx.
      apply in_map_iff in Hx as [ctx [<- Hin]]. rewrite Forall_forall in Hs. now apply Hs. }
    assert (Ha : (0 <= Storage.total scores / Storage.n_of len)%Q).
    { apply Qle_shift_div_l; lra. }
    assert (Hsf : (0 <= py_min (Storage.total scores / Storage.n_of len * 2) 1)%Q).
    { apply py_min_ge; lra. }
    assert (Hc : (0.2 <= py_min (Storage.n_of (List.length (ctx0 :: rest)) / 5) 1)%Q).
    { apply py_min_ge; [| lra].
      assert (K : (1 <= Storage.n_of (List.length (ctx0 :: rest)))%Q).
      { unfold Storage.n_of. change 1%Q with (inject_Z 1). rewrite <- Zle_Qle.
        simpl List.length. lia. }
      apply Qle_shift_div_l; lra. }
    apply py_min_ge; lra.
Qed.

Lemma confidence_bounds_witness :
  (Agent.calculate_confidence two_contexts true <= 1)%Q
  /\ (0.08 <= Agent.calculate_confidence two_contexts false)%Q.
Proof.
  destruct (confidence_bounds two_contexts) as (_ & _ & Hup & Hlow).
  split.
  - apply Hup. discriminate.
  - apply Hlow; [discriminate |].
    repeat constructor; vm_compute; discriminate.
Defined.

(* ===================================================================== *)
(** * validate_relevance_scoring *)
(* ===================================================================== *)

Lemma number_isinstance (v : pyval) :
  isinstance_int_float v = true <-> exists q, Storage.number v = Some q.
Proof.
  destruct v; simpl; split; try discriminate; eauto;
    intros [q H]; discriminate H.
Qed.

Lemma py_sum_from_ok (values : list pyval) (acc : Q) (floating : bool) (s : Q) :
  Storage.py_sum_from acc floating values = Ok s ->
  forallb isinstance_int_float values = true.
Proof.
  revert acc floating; induction values as [|v t IH]; intros acc fl H; simpl in *.
  - reflexivity.
  - destruct (Storage.number v) as [q|] eqn:N; [| discriminate].
    apply IH in H. rewrite H, andb_true_r.
    apply number_isinstance. eauto.
Qed.

Lemma py_sum_from_raise (values : list pyval) (acc : Q) (floating : bool) (bad : pyval) :
  In bad values -> Storage.number bad = None ->
  exists msg, Storage.py_sum_from acc floating values = Raise (TypeError msg).
Proof.
  revert acc floating; induction values as [|v t IH]; intros acc fl Hin Hb; simpl.
  - destruct Hin.
  - destruct (Storage.number v) as [q|] eqn:N.
    + destruct Hin as [-> | Hin]; [congruence |]. now apply IH.
    + eauto.
Qed.

Lemma distinct_covers (xs : list Q) (x : Q) :
  In x xs -> exists y, In y (Storage.distinct xs) /\ (x == y)%Q.
Proof.
  revert x; induction xs as [|a t IH]; intro x; simpl; [tauto |].
  intros [-> | Hin].
  - destruct (existsb (Qeq_bool x) t) eqn:E.
    + apply existsb_exists in E as [y [Hy Hxy]]. apply Qeq_bool_iff in Hxy.
      destruct (IH y Hy) as [z [Hz Hyz]]. exists z. split; [exact Hz |].
      now rewrite Hxy.
    + exists x. split; [now left | reflexivity].
  - destruct (IH x Hin) as [y [Hy Hxy]].
    destruct (existsb (Qeq_bool a) t); [eauto |].
    exists y. split; [now right | exact Hxy].
Qed.

Lemma few_distinct_all_equal (xs : list Q) (x y : Q) :
  List.length (Storage.distinct xs) <= 1 -> In x xs -> In y xs -> (x == y)%Q.
Proof.
  intros L Hx Hy.
  destruct (distinct_covers xs x Hx) as [x' [Hx' Ex]].
  destruct (distinct_covers xs y Hy) as [y' [Hy' Ey]].
  destruct (Storage.distinct xs) as [|d [|d' rest]]; simpl in *; try tauto; try lia.
  destruct Hx' as [<- | []]. destruct Hy' as [<- | []].
  now rewrite Ex, Ey.
Qed.

(** X18. The score statistics of a result list. With no results the report
    is valid and empty. A score that is not a number makes the call raise
    TypeError instead of reporting an invalid list; whenever a report comes
    back, over the finite numbers modelled here, it says valid. In a report
    the minimum is at most the maximum, a meaningful difference (range above
    0.05) implies that the scores are differentiated, and a "good"
    distribution (range above 0.1) implies a meaningful difference. *)
Theorem relevance_report_facts (sqrt : Q -> Q) (results : list (list (string * pyval)))
  (query : string) :
  (results = [] ->
   exists report,
     Storage.validate_relevance_scoring sqrt results query = Ok report
     /\ Storage.rr_valid report = true
     /\ Storage.sa_count (Storage.score_analysis report) = 0
     /\ Storage.is_differentiated (Storage.relevance_indicators report) = false)
  /\ (forall result,
         In result results ->
         Storage.number (dict_get result "score" (PInt 0)) = None ->
         exists msg, Storage.validate_relevance_scoring sqrt results query
                     = Raise (TypeError msg))
  /\ (forall report,
         Storage.validate_relevance_scoring sqrt results query = Ok report ->
         Storage.rr_valid report = true
         /\ Storage.sa_count (Storage.score_analysis report) = List.length results
         /\ (Storage.sa_min (Storage.score_analysis report)
             <= Storage.sa_max (Storage.score_analysis report))%Q
         /\ (Storage.has_meaningful_diff (Storage.relevance_indicators report) = Some true ->
             Storage.is_differentiated (Storage.relevance_indicators report) = true)
         /\ (Storage.score_distribution (Storage.relevance_indicators report) = Some "good" ->
             Storage.has_meaningful_diff (Storage.relevance_indicators report) = Some true)).
Proof.
  split; [intros ->; eexists; simpl; repeat split; reflexivity |].
  split.
  - intros result Hin Hbad. destruct results as [|r0 rest]; [destruct Hin |].
    unfold Storage.validate_relevance_scoring.
    set (scores := map (fun r => dict_get r "score" (PInt 0)) (r0 :: rest)).
    destruct (@py_sum_from_raise scores 0%Q false (dict_get result "score" (PInt 0)))
      as [msg E]; [| exact Hbad |].
    + unfold scores. apply in_map_iff. eauto.
    + exists msg. now rewrite E.
  - intros report H. destruct results as [|r0 rest].
    { inversion H; subst. simpl.
      repeat split; try reflexivity; try discriminate; try apply Qle_refl. }
    unfold Storage.validate_relevance_scoring in H.
    set (scores := map (fun r => dict_get r "score" (PInt 0)) (r0 :: rest)) in *.
    set (xs := map (fun v => match Storage.number v with Some q => q | None => 0%Q end)
                 scores) in *.
    apply bind_ok in H as [s [Hs H]].
    pose proof (py_sum_from_ok _ _ _ Hs) as V.
    assert (Lx : exists x0 t, xs = x0 :: t).
    { unfold xs, scores. simpl. eauto. }
    destruct Lx as (x0 & t & Ex). rewrite Ex in H. simpl hd in H. simpl tl in H.
    rewrite V in H.
    inversion H; subst report; clear H.
    cbn [Storage.rr_valid Storage.score_analysis Storage.relevance_indicators
         Storage.sa_count Storage.sa_min Storage.sa_max Storage.has_meaningful_diff
         Storage.is_differentiated Storage.score_distribution].
    destruct (min_from_spec t x0) as [Imin Amin].
    destruct (max_from_spec t x0) as [Imax Amax].
    split; [reflexivity |].
    split; [unfold scores; now rewrite length_map |].
    split.
    { rewrite Forall_forall in Amin. now apply Amin. }
    assert (R : forall bound : Q,
               (0 <= bound)%Q ->
               Qlt_bool bound (Storage.max_from x0 t - Storage.min_from x0 t) = true ->
               1 < List.length (Storage.distinct (x0 :: t))).
    { intros bound Hb Hr. apply Qlt_bool_true in Hr.
      destruct (Nat.lt_ge_cases 1 (List.length (Storage.distinct (x0 :: t))))
        as [G | G]; [exact G |].
      pose proof (few_distinct_all_equal (x0 :: t) _ _ G Imax Imin) as E. lra. }
    split.
    + intros M. injection M as M'. apply orb_true_iff. left.
      apply Nat.ltb_lt. apply (R 0.05%Q); [lra | exact M'].
    + intros G. f_equal.
      destruct (Qlt_bool 0.1 (Storage.max_from x0 t - Storage.min_from x0 t)) eqn:D;
        [| discriminate G].
      apply Qlt_bool_true in D. unfold Qlt_bool. apply negb_true_iff.
      destruct (Qle_bool (Storage.max_from x0 t - Storage.min_from x0 t) 0.05) eqn:C;
        [| reflexivity].
      apply Qle_bool_iff in C. lra.
Qed.

Lemma relevance_report_facts_witness :
  exists report,
    Storage.validate_relevance_scoring (fun x => x) unit_test_results "test query"
    = Ok report
    /\ Storage.rr_valid report = true
    /\ Storage.sa_count (Storage.score_analysis report) = 3
    /\ Storage.is_differentiated (Storage.relevance_indicators report) = true.
Proof.
  eexists. split; [vm_compute; reflexivity |].
  destruct (proj2 (proj2 (relevance_report_facts (fun x => x) unit_test_results
                            "test query")) _ eq_refl) as (Hv & Hc & _ & Hd & _).
  split; [exact Hv |]. split; [exact Hc |]. apply Hd. reflexivity.
Defined.

(* ===================================================================== *)
(** * The error list of validate_metadata *)
(* ===================================================================== *)

Section ErrorFolds.

Variable A : Type.
Variable step : ValidationReport -> A -> ValidationReport.
Variable ok : A -> bool.
Variable msg : A -> string.

Hypothesis step_spec :
  forall r x, step r x = if ok x then r else add_error r (msg x).

Lemma fold_checks_errors (l : list A) (r : ValidationReport) :
  errors (fold_left step l r)
  = errors r ++ map msg (filter (fun x => negb (ok x)) l).
Proof.
  revert r; induction l as [|x xs IH]; intro r; simpl.
  - now rewrite app_nil_r.
  - rewrite IH, step_spec. destruct (ok x); simpl; [reflexivity |].
    now rewrite <- app_assoc.
Qed.

End ErrorFolds.

(** X19. The error list, exactly. Whenever the validator returns, its errors
    are one message per failed check and nothing else: first the missing
    top-level fields in the order score, payload, url, title, content, then
    either "Payload must be a dictionary" or, for a dict payload, one message
    per payload field that is missing or of the wrong type, in the order url,
    title, content, headings, chunk_index, source_document, metadata. *)
Theorem validate_metadata_error_list (result : list (string * pyval))
  (rep : ValidationReport) :
  validate_metadata result = Ok rep ->
  errors rep
  = map missing_field
      (filter (fun field => negb (dict_has result field)) required_result_fields)
    ++ match dict_get result "payload" (PDict []) with
       | PDict payload =>
           map (payload_field_message payload)
             (filter (fun field => negb (payload_field_ok payload field))
                required_payload_fields)
       | _ => ["Payload must be a dictionary"]
       end.
Proof.
  intros H. apply validate_metadata_structural in H as [_ ->].
  unfold structural_checks, check_payload, check_result_fields.
  set (r1 := fold_left _ required_result_fields empty_report).
  assert (E1 : errors r1
               = map missing_field
                   (filter (fun field => negb (dict_has result field))
                      required_result_fields)).
  { unfold r1.
    rewrite (fold_checks_errors _ (dict_has result) missing_field); auto. }
  destruct (dict_get result "payload" (PDict [])) as [| b | z | q | s | l | l | l | d | c a];
    try (simpl; now rewrite E1).
  rewrite (fold_checks_errors _ (payload_field_ok d) (payload_field_message d)).
  - now rewrite E1.
  - apply check_payload_field_spec.
Qed.

Lemma validate_metadata_error_list_witness :
  exists rep,
    validate_metadata
      (envelope (PDict [("url", PList []); ("title", PStr "Test Title");
                        ("content", PStr "Test content");
                        ("headings", PList []); ("chunk_index", PInt 0);
                        ("source_document", PStr "doc1")])
         (PStr "https://example.com")) = Ok rep
    /\ errors rep
       = ["Payload field 'url' must be a string";
          "Missing required payload field: metadata"].
Proof.
  destruct (validate_metadata
              (envelope (PDict [("url", PList []); ("title", PStr "Test Title");
                                ("content", PStr "Test content");
                                ("headings", PList []); ("chunk_index", PInt 0);
                                ("source_document", PStr "doc1")])
                 (PStr "https://example.com"))) as [rep | e] eqn:E;
    [| vm_compute in E; discriminate E].
  exists rep. split; [reflexivity |].
  rewrite (validate_metadata_error_list _ E). reflexivity.
Defined.

(* ===================================================================== *)
(** * process_query *)
(* ===================================================================== *)

Lemma retrieved_scores_in_unit (fs : string -> option Q) (c : Collaborators)
  (query : string) (top_k : Z) (min_score : Q) (ctxs : list RetrievedContext) :
  retrieve_context fs c query top_k min_score = Ok ctxs ->
  Forall (fun ctx => (0 <= score ctx <= 1)%Q) ctxs.
Proof.
  intros H. apply retrieve_context_ok in H as (rs & _ & Hc).
  induction Hc as [|r ctx l ctxs' Hr _ IH]; constructor; [| exact IH].
  rewrite (to_context_score _ Hr). now apply to_context_score_bound in Hr.
Qed.

Lemma confidence_upper (contexts : list RetrievedContext) (is_valid : bool) :
  (Agent.calculate_confidence contexts is_valid <= 1)%Q.
Proof.
  unfold Agent.calculate_confidence. destruct contexts; [lra | apply py_min_le_r].
Qed.

Lemma confidence_lower (ctx0 : RetrievedContext) (rest : list RetrievedContext)
  (is_valid : bool) :
  Forall (fun ctx => (0 <= score ctx)%Q) (ctx0 :: rest) ->
  (0.08 <= Agent.calculate_confidence (ctx0 :: rest) is_valid)%Q.
Proof.
  intros Hs. unfold Agent.calculate_confidence.
  set (scores := map score (ctx0 :: rest)).
  set (len := List.length scores).
  assert (Hlen : 0 < len) by (unfold len, scores; simpl; lia).
  assert (Hn : (1 <= Storage.n_of len)%Q).
  { unfold Storage.n_of. change 1%Q with (inject_Z 1). rewrite <- Zle_Qle. lia. }
  assert (Ht : (0 <= Storage.total scores)%Q).
  { apply total_nonneg. apply Forall_forall. intros x Hx.
    apply in_map_iff in Hx as [ctx [<- Hin]]. rewrite Forall_forall in Hs. now apply Hs. }
  assert (Ha : (0 <= Storage.total scores / Storage.n_of len)%Q).
  { apply Qle_shift_div_l; lra. }
  assert (Hsf : (0 <= py_min (Storage.total scores / Storage.n_of len * 2) 1)%Q).
  { apply py_min_ge; lra. }
  assert (Hc : (0.2 <= py_min (Storage.n_of (List.length (ctx0 :: rest)) / 5) 1)%Q).
  { apply py_min_ge; [| lra].
    assert (K : (1 <= Storage.n_of (List.length (ctx0 :: rest)))%Q).
    { unfold Storage.n_of. change 1%Q with (inject_Z 1). rewrite <- Zle_Qle.
      simpl List.length. lia. }
    apply Qle_shift_div_l; lra. }
  apply py_min_ge; lra.
Qed.

Lemma new_AgentResponse_ok (env : Agent.AgentEnv) (query answer : string)
  (ctxs : list RetrievedContext) (confidence : Q) (sources : list string) :
  (0 <= confidence <= 1)%Q ->
  Agent.new_AgentResponse env query answer ctxs confidence sources
  = Ok {| Agent.ar_query := query; Agent.ar_answer := answer;
          Agent.ar_retrieved_context := ctxs; Agent.ar_confidence := confidence;
          Agent.ar_sources := sources;
          Agent.ar_processing_time := Agent.processing_time env;
          Agent.ar_timestamp := Agent.timestamp env |}.
Proof.
  intros [H0 H1]. unfold Agent.new_AgentResponse.
  apply Qle_bool_iff in H0, H1. now rewrite H0, H1.
Qed.

Lemma py_max_bounds (a low high : Q) :
  (low <= high)%Q -> (a <= high)%Q -> (low <= Agent.py_max a low <= high)%Q.
Proof.
  intros Hl Ha. unfold Agent.py_max. destruct (Qlt_bool a low) eqn:E.
  - lra.
  - apply Qlt_bool_false in E. lra.
Qed.

Lemma positive_scores (ctxs : list RetrievedContext) :
  Forall (fun ctx => (0 <= score ctx <= 1)%Q) ctxs ->
  Forall (fun ctx => (0 <= score ctx)%Q) ctxs.
Proof. apply Forall_impl. intros ctx [H _]. exact H. Qed.

(** X20. The three tiers of [process_query]. When the first retrieval finds
    contexts, the answer is the stripped reply of the model, the contexts are
    those found, and the confidence lies between 0.08 and 1. When it finds
    none, the retrieval is repeated with threshold 0: if that finds contexts,
    they are used and the confidence lies between 0.1 and 0.5; if it finds
    none either, the model is not asked at all and the response is the fixed
    apology with confidence 0.1, no context and no source. *)
Theorem process_query_tiers (fs : string -> option Q) (c : Collaborators)
  (env : Agent.AgentEnv) (query_text : string) (top_k : Z) (min_score temperature : Q) :
  (forall first rest reply,
      retrieve_context fs c query_text top_k min_score = Ok (first :: rest) ->
      Agent.chat env
        [("system", Agent.system_prompt);
         ("user", Agent.user_prompt
                    (Agent.format_context_for_model env (first :: rest)) query_text)]
        temperature = Ok (PStr reply) ->
      exists response,
        Agent.process_query fs c env query_text top_k min_score temperature
        = Agent.Answered response
        /\ Agent.ar_answer response = strip reply
        /\ Agent.ar_retrieved_context response = first :: rest
        /\ Agent.ar_sources response = Agent.unique_sources env (first :: rest)
        /\ (0.08 <= Agent.ar_confidence response <= 1)%Q)
  /\ (forall first rest reply,
         retrieve_context fs c query_text top_k min_score = Ok [] ->
         retrieve_context fs c query_text top_k 0%Q = Ok (first :: rest) ->
         Agent.chat env
           [("system", Agent.system_prompt_low);
            ("user", Agent.user_prompt_low
                       (Agent.format_context_for_model env (first :: rest)) query_text)]
           temperature = Ok (PStr reply) ->
         exists response,
           Agent.process_query fs c env query_text top_k min_score temperature
           = Agent.Answered response
           /\ Agent.ar_answer response = strip reply
           /\ Agent.ar_retrieved_context response = first :: rest
           /\ Agent.ar_sources response = Agent.unique_sources env (first :: rest)
           /\ (0.1 <= Agent.ar_confidence response <= 0.5)%Q)
  /\ (retrieve_context fs c query_text top_k min_score = Ok [] ->
      retrieve_context fs c query_text top_k 0%Q = Ok [] ->
      Agent.process_query fs c env query_text top_k min_score temperature
      = Agent.Answered
          {| Agent.ar_query := query_text;
             Agent.ar_answer := Agent.generate_fallback_response query_text;
             Agent.ar_retrieved_context := [];
             Agent.ar_confidence := 0.1%Q;
             Agent.ar_sources := [];
             Agent.ar_processing_time := Agent.processing_time env;
             Agent.ar_timestamp := Agent.timestamp env |}).
Proof.
  split; [| split].
  - intros first rest reply R C.
    pose proof (retrieved_scores_in_unit _ _ _ _ _ R) as B.
    unfold Agent.process_query, Agent.process_body. rewrite R. cbn [bind].
    unfold Agent.ask. rewrite C. cbn [bind str_method].
    set (conf := Agent.calculate_confidence (first :: rest) (Agent.grounded (strip reply))).
    assert (Hc : (0.08 <= conf <= 1)%Q).
    { split; [apply confidence_lower, positive_scores, B | apply confidence_upper]. }
    assert (Hc' : (0 <= conf <= 1)%Q) by (destruct Hc; split; lra).
    rewrite (@new_AgentResponse_ok env query_text (strip reply) (first :: rest) conf
               (Agent.unique_sources env (first :: rest)) Hc').
    eexists. split; [reflexivity |]. simpl. repeat split; apply Hc.
  - intros first rest reply R0 R C.
    pose proof (retrieved_scores_in_unit _ _ _ _ _ R) as B.
    unfold Agent.process_query, Agent.process_body. rewrite R0. cbn [bind].
    rewrite R. cbn [bind]. unfold Agent.ask. rewrite C. cbn [bind str_method].
    set (conf := Agent.calculate_confidence (first :: rest) (Agent.grounded (strip reply))).
    assert (Hc : (conf <= 1)%Q) by apply confidence_upper.
    assert (Hm : (0.1 <= Agent.py_max (conf * 0.5) 0.1 <= 0.5)%Q)
      by (apply py_max_bounds; lra).
    assert (Hm' : (0 <= Agent.py_max (conf * 0.5) 0.1 <= 1)%Q)
      by (destruct Hm; split; lra).
    rewrite (@new_AgentResponse_ok env query_text (strip reply) (first :: rest)
               (Agent.py_max (conf * 0.5) 0.1)
               (Agent.unique_sources env (first :: rest)) Hm').
    eexists. split; [reflexivity |]. simpl. repeat split; apply Hm.
  - intros R0 R. unfold Agent.process_query, Agent.process_body.
    rewrite R0. cbn [bind]. rewrite R. reflexivity.
Qed.

Lemma process_query_tiers_witness :
  (exists response,
      Agent.process_query no_float_text qdrant_six demo_env "humanoid robot sensors" 3
        0.95%Q 0.7%Q = Agent.Answered response
      /\ Agent.ar_answer response = "Balance is kept with ZMP control."
      /\ (0.1 <= Agent.ar_confidence response <= 0.5)%Q)
  /\ (exists response,
         Agent.process_query no_float_text qdrant_no_hits demo_env "humanoid robot sensors"
           3 0.3%Q 0.7%Q = Agent.Answered response
         /\ Agent.ar_confidence response = 0.1%Q
         /\ Agent.ar_retrieved_context response = []).
Proof.
  destruct (process_query_tiers no_float_text qdrant_six demo_env
              "humanoid robot sensors" 3 0.95%Q 0.7%Q) as (_ & Hlow & _).
  destruct (process_query_tiers no_float_text qdrant_no_hits demo_env
              "humanoid robot sensors" 3 0.3%Q 0.7%Q) as (_ & _ & Hnone).
  split.
  - destruct (retrieve_context no_float_text qdrant_six "humanoid robot sensors" 3 0%Q)
      as [[|first rest] | e] eqn:E; try (vm_compute in E; discriminate E).
    destruct (Hlow first rest "  Balance is kept with ZMP control.  ")
      as (response & Hp & Ha & _ & _ & Hc).
    + vm_compute. reflexivity.
    + reflexivity.
    + reflexivity.
    + exists response. split; [exact Hp |]. split; [rewrite Ha; reflexivity | exact Hc].
  - eexists. split; [apply Hnone; vm_compute; reflexivity |]. split; reflexivity.
Defined.

Lemma retrieve_context_raise (fs : string -> option Q) (c : Collaborators)
  (query : string) (top_k : Z) (min_score : Q) (e : exn) :
  retrieve_context fs c query top_k min_score = Raise e ->
  (exists msg, e = ValidationError msg) \/ (exists cause, e = RetrievalError cause).
Proof.
  unfold retrieve_context. intros H.
  destruct (is_empty query || is_empty (strip query)); [inversion H; eauto |].
  destruct ((top_k <? 1)%Z || (20 <? top_k)%Z); [inversion H; eauto |].
  destruct (Qlt_bool min_score 0 || Qlt_bool 1 min_score); [inversion H; eauto |].
  destruct (retrieve_body fs c query top_k min_score); [discriminate |].
  inversion H; eauto.
Qed.

Lemma ask_raise (env : Agent.AgentEnv) (system user : string) (temperature : Q) (e : exn) :
  Agent.ask env system user temperature = Raise e ->
  (exists messages, Agent.chat env messages temperature = Raise e)
  \/ (exists messages reply msg,
         Agent.chat env messages temperature = Ok reply
         /\ isinstance_str reply = false
         /\ (e = AttributeError msg \/ e = TypeError msg)).
Proof.
  unfold Agent.ask. intros H.
  apply bind_raise in H as [H | [reply [C H]]]; [left; eauto |].
  right. apply bind_raise in H as [H | [text [_ H]]]; [| discriminate].
  exists [("system", system); ("user", user)], reply.
  destruct (str_method_raise _ _ H) as [msg Hm]. exists msg.
  split; [exact C |]. split; [| exact Hm].
  destruct reply; try reflexivity. discriminate H.
Qed.

(** X21. Every way [process_query] can fail. Its AgentError always wraps one
    of: the ValidationError for bad parameters, the RetrievalError of a
    failed retrieval, the exception of the chat call, or the AttributeError
    or TypeError raised when the reply of the model is not a text. The bound
    on the confidence of the response never rejects a response, and bad
    parameters never surface as anything but an AgentError. *)
Theorem process_query_failure_modes (fs : string -> option Q) (c : Collaborators)
  (env : Agent.AgentEnv) (query_text : string) (top_k : Z) (min_score temperature : Q) :
  (forall e,
      Agent.process_query fs c env query_text top_k min_score temperature
      = Agent.AgentError e ->
      (exists msg, e = ValidationError msg)
      \/ (exists cause, e = RetrievalError cause)
      \/ (exists messages, Agent.chat env messages temperature = Raise e)
      \/ (exists messages reply msg,
             Agent.chat env messages temperature = Ok reply
             /\ isinstance_str reply = false
             /\ (e = AttributeError msg \/ e = TypeError msg)))
  /\ (forall e,
         retrieve_context fs c query_text top_k min_score = Raise e ->
         Agent.process_query fs c env query_text top_k min_score temperature
         = Agent.AgentError e).
Proof.
  split.
  - intros e H. unfold Agent.process_query in H.
    destruct (Agent.process_body fs c env query_text top_k min_score temperature)
      as [r | e'] eqn:B; [discriminate |].
    inversion H; subst e'; clear H.
    unfold Agent.process_body in B.
    apply bind_raise in B as [B | [ctxs [R B]]].
    { apply retrieve_context_raise in B as [B | B]; auto. }
    destruct ctxs as [|first rest].
    + apply bind_raise in B as [B | [low [R0 B]]].
      { apply retrieve_context_raise in B as [B | B]; auto. }
      destruct low as [|first rest].
      * unfold Agent.new_AgentResponse in B. discriminate B.
      * apply bind_raise in B as [B | [text [_ B]]].
        { right; right. now apply ask_raise in B. }
        exfalso.
        assert (Hm : (0.1 <= Agent.py_max
                               (Agent.calculate_confidence (first :: rest)
                                  (Agent.grounded text) * 0.5) 0.1 <= 0.5)%Q).
        { apply py_max_bounds; [lra |].
          pose proof (confidence_upper (first :: rest) (Agent.grounded text)). lra. }
        rewrite new_AgentResponse_ok in B by (destruct Hm; split; lra).
        discriminate B.
    + apply bind_raise in B as [B | [text [_ B]]].
      { right; right. now apply ask_raise in B. }
      exfalso.
      pose proof (retrieved_scores_in_unit _ _ _ _ _ R) as S.
      pose proof (confidence_lower (Agent.grounded text) (positive_scores S)) as L.
      pose proof (confidence_upper (first :: rest) (Agent.grounded text)) as U.
      rewrite new_AgentResponse_ok in B by (split; lra).
      discriminate B.
  - intros e R. unfold Agent.process_query, Agent.process_body. now rewrite R.
Qed.

Lemma process_query_failure_modes_witness :
  Agent.process_query no_float_text qdrant_six demo_env "   " 3 0.3%Q 0.7%Q
  = Agent.AgentError (ValidationError "Query cannot be empty")
  /\ exists messages reply msg,
       Agent.chat mute_env messages 0.7%Q = Ok reply
       /\ isinstance_str reply = false
       /\ (AttributeError "'NoneType' object has no attribute 'strip'" = AttributeError msg
           \/ AttributeError "'NoneType' object has no attribute 'strip'" = TypeError msg).
Proof.
  split.
  - apply (proj2 (process_query_failure_modes no_float_text qdrant_six demo_env "   " 3
                    0.3%Q 0.7%Q)).
    reflexivity.
  - destruct (proj1 (process_query_failure_modes no_float_text qdrant_six mute_env
                       "humanoid robot sensors" 3 0.3%Q 0.7%Q)
                (AttributeError "'NoneType' object has no attribute 'strip'"))
      as [[msg H] | [[cause H] | [[messages H] | H]]].
    + vm_compute. reflexivity.
    + discriminate H.
    + discriminate H.
    + discriminate H.
    + exact H.
Defined.

(* ===================================================================== *)
(** * The endpoints *)
(* ===================================================================== *)

(** X22. The health endpoint. The status is "healthy" exactly when the sample
    search works, and then qdrant is "connected" and the pipeline
    "operational"; an operational pipeline implies a connected qdrant; qdrant
    is "disconnected" exactly when the verification caught an exception, so a
    collection that is found but cannot be searched is reported
    disconnected. *)
Theorem health_check_status (q : Storage.QdrantAdmin) (now : string) :
  let response := Endpoint.health_check q now in
  let stats := Storage.verify_storage q in
  (Endpoint.status response = "healthy" <-> Storage.sample_search_works stats = true)
  /\ (Endpoint.status response = "healthy" \/ Endpoint.status response = "degraded")
  /\ (Endpoint.status response = "healthy" ->
      Endpoint.services response
      = [("qdrant", "connected"); ("retrieval_pipeline", "operational");
         ("openai_compatible_api", "available")])
  /\ (In ("retrieval_pipeline", "operational") (Endpoint.services response) ->
      In ("qdrant", "connected") (Endpoint.services response))
  /\ (In ("qdrant", "disconnected") (Endpoint.services response)
      <-> Storage.error stats <> None).
Proof.
  unfold Endpoint.health_check, RetrievalQuality.get_retrieval_stats.
  destruct (verify_storage_cases q) as [(count & works & _ & ->) | (e & _ & ->)];
    cbn [Storage.collection_exists Storage.sample_search_works Storage.error
         Storage.vector_count Endpoint.status Endpoint.services].
  - destruct works; simpl.
    + split; [tauto |]. split; [auto |]. split; [reflexivity |].
      split; [intros _; now left |].
      split; [intros [H | [H | [H | []]]]; discriminate H | intros H; now elim H].
    + split; [split; discriminate |]. split; [auto |]. split; [discriminate |].
      split; [intros _; now left |].
      split; [intros [H | [H | [H | []]]]; discriminate H | intros H; now elim H].
  - simpl. split; [split; discriminate |]. split; [auto |]. split; [discriminate |].
    split; [intros [H | [H | [H | []]]]; discriminate H |].
    split; [discriminate | intros _; now left].
Qed.

Lemma health_check_status_witness :
  Endpoint.services (Endpoint.health_check qdrant_ready "1730000000.0")
  = [("qdrant", "connected"); ("retrieval_pipeline", "operational");
     ("openai_compatible_api", "available")]
  /\ In ("qdrant", "disconnected")
        (Endpoint.services (Endpoint.health_check qdrant_blind "1730000000.0")).
Proof.
  split.
  - apply (proj1 (proj2 (proj2 (health_check_status qdrant_ready "1730000000.0")))).
    reflexivity.
  - apply (proj2 (proj2 (proj2 (proj2 (health_check_status qdrant_blind
                                          "1730000000.0"))))).
    discriminate.
Defined.




(* ===================================================================== *)
(** * Score statistics of a search *)
(* ===================================================================== *)




